(** * pyaedt: version keys, desktop release and the EDB component cache

    A shallow embedding of the parts of [pyaedt/desktop.py] and
    [pyaedt/edb_core/components.py] that do not live inside the vendor
    process: the version-key arithmetic, the release/close sequences seen as
    traces of calls made on the COM side, the component cache with its
    classification views, and the BOM and resistor-value parsers.

    Calls into the vendor application are recorded as events; what the
    application answers is a field of the modelled world. *)

From Stdlib Require Import ZArith List String Ascii Bool Lia QArith Qpower.
From Stdlib Require Import Numbers.DecimalString.
Import ListNotations.

Local Open Scope string_scope.
Local Open Scope Z_scope.

(* ===================================================================== *)
(** ** Python outcomes: a value or a raised exception *)
(* ===================================================================== *)

Inductive exn : Type :=
| ValueError
| IndexError
| KeyError (k : string)
| TypeError
| AttributeError
| UnboundLocalError (name : string)
| AssertionError (msg : string)
| OSError
| ComError.

Inductive result (A : Type) : Type :=
| Ok (a : A)
| Raise (e : exn).
Arguments Ok {A} a.
Arguments Raise {A} e.

Definition rbind {A B} (r : result A) (k : A -> result B) : result B :=
  match r with
  | Ok a => k a
  | Raise e => Raise e
  end.

(** Stateful code: the state survives a raised exception, as the attributes
    of a Python object do when a method is left through an exception. *)
Definition M (S A : Type) : Type := S -> result A * S.

Definition ret {S A} (a : A) : M S A := fun s => (Ok a, s).
Definition raise {S A} (e : exn) : M S A := fun s => (Raise e, s).
Definition bind {S A B} (m : M S A) (k : A -> M S B) : M S B :=
  fun s => match m s with
           | (Ok a, s') => k a s'
           | (Raise e, s') => (Raise e, s')
           end.
Definition lift {S A} (r : result A) : M S A := fun s => (r, s).
Definition get_state {S} : M S S := fun s => (Ok s, s).
Definition modify {S} (f : S -> S) : M S unit := fun s => (Ok tt, f s).

(** [try: body except: handler] with a bare [except]. *)
Definition try_except {S A} (body : M S A) (handler : M S A) : M S A :=
  fun s => match body s with
           | (Ok a, s') => (Ok a, s')
           | (Raise _, s') => handler s'
           end.

Declare Scope py_scope.
Delimit Scope py_scope with py.
Notation "x <- m ;; k" := (bind m (fun x => k))
  (at level 61, m at next level, right associativity) : py_scope.
Notation "m ;;; k" := (bind m (fun _ => k))
  (at level 61, right associativity) : py_scope.

(** [for x in xs: body x] *)
Fixpoint for_each {S A} (xs : list A) (body : A -> M S unit) : M S unit :=
  match xs with
  | [] => ret tt
  | x :: rest => bind (body x) (fun _ => for_each rest body)
  end.

(* ===================================================================== *)
(** ** The string methods the sources call *)
(* ===================================================================== *)

Module PyStr.

(** [old] is a prefix of [s]: on success the rest of [s] after it. *)
Fixpoint strip_prefix (old s : string) : option string :=
  match old with
  | EmptyString => Some s
  | String a old' =>
      match s with
      | EmptyString => None
      | String c s' => if Ascii.eqb a c then strip_prefix old' s' else None
      end
  end.

(** [s.replace(old, new)] for a non-empty [old]: left to right, matches do
    not overlap.  [skip] counts the characters of a match still to drop. *)
Fixpoint replace_from (old new s : string) (skip : nat) : string :=
  match s with
  | EmptyString => EmptyString
  | String c s' =>
      match skip with
      | S n => replace_from old new s' n
      | O =>
          match strip_prefix old s with
          | Some _ => new ++ replace_from old new s' (String.length old - 1)
          | None => String c (replace_from old new s' 0)
          end
      end
  end.

(** With an empty [old] Python puts [new] before every character and at the
    end. *)
Fixpoint intersperse (new s : string) : string :=
  match s with
  | EmptyString => new
  | String c s' => new ++ String c (intersperse new s')
  end.

Definition replace (old new s : string) : string :=
  match old with
  | EmptyString => intersperse new s
  | _ => replace_from old new s 0
  end.

(** [s.split(sep)] for a non-empty [sep]; [cur] is the field being read, in
    reverse.  The result always has at least one field. *)
Fixpoint rev_string (acc s : string) : string :=
  match s with
  | EmptyString => acc
  | String c s' => rev_string (String c acc) s'
  end.

Fixpoint split_from (sep s : string) (skip : nat) (cur : string) : list string :=
  match s with
  | EmptyString => [rev_string "" cur]
  | String c s' =>
      match skip with
      | S n => split_from sep s' n cur
      | O =>
          match strip_prefix sep s with
          | Some _ => rev_string "" cur :: split_from sep s' (String.length sep - 1) ""
          | None => split_from sep s' 0 (String c cur)
          end
      end
  end.

Definition split (sep s : string) : result (list string) :=
  match sep with
  | EmptyString => Raise ValueError
  | _ => Ok (split_from sep s 0 "")
  end.

(** [str.isspace] on the ASCII range. *)
Definition is_space (c : ascii) : bool :=
  let n := nat_of_ascii c in
  ((9 <=? n) && (n <=? 13) || (28 <=? n) && (n <=? 32))%nat.

Fixpoint lstrip (s : string) : string :=
  match s with
  | EmptyString => EmptyString
  | String c s' => if is_space c then lstrip s' else s
  end.

Definition strip (s : string) : string :=
  rev_string "" (lstrip (rev_string "" (lstrip s))).

Definition lower_char (c : ascii) : ascii :=
  let n := nat_of_ascii c in
  if ((65 <=? n) && (n <=? 90))%nat then ascii_of_nat (n + 32) else c.

Fixpoint lower (s : string) : string :=
  match s with
  | EmptyString => EmptyString
  | String c s' => String (lower_char c) (lower s')
  end.

(** [sub in s] *)
Fixpoint contains (sub s : string) : bool :=
  match strip_prefix sub s with
  | Some _ => true
  | None =>
      match s with
      | EmptyString => false
      | String _ s' => contains sub s'
      end
  end.

(** [s[i:]] and [s[i:j]] for non-negative bounds (slices clamp). *)
Fixpoint drop (n : nat) (s : string) : string :=
  match n, s with
  | O, _ => s
  | S n', String _ s' => drop n' s'
  | S _, EmptyString => EmptyString
  end.

Fixpoint take (n : nat) (s : string) : string :=
  match n, s with
  | S n', String c s' => String c (take n' s')
  | _, _ => EmptyString
  end.

Definition slice (i j : nat) (s : string) : string := take (j - i) (drop i s).

(** [s[i]] raises [IndexError] past the end. *)
Definition item (i : nat) (s : string) : result string :=
  match String.get i s with
  | Some c => Ok (String c "")
  | None => Raise IndexError
  end.

(** [str(n)] for an [int]. *)
Definition str (n : Z) : string := NilZero.string_of_int (Z.to_int n).

Definition is_digit (c : ascii) : bool :=
  let n := nat_of_ascii c in ((48 <=? n) && (n <=? 57))%nat.

Definition digit_val (c : ascii) : Z := Z.of_nat (nat_of_ascii c) - 48.

Fixpoint all_digits (s : string) : bool :=
  match s with
  | EmptyString => true
  | String c s' => is_digit c && all_digits s'
  end.

Fixpoint digits_value (acc : Z) (s : string) : Z :=
  match s with
  | EmptyString => acc
  | String c s' => digits_value (10 * acc + digit_val c) s'
  end.

(** An unsigned run of at least one decimal digit. *)
Definition parse_digits (s : string) : option Z :=
  match s with
  | EmptyString => None
  | _ => if all_digits s then Some (digits_value 0 s) else None
  end.

(** An optional sign, then what [p] reads. *)
Definition with_sign {A} (neg : A -> A) (p : string -> option A) (s : string)
  : option A :=
  match s with
  | String "-" s' => option_map neg (p s')
  | String "+" s' => p s'
  | _ => p s
  end.

(** [int(s)]: surrounding white space, an optional sign, decimal digits.
    Digit-group underscores are not read here; anything else is the
    [ValueError] Python raises. *)
Definition int (s : string) : result Z :=
  match with_sign Z.opp parse_digits (strip s) with
  | Some n => Ok n
  | None => Raise ValueError
  end.

(** A decimal number [mant * 10 ^ expo]: what a float literal denotes.
    [float] below returns this exact value; the rounding of it to the
    nearest binary double is not part of the model. *)
Record decimal : Type := Decimal { mant : Z; expo : Z }.

Definition dec_neg (d : decimal) : decimal := Decimal (- mant d) (expo d).
Definition dec_scale (k : Z) (d : decimal) : decimal := Decimal (mant d) (expo d + k).
Definition dec_value (d : decimal) : Q := inject_Z (mant d) * Qpower (10 # 1) (expo d).

(** Cut [s] at the first character satisfying [p]. *)
Fixpoint break_at (p : ascii -> bool) (s : string) : string * option string :=
  match s with
  | EmptyString => (EmptyString, None)
  | String c s' =>
      if p c then (EmptyString, Some s')
      else let (a, b) := break_at p s' in (String c a, b)
  end.

Definition is_dot (c : ascii) : bool := Ascii.eqb c ".".
Definition is_exp_mark (c : ascii) : bool := Ascii.eqb c "e" || Ascii.eqb c "E".

(** [digits], [digits.], [.digits] or [digits.digits]. *)
Definition parse_mantissa (s : string) : option decimal :=
  match break_at is_dot s with
  | (ip, None) => option_map (fun n => Decimal n 0) (parse_digits ip)
  | (ip, Some fp) =>
      if all_digits ip && all_digits fp
         && negb ((String.length ip =? 0)%nat && (String.length fp =? 0)%nat)
      then Some (Decimal (digits_value 0 (ip ++ fp)) (- Z.of_nat (String.length fp)))
      else None
  end.

Definition parse_float_body (s : string) : option decimal :=
  let (m, e) := break_at is_exp_mark s in
  match parse_mantissa m with
  | None => None
  | Some d =>
      match e with
      | None => Some d
      | Some es => option_map (fun k => dec_scale k d) (with_sign Z.opp parse_digits es)
      end
  end.

(** [float(s)] on decimal literals: white space, sign, mantissa, optional
    exponent, read as the exact decimal that Python rounds to the nearest
    double.  Python's [float] also returns a value on [inf], [infinity] and
    [nan] and on digit groups written with underscores; this function
    answers [ValueError] there as on every string that is no decimal
    literal, so it stands for [float] on the strings free of those
    forms, which are the ones the statements below are about. *)
Definition float (s : string) : result decimal :=
  match with_sign dec_neg parse_float_body (strip s) with
  | Some d => Ok d
  | None => Raise ValueError
  end.

End PyStr.

(* ===================================================================== *)
(** ** Python dictionaries: insertion-ordered, one entry per key *)
(* ===================================================================== *)

Module Dict.

Definition dict (V : Type) : Type := list (string * V).

Definition keys {V} (d : dict V) : list string := map fst d.

Fixpoint get {V} (k : string) (d : dict V) : option V :=
  match d with
  | [] => None
  | (k', v) :: rest => if String.eqb k k' then Some v else get k rest
  end.

(** [d[k] = v]: an existing key keeps its place, a new one goes last. *)
Fixpoint set {V} (k : string) (v : V) (d : dict V) : dict V :=
  match d with
  | [] => [(k, v)]
  | (k', v') :: rest =>
      if String.eqb k k' then (k', v) :: rest else (k', v') :: set k v rest
  end.

Fixpoint remove {V} (k : string) (d : dict V) : dict V :=
  match d with
  | [] => []
  | (k', v') :: rest =>
      if String.eqb k k' then rest else (k', v') :: remove k rest
  end.

(** [del d[k]] *)
Definition del {V} (k : string) (d : dict V) : result (dict V) :=
  match get k d with
  | Some _ => Ok (remove k d)
  | None => Raise (KeyError k)
  end.

(** [d[k]] *)
Definition item {V} (k : string) (d : dict V) : result V :=
  match get k d with
  | Some v => Ok v
  | None => Raise (KeyError k)
  end.

(** The invariant every Python dict has. *)
Definition wf {V} (d : dict V) : Prop := NoDup (keys d).

End Dict.

(** [x in xs] for a list of strings. *)
Definition str_in (x : string) (xs : list string) : bool :=
  existsb (String.eqb x) xs.

(** [xs.index(x)] where [x in xs] has been tested. *)
Fixpoint index_of (x : string) (xs : list string) : option nat :=
  match xs with
  | [] => None
  | y :: rest => if String.eqb x y then Some O else option_map S (index_of x rest)
  end.

(* ===================================================================== *)
(** ** desktop.py *)
(* ===================================================================== *)

Module Desktop.

Local Open Scope py_scope.

(** *** Version keys *)

(** The body of the loop of [Desktop.version_keys] up to [v_key]. *)
Definition version_key_of (version_env_var : string) : result string :=
  let current_version_id := PyStr.replace "ANSYSEM_ROOT" "" version_env_var in
  rbind (PyStr.int (PyStr.slice 0 2 current_version_id)) (fun version =>
  rbind (PyStr.item 2 current_version_id) (fun c =>
  rbind (PyStr.int c) (fun release =>
  let '(version, release) :=
    if version <? 20 then
      if release <? 3 then (version - 1, release) else (version, release - 2)
    else (version, release) in
  Ok ("20" ++ PyStr.str version ++ "." ++ PyStr.str release)))).

(** [get_version_env_variable] *)
Definition get_version_env_variable (version_id : string) : result string :=
  let version_env_var := "ANSYSEM_ROOT" in
  rbind (PyStr.split "." version_id) (fun values =>
  rbind (match nth_error values 0 with Some v => Ok v | None => Raise IndexError end)
    (fun v0 =>
  rbind (PyStr.int (PyStr.drop 2 v0)) (fun version =>
  rbind (match nth_error values 1 with Some v => Ok v | None => Raise IndexError end)
    (fun v1 =>
  rbind (PyStr.int v1) (fun release =>
  let '(version, release) :=
    if version <? 20 then
      if release <? 3 then (version + 1, release) else (version, release + 2)
    else (version, release) in
  Ok (version_env_var ++ PyStr.str version ++ PyStr.str release)))))).

(** [get_version_key] *)
Definition get_version_key (version_id : string) : result string :=
  rbind (PyStr.split "." version_id) (fun values =>
  rbind (match nth_error values 0 with Some v => Ok v | None => Raise IndexError end)
    (fun v0 =>
  rbind (PyStr.int (PyStr.drop 2 v0)) (fun version =>
  rbind (match nth_error values 1 with Some v => Ok v | None => Raise IndexError end)
    (fun v1 =>
  rbind (PyStr.int v1) (fun release =>
  Ok (PyStr.str version ++ PyStr.str release)))))).

(** *** The interpreter around the vendor process *)

Inductive com_backend : Type := pythonnet | pythonnet_v3 | pywin32.

(** What the desktop object answers when asked. *)
Record desktop_handle : Type := {
  ScopeID : Z;
  ProcessID : Z;
  ProjectList : list string;
  GetProjectList_ok : bool;    (* [false]: the COM call raises *)
  Version : string
}.

(** A module attribute that may be unset, [None], or hold a value. *)
Inductive attr (A : Type) : Type :=
| Unset
| IsNone
| Holds (a : A).
Arguments Unset {A}.
Arguments IsNone {A}.
Arguments Holds {A} a.

Inductive event : Type :=
| EvGetProjectList
| EvCloseProject (prj : string)
| EvReleaseCOMObjectScope (i : Z)
| EvGetProcessID
| EvKill (pid sig : Z)
| EvDelDesktop
| EvDelInitialized
| EvInfoMessage (msg : string)
| EvErrorMessage (msg : string)
| EvLogError (msg : string)
| EvCloseLogHandlers
| EvRestoreWindow
| EvTasklist
| EvCreateObjectNew (ng : bool)
| EvCreateObject (version : string)
| EvDispatch (version : string)
| EvGetRunningObject (pid : string).

(** [sys.modules['__main__']], the [Desktop] instance and the machine. *)
Record main : Type := {
  com : com_backend;                     (* module-level [_com] *)
  oDesktop : attr desktop_handle;
  COMUtil : bool;                        (* [Module.COMUtil] is set *)
  pyaedt_initialized : bool;             (* the attribute is set *)
  close_on_exit : bool;
  AEDTVersion : string;
  installed : list string;               (* [list_installed_ansysem()] *)
  version_keys_ : list string;           (* [self._version_keys] *)
  version_ids_ : Dict.dict string;       (* [self._version_ids] *)
  release_ : bool;                       (* [self.release] *)
  kill_ok : bool;                        (* [false]: [os.kill] raises *)
  tasklist : list (list string);         (* answers of the [tasklist] scans *)
  launched : desktop_handle;             (* the desktop a launch yields *)
  rot_has : bool;                        (* a running-object moniker matches *)
  trace : list event                     (* calls made, latest first *)
}.

Definition set_oDesktop (v : attr desktop_handle) (m : main) : main :=
  {| com := com m; oDesktop := v; COMUtil := COMUtil m;
     pyaedt_initialized := pyaedt_initialized m; close_on_exit := close_on_exit m;
     AEDTVersion := AEDTVersion m; installed := installed m;
     version_keys_ := version_keys_ m; version_ids_ := version_ids_ m;
     release_ := release_ m; kill_ok := kill_ok m; tasklist := tasklist m;
     launched := launched m; rot_has := rot_has m; trace := trace m |}.

Definition set_COMUtil (v : bool) (m : main) : main :=
  {| com := com m; oDesktop := oDesktop m; COMUtil := v;
     pyaedt_initialized := pyaedt_initialized m; close_on_exit := close_on_exit m;
     AEDTVersion := AEDTVersion m; installed := installed m;
     version_keys_ := version_keys_ m; version_ids_ := version_ids_ m;
     release_ := release_ m; kill_ok := kill_ok m; tasklist := tasklist m;
     launched := launched m; rot_has := rot_has m; trace := trace m |}.

Definition set_pyaedt_initialized (v : bool) (m : main) : main :=
  {| com := com m; oDesktop := oDesktop m; COMUtil := COMUtil m;
     pyaedt_initialized := v; close_on_exit := close_on_exit m;
     AEDTVersion := AEDTVersion m; installed := installed m;
     version_keys_ := version_keys_ m; version_ids_ := version_ids_ m;
     release_ := release_ m; kill_ok := kill_ok m; tasklist := tasklist m;
     launched := launched m; rot_has := rot_has m; trace := trace m |}.

Definition set_close_on_exit (v : bool) (m : main) : main :=
  {| com := com m; oDesktop := oDesktop m; COMUtil := COMUtil m;
     pyaedt_initialized := pyaedt_initialized m; close_on_exit := v;
     AEDTVersion := AEDTVersion m; installed := installed m;
     version_keys_ := version_keys_ m; version_ids_ := version_ids_ m;
     release_ := release_ m; kill_ok := kill_ok m; tasklist := tasklist m;
     launched := launched m; rot_has := rot_has m; trace := trace m |}.

Definition set_AEDTVersion (v : string) (m : main) : main :=
  {| com := com m; oDesktop := oDesktop m; COMUtil := COMUtil m;
     pyaedt_initialized := pyaedt_initialized m; close_on_exit := close_on_exit m;
     AEDTVersion := v; installed := installed m;
     version_keys_ := version_keys_ m; version_ids_ := version_ids_ m;
     release_ := release_ m; kill_ok := kill_ok m; tasklist := tasklist m;
     launched := launched m; rot_has := rot_has m; trace := trace m |}.

Definition set_versions (ks : list string) (ids : Dict.dict string) (m : main) : main :=
  {| com := com m; oDesktop := oDesktop m; COMUtil := COMUtil m;
     pyaedt_initialized := pyaedt_initialized m; close_on_exit := close_on_exit m;
     AEDTVersion := AEDTVersion m; installed := installed m;
     version_keys_ := ks; version_ids_ := ids;
     release_ := release_ m; kill_ok := kill_ok m; tasklist := tasklist m;
     launched := launched m; rot_has := rot_has m; trace := trace m |}.

Definition set_release (v : bool) (m : main) : main :=
  {| com := com m; oDesktop := oDesktop m; COMUtil := COMUtil m;
     pyaedt_initialized := pyaedt_initialized m; close_on_exit := close_on_exit m;
     AEDTVersion := AEDTVersion m; installed := installed m;
     version_keys_ := version_keys_ m; version_ids_ := version_ids_ m;
     release_ := v; kill_ok := kill_ok m; tasklist := tasklist m;
     launched := launched m; rot_has := rot_has m; trace := trace m |}.

Definition set_tasklist (v : list (list string)) (m : main) : main :=
  {| com := com m; oDesktop := oDesktop m; COMUtil := COMUtil m;
     pyaedt_initialized := pyaedt_initialized m; close_on_exit := close_on_exit m;
     AEDTVersion := AEDTVersion m; installed := installed m;
     version_keys_ := version_keys_ m; version_ids_ := version_ids_ m;
     release_ := release_ m; kill_ok := kill_ok m; tasklist := v;
     launched := launched m; rot_has := rot_has m; trace := trace m |}.

Definition emit (e : event) : M main unit :=
  modify (fun m =>
  {| com := com m; oDesktop := oDesktop m; COMUtil := COMUtil m;
     pyaedt_initialized := pyaedt_initialized m; close_on_exit := close_on_exit m;
     AEDTVersion := AEDTVersion m; installed := installed m;
     version_keys_ := version_keys_ m; version_ids_ := version_ids_ m;
     release_ := release_ m; kill_ok := kill_ok m; tasklist := tasklist m;
     launched := launched m; rot_has := rot_has m; trace := e :: trace m |}).

(** The calls in the order they were made. *)
Definition calls (m : main) : list event := rev (trace m).

(** *** Calls on the desktop and on the machine *)

(** [Module.oDesktop], about to be used as an object. *)
Definition the_desktop : M main desktop_handle :=
  m <- get_state ;;
  match oDesktop m with
  | Holds h => ret h
  | _ => raise AttributeError
  end.

(** [desktop = Module.oDesktop]: only an unset attribute raises here. *)
Definition read_oDesktop : M main (option desktop_handle) :=
  m <- get_state ;;
  match oDesktop m with
  | Unset => raise AttributeError
  | IsNone => ret None
  | Holds h => ret (Some h)
  end.

Definition GetProjectList : M main (list string) :=
  h <- the_desktop ;;
  emit EvGetProjectList ;;;
  if GetProjectList_ok h then ret (ProjectList h) else raise ComError.

Definition without (prj : string) (l : list string) : list string :=
  filter (fun p => negb (String.eqb p prj)) l.

Definition CloseProject (prj : string) : M main unit :=
  h <- the_desktop ;;
  emit (EvCloseProject prj) ;;;
  modify (set_oDesktop (Holds
    {| ScopeID := ScopeID h; ProcessID := ProcessID h;
       ProjectList := without prj (ProjectList h);
       GetProjectList_ok := GetProjectList_ok h; Version := Version h |})).

Definition GetProcessID : M main Z :=
  h <- the_desktop ;;
  emit EvGetProcessID ;;;
  ret (ProcessID h).

(** [Module.COMUtil.ReleaseCOMObjectScope(Module.COMUtil.PInvokeProxyAPI, i)] *)
Definition ReleaseCOMObjectScope (i : Z) : M main unit :=
  m <- get_state ;;
  if COMUtil m then emit (EvReleaseCOMObjectScope i) else raise AttributeError.

(** [del Module.oDesktop] *)
Definition del_oDesktop : M main unit :=
  m <- get_state ;;
  match oDesktop m with
  | Unset => raise AttributeError
  | _ => emit EvDelDesktop ;;; modify (set_oDesktop Unset)
  end.

(** [del Module.pyaedt_initialized] *)
Definition del_pyaedt_initialized : M main unit :=
  m <- get_state ;;
  if pyaedt_initialized m
  then emit EvDelInitialized ;;; modify (set_pyaedt_initialized false)
  else raise AttributeError.

(** [os.kill(pid, sig)] *)
Definition os_kill (pid sig : Z) : M main unit :=
  emit (EvKill pid sig) ;;;
  m <- get_state ;;
  if kill_ok m then ret tt else raise OSError.

(** Reading a local variable that may not have been bound yet. *)
Definition read_local (name : string) (v : option Z) : M main Z :=
  match v with
  | Some x => ret x
  | None => raise (UnboundLocalError name)
  end.

(** [while i <= scopeID: ReleaseCOMObjectScope(.., arg i); i += 1], giving
    the final [i].  [fuel] bounds the number of tests of the guard. *)
Fixpoint release_loop (fuel : nat) (arg : Z -> Z) (scopeID i : Z) : M main Z :=
  match fuel with
  | O => ret i
  | S fuel' =>
      if i <=? scopeID
      then ReleaseCOMObjectScope (arg i) ;;; release_loop fuel' arg scopeID (i + 1)
      else ret i
  end.

(** One test of the guard more than the loop has rounds. *)
Definition loop_fuel (scopeID i : Z) : nat := S (Z.to_nat (scopeID + 1 - i)).

(** *** [release_desktop] *)

Definition close_all_projects : M main unit :=
  proj_list <- GetProjectList ;;
  for_each proj_list CloseProject.

(** The value is [None] where the source falls off the end. *)
Definition release_desktop (close_projects close_desktop : bool)
  : M main (option bool) :=
  m <- get_state ;;
  match com m with
  | pythonnet =>
      desktop <- the_desktop ;;
      let scopeID := ScopeID desktop in
      let i := 0 in
      (if close_projects then close_all_projects else ret tt) ;;;
      release_loop (loop_fuel scopeID i) (fun i => i) scopeID i ;;;
      try_except del_oDesktop (emit (EvInfoMessage "Attributes not present")) ;;;
      ret None
  | pythonnet_v3 =>
      _ <- read_oDesktop ;;
      let i := 0 in
      (if close_projects then close_all_projects else ret tt) ;;;
      if close_desktop then
        let scopeID := 5 in
        release_loop (loop_fuel scopeID i) (fun _ => 0) scopeID i ;;;
        pid <- GetProcessID ;;
        try_except
          (os_kill pid 9 ;;; del_oDesktop ;;; ret (Some true))
          (emit (EvErrorMessage "something went wrong in Closing AEDT") ;;;
           ret (Some false))
      else
        let scopeID := 5 in
        release_loop (loop_fuel scopeID i) (fun i => i) scopeID i ;;;
        try_except del_oDesktop (emit (EvInfoMessage "Attributes not present")) ;;;
        try_except del_pyaedt_initialized (ret tt) ;;;
        ret None
  | pywin32 => ret None
  end.

(** *** [force_close_desktop] *)

Definition close_log_handlers : M main unit := emit EvCloseLogHandlers.

(** The scope-release block: [i] is a local of the function (it is
    assigned in the body of the loop) that nothing has bound when the guard
    reads it. *)
Definition force_close_release_scopes : M main unit :=
  let scopeID := 5 in
  let i : option Z := None in
  i0 <- read_local "i" i ;;
  release_loop (loop_fuel scopeID i0) (fun _ => 0) scopeID i0 ;;;
  ret tt.

Definition force_close_desktop : M main (option bool) :=
  pid <- GetProcessID ;;
  if pid >? 0 then
    try_except close_all_projects
      (emit (EvLogError "No Projects. Closing Desktop Connection")) ;;;
    try_except force_close_release_scopes
      (emit (EvLogError "No COM UTIL. Closing the Desktop....")) ;;;
    try_except del_pyaedt_initialized (ret tt) ;;;
    try_except
      (os_kill pid 9 ;;; del_oDesktop ;;; close_log_handlers ;;; ret (Some true))
      (emit (EvErrorMessage "something went wrong in Closing AEDT") ;;;
       close_log_handlers ;;;
       ret (Some false))
  else ret None.

(** *** [Desktop.version_keys], [Desktop.current_version], [Desktop.__init__] *)

Definition version_keys : M main (list string) :=
  modify (set_versions [] []) ;;;
  m <- get_state ;;
  for_each (installed m) (fun version_env_var =>
    v_key <- lift (version_key_of version_env_var) ;;
    modify (fun m => set_versions (version_keys_ m ++ [v_key])
                       (Dict.set v_key version_env_var (version_ids_ m)) m)) ;;;
  m <- get_state ;;
  ret (version_keys_ m).

Definition current_version : M main string :=
  ks <- version_keys ;;
  match ks with
  | k :: _ => ret k
  | [] => raise IndexError
  end.

(** [if specified_version:] on [None] or a string. *)
Definition truthy (v : option string) : bool :=
  match v with
  | Some (String _ _) => true
  | _ => false
  end.

(** One [tasklist] scan for the user's [ansysedt.exe] processes; the
    matching of its output is the world's. *)
Definition scan_tasklist : M main (list string) :=
  emit EvTasklist ;;;
  m <- get_state ;;
  match tasklist m with
  | [] => ret []
  | pids :: rest => modify (set_tasklist rest) ;;; ret pids
  end.

Definition not_known (specified_version : string) : string :=
  "Specified version " ++ specified_version ++ " not known.".

(** The choice of [version_key] in [Desktop.__init__]. *)
Definition select_version (specified_version : option string) : M main string :=
  if truthy specified_version then
    let v := match specified_version with Some v => v | None => "" end in
    ks <- version_keys ;;
    if str_in v ks then ret v else raise (AssertionError (not_known v))
  else current_version.

(** The rest of the [else] branch of [Desktop.__init__]: the launch of, or
    the attachment to, the desktop of [version_key]. *)
Definition launch (version_key : string) (NG AlwaysNew : bool) : M main unit :=
  m <- get_state ;;
  _ <- lift (Dict.item version_key (version_ids_ m)) ;;
  let version := "Ansoft.ElectronicsDesktop." ++ version_key in
  modify (set_AEDTVersion version_key) ;;;
  (match oDesktop m with
   | Unset => ret tt
   | _ => modify (set_oDesktop Unset)
   end) ;;;
  (match com m with
   | pythonnet =>
       modify (set_COMUtil true) ;;;
       (if NG || AlwaysNew then emit (EvCreateObjectNew NG)
        else emit (EvCreateObject version)) ;;;
       modify (set_oDesktop (Holds (launched m)))
   | pythonnet_v3 =>
       modify (set_COMUtil true) ;;;
       processID <- scan_tasklist ;;
       (if NG || AlwaysNew || match processID with [] => true | _ => false end
        then emit (EvCreateObjectNew NG)
        else emit (EvCreateObject version)) ;;;
       processID2 <- scan_tasklist ;;
       match filter (fun i => negb (str_in i processID)) processID2 with
       | [] =>
           modify (set_close_on_exit false) ;;;
           emit (EvDispatch version) ;;;
           modify (set_oDesktop (Holds (launched m)))
       | p0 :: _ =>
           if String.leb "2021.1" version_key then
             modify (set_close_on_exit true) ;;;
             if rot_has m
             then emit (EvGetRunningObject p0) ;;;
                  modify (set_oDesktop (Holds (launched m)))
             else ret tt
           else
             emit (EvDispatch version) ;;;
             modify (set_oDesktop (Holds (launched m)))
       end
   | pywin32 =>
       emit (EvDispatch version) ;;;
       modify (set_oDesktop (Holds (launched m)))
   end) ;;;
  modify (set_AEDTVersion version_key) ;;;
  _ <- the_desktop ;;
  emit EvRestoreWindow.

(** [Desktop.__init__] up to [self._main.pyaedt_initialized = True]; the
    log-file set-up and the greeting messages after it are left out. *)
Definition init (specified_version : option string) (NG AlwaysNew release_on_exit : bool)
  : M main unit :=
  modify (set_close_on_exit false) ;;;
  modify (set_release release_on_exit) ;;;
  m <- get_state ;;
  match oDesktop m with
  | Holds h =>
      modify (set_AEDTVersion (PyStr.slice 0 6 (Version h))) ;;;
      emit EvRestoreWindow ;;;
      modify (set_release false)
  | _ =>
      version_key <- select_version specified_version ;;
      launch version_key NG AlwaysNew
  end ;;;
  modify (set_pyaedt_initialized true).

End Desktop.

(* ===================================================================== *)
(** ** edb_core/components.py *)
(* ===================================================================== *)

Module Components.

Local Open Scope py_scope.

(** *** [resistor_value_parser] *)

(** The argument is a string or already a number. *)
Inductive rvalue : Type :=
| RStr (s : string)
| RNum (d : PyStr.decimal).

(** The seven [replace] calls, in the order of the source. *)
Definition resistor_rewrite (RValue : string) : string :=
  let RValue := PyStr.replace " " "" RValue in
  let RValue := PyStr.replace "meg" "m" RValue in
  let RValue := PyStr.replace "Ohm" "" RValue in
  let RValue := PyStr.replace "ohm" "" RValue in
  let RValue := PyStr.replace "k" "e3" RValue in
  let RValue := PyStr.replace "m" "e-3" RValue in
  let RValue := PyStr.replace "M" "e6" RValue in
  RValue.

Definition resistor_value_parser (RValue : rvalue) : result PyStr.decimal :=
  match RValue with
  | RStr s => PyStr.float (resistor_rewrite s)
  | RNum d => Ok d
  end.

(** The order in which the specification lists the rewrites: spaces and
    [Ohm]/[ohm] first, then [meg], [k], [m], [M].  Kept apart from the
    source's function above, to be compared with it. *)
Definition resistor_rewrite_spec_order (RValue : string) : string :=
  let RValue := PyStr.replace " " "" RValue in
  let RValue := PyStr.replace "Ohm" "" RValue in
  let RValue := PyStr.replace "ohm" "" RValue in
  let RValue := PyStr.replace "meg" "m" RValue in
  let RValue := PyStr.replace "k" "e3" RValue in
  let RValue := PyStr.replace "m" "e-3" RValue in
  let RValue := PyStr.replace "M" "e6" RValue in
  RValue.

Definition resistor_value_parser_spec_order (RValue : rvalue) : result PyStr.decimal :=
  match RValue with
  | RStr s => PyStr.float (resistor_rewrite_spec_order s)
  | RNum d => Ok d
  end.

(** A decimal literal: digits with at most one point, at least one digit. *)
Definition decimal_literal (n : string) : Prop :=
  exists d, PyStr.parse_mantissa n = Some d.

(** *** The layout database and the [Components] object *)

(** What [ComponentSetupInfo.GetFromLayout] lists for one component. *)
Record ComponentSetupInfo : Type := {
  RefDes : string;
  ComponentType : string;
  Pins : list string;
  PartName : string;
  ResValue : string
}.

(** [EDBComponent] is declared in [edb_core/EDB_Data.py]; of it the code
    here reads the attributes below, which that class takes from the layout
    component it wraps. *)
Record EDBComponent : Type := {
  refdes : string;
  type : string;
  numpins : Z;
  partname : string;
  res_value : string
}.

Definition new_EDBComponent (cmp : ComponentSetupInfo) (name : string) : EDBComponent :=
  {| refdes := name; type := ComponentType cmp;
     numpins := Z.of_nat (List.length (Pins cmp));
     partname := PartName cmp; res_value := ResValue cmp |}.

(** The pin-pair RLC model [set_component_rlc] builds. *)
Record Rlc : Type := {
  IsParallel : bool;
  R : option string;
  L : option string;
  C : option string
}.

Inductive event : Type :=
| EvGetFromLayout
| EvFindByName (name : string)
| EvDelete (name : string)
| EvSetComponentProperty (name : string) (fromPin toPin : string) (rlc : Rlc)
| EvInfo (msg : string)
| EvWarning (msg : string)
| EvError (msg : string)
| EvOpen (path : string).

Record state : Type := {
  layout : list ComponentSetupInfo;      (* the components in the EDB *)
  layout_ok : bool;                      (* [false]: [GetFromLayout] raises *)
  set_model_ok : bool;                   (* what [SetModel] answers *)
  set_property_ok : bool;                (* what [SetComponentProperty] answers *)
  files : Dict.dict string;              (* path to contents *)
  _cmp : Dict.dict EDBComponent;
  _res : Dict.dict EDBComponent;
  _cap : Dict.dict EDBComponent;
  _ind : Dict.dict EDBComponent;
  _ios : Dict.dict EDBComponent;
  _ics : Dict.dict EDBComponent;
  _others : Dict.dict EDBComponent;
  log : list event                       (* calls made, latest first *)
}.

Definition set_layout (v : list ComponentSetupInfo) (s : state) : state :=
  {| layout := v; layout_ok := layout_ok s; set_model_ok := set_model_ok s;
     set_property_ok := set_property_ok s; files := files s;
     _cmp := _cmp s; _res := _res s; _cap := _cap s;
     _ind := _ind s; _ios := _ios s; _ics := _ics s; _others := _others s;
     log := log s |}.

Definition set_cmp (v : Dict.dict EDBComponent) (s : state) : state :=
  {| layout := layout s; layout_ok := layout_ok s; set_model_ok := set_model_ok s;
     set_property_ok := set_property_ok s; files := files s;
     _cmp := v; _res := _res s; _cap := _cap s;
     _ind := _ind s; _ios := _ios s; _ics := _ics s; _others := _others s;
     log := log s |}.

Definition set_res (v : Dict.dict EDBComponent) (s : state) : state :=
  {| layout := layout s; layout_ok := layout_ok s; set_model_ok := set_model_ok s;
     set_property_ok := set_property_ok s; files := files s;
     _cmp := _cmp s; _res := v; _cap := _cap s;
     _ind := _ind s; _ios := _ios s; _ics := _ics s; _others := _others s;
     log := log s |}.

Definition set_cap (v : Dict.dict EDBComponent) (s : state) : state :=
  {| layout := layout s; layout_ok := layout_ok s; set_model_ok := set_model_ok s;
     set_property_ok := set_property_ok s; files := files s;
     _cmp := _cmp s; _res := _res s; _cap := v;
     _ind := _ind s; _ios := _ios s; _ics := _ics s; _others := _others s;
     log := log s |}.

Definition set_ind (v : Dict.dict EDBComponent) (s : state) : state :=
  {| layout := layout s; layout_ok := layout_ok s; set_model_ok := set_model_ok s;
     set_property_ok := set_property_ok s; files := files s;
     _cmp := _cmp s; _res := _res s; _cap := _cap s;
     _ind := v; _ios := _ios s; _ics := _ics s; _others := _others s;
     log := log s |}.

Definition set_ios (v : Dict.dict EDBComponent) (s : state) : state :=
  {| layout := layout s; layout_ok := layout_ok s; set_model_ok := set_model_ok s;
     set_property_ok := set_property_ok s; files := files s;
     _cmp := _cmp s; _res := _res s; _cap := _cap s;
     _ind := _ind s; _ios := v; _ics := _ics s; _others := _others s;
     log := log s |}.

Definition set_ics (v : Dict.dict EDBComponent) (s : state) : state :=
  {| layout := layout s; layout_ok := layout_ok s; set_model_ok := set_model_ok s;
     set_property_ok := set_property_ok s; files := files s;
     _cmp := _cmp s; _res := _res s; _cap := _cap s;
     _ind := _ind s; _ios := _ios s; _ics := v; _others := _others s;
     log := log s |}.

Definition set_others (v : Dict.dict EDBComponent) (s : state) : state :=
  {| layout := layout s; layout_ok := layout_ok s; set_model_ok := set_model_ok s;
     set_property_ok := set_property_ok s; files := files s;
     _cmp := _cmp s; _res := _res s; _cap := _cap s;
     _ind := _ind s; _ios := _ios s; _ics := _ics s; _others := v;
     log := log s |}.

Definition emit (e : event) : M state unit :=
  modify (fun s =>
  {| layout := layout s; layout_ok := layout_ok s; set_model_ok := set_model_ok s;
     set_property_ok := set_property_ok s; files := files s;
     _cmp := _cmp s; _res := _res s; _cap := _cap s;
     _ind := _ind s; _ios := _ios s; _ics := _ics s; _others := _others s;
     log := e :: log s |}).

Definition calls (s : state) : list event := rev (log s).

(** [aedt_exception_handler] is declared outside these sources (it comes
    with [from .general import *]); as a decorator it answers [False] when
    the method it wraps raises.  [dflt] is that [False] seen at the type of
    the method's value. *)
Definition aedt_exception_handler {A} (dflt : A) (body : M state A) : M state A :=
  try_except body (ret dflt).

(** [for x in xs] with the locals the body updates carried along. *)
Fixpoint for_acc {S A B} (xs : list A) (acc : B) (body : A -> B -> M S B) : M S B :=
  match xs with
  | [] => ret acc
  | x :: rest => bind (body x acc) (fun acc' => for_acc rest acc' body)
  end.

(** *** The cache and its views *)

(** [get_component_list]; [None] stands for the handler's [False]. *)
Definition get_component_list : M state (option (list ComponentSetupInfo)) :=
  aedt_exception_handler None
    (emit EvGetFromLayout ;;;
     s <- get_state ;;
     if layout_ok s then ret (Some (layout s)) else raise ComError).

Definition refresh_components : M state unit :=
  try_except
    (cmplist <- get_component_list ;;
     modify (set_cmp []) ;;;
     match cmplist with
     | Some l =>
         for_each l (fun cmp =>
           modify (fun s => set_cmp
             (Dict.set (RefDes cmp) (new_EDBComponent cmp (RefDes cmp)) (_cmp s)) s))
     | None => raise TypeError
     end)
    (ret tt).

(** The [components] property. *)
Definition components : M state (Dict.dict EDBComponent) :=
  s <- get_state ;;
  (match _cmp s with
   | [] => refresh_components
   | _ => ret tt
   end) ;;;
  s <- get_state ;;
  ret (_cmp s).

(** The loop shared by the six views: entries of [components] of type [ty]
    are put in the view's own dictionary, read and written through [rd] and
    [wr]. *)
Definition collect (ty : string)
    (rd : state -> Dict.dict EDBComponent)
    (wr : Dict.dict EDBComponent -> state -> state)
  : M state (Dict.dict EDBComponent) :=
  modify (wr []) ;;;
  c <- components ;;
  for_each c (fun '(el, val) =>
    if String.eqb (type val) ty
    then modify (fun s => wr (Dict.set el val (rd s)) s)
    else ret tt) ;;;
  s <- get_state ;;
  ret (rd s).

Definition resistors : M state (Dict.dict EDBComponent) :=
  collect "Resistor" _res set_res.
Definition capacitors : M state (Dict.dict EDBComponent) :=
  collect "Capacitor" _cap set_cap.
Definition inductors : M state (Dict.dict EDBComponent) :=
  collect "Inductor" _ind set_ind.
Definition ICs : M state (Dict.dict EDBComponent) :=
  collect "IC" _ics set_ics.
Definition IOs : M state (Dict.dict EDBComponent) :=
  collect "IO" _ios set_ios.
Definition Others : M state (Dict.dict EDBComponent) :=
  collect "Other" _others set_others.

(** *** Deleting single-pin RLC components *)

Definition find_by_name (name : string) (l : list ComponentSetupInfo)
  : option ComponentSetupInfo :=
  find (fun c => String.eqb (RefDes c) name) l.

(** [get_component_by_name]: the layout component, or [None]. *)
Definition get_component_by_name (name : string) : M state (option ComponentSetupInfo) :=
  emit (EvFindByName name) ;;;
  s <- get_state ;;
  ret (find_by_name name (layout s)).

Fixpoint remove_first (name : string) (l : list ComponentSetupInfo)
  : list ComponentSetupInfo :=
  match l with
  | [] => []
  | c :: rest => if String.eqb (RefDes c) name then rest else c :: remove_first name rest
  end.

(** [edb_cmp.Delete()] on the component found under [name]. *)
Definition Delete (name : string) : M state unit :=
  emit (EvDelete name) ;;;
  modify (fun s => set_layout (remove_first name (layout s)) s).

Definition is_rlc (val : EDBComponent) : bool :=
  String.eqb (type val) "Resistor" || String.eqb (type val) "Capacitor"
  || String.eqb (type val) "Inductor".

(** One round of the first loop of [delete_single_pin_rlc]. *)
Definition delete_round (entry : string * EDBComponent) (deleted_comps : list string)
  : M state (list string) :=
  let '(comp, val) := entry in
  if (numpins val <? 2) && is_rlc val then
    edb_cmp <- get_component_by_name comp ;;
    match edb_cmp with
    | Some _ =>
        Delete comp ;;;
        emit (EvInfo ("Component " ++ comp ++ " deleted")) ;;;
        ret (deleted_comps ++ [comp])%list
    | None => ret deleted_comps
    end
  else ret deleted_comps.

(** The body under the decorator. *)
Definition delete_single_pin_rlc : M state (list string) :=
  let deleted_comps : list string := [] in
  c <- components ;;
  deleted_comps <- for_acc c deleted_comps delete_round ;;
  for_each deleted_comps (fun el =>
    c <- components ;;
    c' <- lift (Dict.del el c) ;;
    modify (set_cmp c')) ;;;
  ret deleted_comps.

(** [delete_component], the body under the decorator.  The test
    [edb_cmp in list(self.components.keys())] compares the component object
    with the strings that key the cache, so it never holds and the cache
    keeps its entry. *)
Definition delete_component (component_name : string) : M state bool :=
  edb_cmp <- get_component_by_name component_name ;;
  match edb_cmp with
  | Some _ =>
      Delete component_name ;;;
      _ <- components ;;
      ret true
  | None => ret false
  end.

(** *** [set_component_rlc] and [update_rlc_from_bom] *)

Definition is_some {A} (o : option A) : bool :=
  match o with Some _ => true | None => false end.

(** [get_pin_from_component] with neither a net nor a pin name: the layout
    pins of the component, looked up again by name.  [None] stands for the
    handler's [False], which comes back when the component is not found
    ([None.LayoutObjs]). *)
Definition get_pin_from_component (cmpName : string) : M state (option (list string)) :=
  aedt_exception_handler None
    (emit (EvFindByName cmpName) ;;;
     s <- get_state ;;
     match find_by_name cmpName (layout s) with
     | Some cmp => ret (Some (Pins cmp))
     | None => raise AttributeError
     end).

(** The body under the decorator; values are passed as the BOM gives them.
    [SetModel] is called on the property object the method has just made;
    [SetComponentProperty], on the component, is called only when
    [SetModel] answered true, and may refuse in its turn. *)
Definition set_component_rlc_body (componentname : string)
    (res_value ind_value cap_value : option string) (isparallel : bool)
  : M state bool :=
  edbComponent <- get_component_by_name componentname ;;
  match edbComponent with
  | None => raise AttributeError          (* [None.GetComponentType()] *)
  | Some _ =>
      componentPins <- get_pin_from_component componentname ;;
      match componentPins with
      | None => raise TypeError           (* [len(False)] *)
      | Some [fromPin; toPin] =>
          if negb (is_some res_value) && negb (is_some ind_value)
             && negb (is_some cap_value)
          then ret false
          else
            let rlc := {| IsParallel := isparallel; R := res_value;
                          L := ind_value; C := cap_value |} in
            s <- get_state ;;
            if set_model_ok s then
              emit (EvSetComponentProperty componentname fromPin toPin rlc) ;;;
              if set_property_ok s then
                emit (EvWarning ("RLC Properties for Component " ++ componentname
                                 ++ " has been assigned")) ;;;
                ret true
              else
                emit (EvError "Failed to set RLC model on component") ;;;
                ret false
            else
              emit (EvError "Failed to set RLC model on component") ;;;
              ret false
      | Some _ =>
          emit (EvWarning ("Component " ++ componentname ++
            " has been not assigned because it is not present in layout or it contains a number of pins  not equal to 2")) ;;;
          ret false
      end
  end.

Definition set_component_rlc (componentname : string)
    (res_value ind_value cap_value : option string) (isparallel : bool)
  : M state bool :=
  aedt_exception_handler false
    (set_component_rlc_body componentname res_value ind_value cap_value isparallel).

(** [f.readlines()]: every line keeps its newline. *)
Fixpoint readlines_from (s cur : string) : list string :=
  match s with
  | EmptyString => match cur with EmptyString => [] | _ => [PyStr.rev_string "" cur] end
  | String c s' =>
      if Ascii.eqb c "010"
      then PyStr.rev_string "" (String c cur) :: readlines_from s' ""
      else readlines_from s' (String c cur)
  end.

Definition readlines (contents : string) : list string := readlines_from contents "".

(** The locals of [update_rlc_from_bom]. *)
Record bom_locals : Type := {
  found : bool;
  refdescolumn : option nat;
  comptypecolumn : option nat;
  valuecolumn : option nat
}.

(** [content_line[col]] where [col] may still be [None]. *)
Definition list_item (content_line : list string) (col : option nat) : result string :=
  match col with
  | None => Raise TypeError
  | Some i =>
      match nth_error content_line i with
      | Some x => Ok x
      | None => Raise IndexError
      end
  end.

(** [x.split(" ")[0]] *)
Definition first_token (x : string) : result string :=
  rbind (PyStr.split " " x) (fun toks =>
  match toks with
  | t :: _ => Ok t
  | [] => Raise IndexError
  end).

(** [if refdescolumn:] *)
Definition column_truthy (col : option nat) : bool :=
  match col with
  | Some (S _) => true
  | _ => false
  end.

(** One round of [for line in Lines]. *)
Definition bom_line (delimiter valuefield comptype refdes line : string)
    (loc : bom_locals) : M state bom_locals :=
  fields <- lift (PyStr.split delimiter line) ;;
  let content_line := map PyStr.strip fields in
  let valuecolumn :=
    if str_in valuefield content_line then index_of valuefield content_line
    else valuecolumn loc in
  let comptypecolumn :=
    if str_in comptype content_line then index_of comptype content_line
    else comptypecolumn loc in
  if str_in refdes content_line then
    ret {| found := found loc; refdescolumn := index_of refdes content_line;
           comptypecolumn := comptypecolumn; valuecolumn := valuecolumn |}
  else if column_truthy (refdescolumn loc) then
    let loc' := {| found := true; refdescolumn := refdescolumn loc;
                   comptypecolumn := comptypecolumn; valuecolumn := valuecolumn |} in
    r <- lift (list_item content_line (refdescolumn loc)) ;;
    new_refdes <- lift (first_token r) ;;
    v <- lift (list_item content_line valuecolumn) ;;
    new_value <- lift (first_token v) ;;
    new_type <- lift (list_item content_line comptypecolumn) ;;
    (if PyStr.contains "resistor" (PyStr.lower new_type) then
       _ <- set_component_rlc new_refdes (Some new_value) None None false ;; ret tt
     else if PyStr.contains "capacitor" (PyStr.lower new_type) then
       _ <- set_component_rlc new_refdes None None (Some new_value) false ;; ret tt
     else if PyStr.contains "inductor" (PyStr.lower new_type) then
       _ <- set_component_rlc new_refdes None (Some new_value) None false ;; ret tt
     else ret tt) ;;;
    ret loc'
  else
    ret {| found := found loc; refdescolumn := refdescolumn loc;
           comptypecolumn := comptypecolumn; valuecolumn := valuecolumn |}.

(** [open(bom_file, 'r')] *)
Definition open_read (path : string) : M state string :=
  emit (EvOpen path) ;;;
  s <- get_state ;;
  match Dict.get path (files s) with
  | Some contents => ret contents
  | None => raise OSError
  end.

(** The body under the decorator. *)
Definition update_rlc_from_bom_body (bom_file delimiter valuefield comptype refdes : string)
  : M state bool :=
  contents <- open_read bom_file ;;
  let Lines := readlines contents in
  loc <- for_acc Lines
           {| found := false; refdescolumn := None;
              comptypecolumn := None; valuecolumn := None |}
           (bom_line delimiter valuefield comptype refdes) ;;
  ret (found loc).

Definition update_rlc_from_bom (bom_file delimiter valuefield comptype refdes : string)
  : M state bool :=
  aedt_exception_handler false
    (update_rlc_from_bom_body bom_file delimiter valuefield comptype refdes).

(** The defaults of the keyword arguments. *)
Definition default_delimiter : string := ";".
Definition default_valuefield : string := "Func des".
Definition default_comptype : string := "Prod name".
Definition default_refdes : string := "Pos / Place".

End Components.

(* ===================================================================== *)
(** ** desktop.py: leaving the [with] block *)
(* ===================================================================== *)

Module Session.

Import Desktop.
Local Open Scope py_scope.

(** [Desktop.__exit__] when the body of the [with] block raised nothing
    ([ex_type] is [None], so [_exception] is not called): the method
    [Desktop.release_desktop] hands both its arguments to the function
    [release_desktop]. *)
Definition exit_without_exception : M main unit :=
  m <- get_state ;;
  if release_ m
  then _ <- release_desktop (close_on_exit m) (close_on_exit m) ;; ret tt
  else ret tt.

End Session.

(* ===================================================================== *)
(** ** edb_core/components.py: components by part name *)
(* ===================================================================== *)

Module Parts.

Import Components.
Local Open Scope py_scope.

(** One round of the loop of [components_by_partname] on the dictionary it
    fills. *)
Definition by_part_round (entry : string * EDBComponent)
    (comps_by_part : Dict.dict (list EDBComponent))
  : Dict.dict (list EDBComponent) :=
  let '(el, val) := entry in
  if str_in (partname val) (Dict.keys comps_by_part) then
    match Dict.get (partname val) comps_by_part with
    | Some l => Dict.set (partname val) (l ++ [val])%list comps_by_part
    | None => comps_by_part
    end
  else Dict.set (partname val) [val] comps_by_part.

(** The [components_by_partname] property.  The attribute
    [_comps_by_part] is reset at each read and read nowhere else, so it is
    carried here as the value the loop builds. *)
Definition components_by_partname : M state (Dict.dict (list EDBComponent)) :=
  c <- components ;;
  for_acc c [] (fun entry comps_by_part => ret (by_part_round entry comps_by_part)).

End Parts.

(* ===================================================================== *)
(** ** Notions used in the statements below *)
(* ===================================================================== *)

(** Every character of [s] satisfies [p]. *)
Fixpoint all_chars (p : ascii -> bool) (s : string) : bool :=
  match s with
  | EmptyString => true
  | String c s' => p c && all_chars p s'
  end.

(** The characters of a decimal literal. *)
Definition plain (c : ascii) : bool := PyStr.is_digit c || PyStr.is_dot c.

(** A decimal digit, and the environment-variable names
    [ANSYSEM_ROOT<VV><R>] written with three of them. *)
Inductive digit : Type := D0 | D1 | D2 | D3 | D4 | D5 | D6 | D7 | D8 | D9.

Definition digit_Z (d : digit) : Z :=
  match d with
  | D0 => 0 | D1 => 1 | D2 => 2 | D3 => 3 | D4 => 4
  | D5 => 5 | D6 => 6 | D7 => 7 | D8 => 8 | D9 => 9
  end.

Definition digit_char (d : digit) : ascii :=
  match d with
  | D0 => "0" | D1 => "1" | D2 => "2" | D3 => "3" | D4 => "4"
  | D5 => "5" | D6 => "6" | D7 => "7" | D8 => "8" | D9 => "9"
  end%char.

Definition env_var (n : digit * digit * digit) : string :=
  let '(a, b, r) := n in
  "ANSYSEM_ROOT" ++ String (digit_char a) (String (digit_char b) (String (digit_char r) "")).

(** The two-digit number [VV] and the digit [R] of a name. *)
Definition VV (n : digit * digit * digit) : Z :=
  let '(a, b, _) := n in 10 * digit_Z a + digit_Z b.
Definition RR (n : digit * digit * digit) : Z :=
  let '(_, _, r) := n in digit_Z r.

(** The key the specification gives for a name; numbers are written as
    [str] writes them. *)
Definition derived_key (n : digit * digit * digit) : string :=
  if 20 <=? VV n then "20" ++ PyStr.str (VV n) ++ "." ++ PyStr.str (RR n)
  else if RR n <? 3 then "20" ++ PyStr.str (VV n - 1) ++ "." ++ PyStr.str (RR n)
  else "20" ++ PyStr.str (VV n) ++ "." ++ PyStr.str (RR n - 2).


(** A machine with AEDT 2021 R1 and 2019 R2 installed and a desktop with
    two open projects, used to run the functions on. *)
Definition sample_handle : Desktop.desktop_handle :=
  {| Desktop.ScopeID := 2; Desktop.ProcessID := 4242;
     Desktop.ProjectList := ["Project1"; "Project2"];
     Desktop.GetProjectList_ok := true; Desktop.Version := "2021.1.0" |}.

Definition sample_main (backend : Desktop.com_backend)
    (desktop : Desktop.attr Desktop.desktop_handle) : Desktop.main :=
  {| Desktop.com := backend; Desktop.oDesktop := desktop;
     Desktop.COMUtil := true; Desktop.pyaedt_initialized := true;
     Desktop.close_on_exit := false; Desktop.AEDTVersion := "";
     Desktop.installed := ["ANSYSEM_ROOT211"; "ANSYSEM_ROOT194"];
     Desktop.version_keys_ := []; Desktop.version_ids_ := [];
     Desktop.release_ := true; Desktop.kill_ok := true;
     Desktop.tasklist := []; Desktop.launched := sample_handle;
     Desktop.rot_has := true; Desktop.trace := [] |}.

(** [len] consecutive integers from [start]. *)
Fixpoint Zseq (start : Z) (len : nat) : list Z :=
  match len with
  | O => []
  | S len' => start :: Zseq (start + 1) len'
  end.

(** The machine after the calls [es] (earliest first) were recorded. *)
Definition recorded (es : list Desktop.event) (m : Desktop.main) : Desktop.main :=
  {| Desktop.com := Desktop.com m; Desktop.oDesktop := Desktop.oDesktop m;
     Desktop.COMUtil := Desktop.COMUtil m;
     Desktop.pyaedt_initialized := Desktop.pyaedt_initialized m;
     Desktop.close_on_exit := Desktop.close_on_exit m;
     Desktop.AEDTVersion := Desktop.AEDTVersion m;
     Desktop.installed := Desktop.installed m;
     Desktop.version_keys_ := Desktop.version_keys_ m;
     Desktop.version_ids_ := Desktop.version_ids_ m;
     Desktop.release_ := Desktop.release_ m; Desktop.kill_ok := Desktop.kill_ok m;
     Desktop.tasklist := Desktop.tasklist m; Desktop.launched := Desktop.launched m;
     Desktop.rot_has := Desktop.rot_has m;
     Desktop.trace := rev es ++ Desktop.trace m |}.

(** The desktop after the projects [l] were closed. *)
Definition projects_closed (l : list string) (h : Desktop.desktop_handle)
  : Desktop.desktop_handle :=
  {| Desktop.ScopeID := Desktop.ScopeID h; Desktop.ProcessID := Desktop.ProcessID h;
     Desktop.ProjectList :=
       fold_left (fun pl p => Desktop.without p pl) l (Desktop.ProjectList h);
     Desktop.GetProjectList_ok := Desktop.GetProjectList_ok h;
     Desktop.Version := Desktop.Version h |}.

(** [self._version_ids] after the loop of [version_keys] has run over
    [names], starting from [ids]. *)
Definition ids_after (names : list (digit * digit * digit)) (ids : Dict.dict string)
  : Dict.dict string :=
  fold_left (fun d n => Dict.set (derived_key n) (env_var n) d) names ids.

(** The calls [force_close_desktop] makes on a desktop [h] whose process id
    is positive. *)
Definition force_close_calls (m : Desktop.main) (h : Desktop.desktop_handle)
  : list Desktop.event :=
  ([Desktop.EvGetProcessID; Desktop.EvGetProjectList]
   ++ (if Desktop.GetProjectList_ok h
       then map Desktop.EvCloseProject (Desktop.ProjectList h)
       else [Desktop.EvLogError "No Projects. Closing Desktop Connection"])
   ++ [Desktop.EvLogError "No COM UTIL. Closing the Desktop...."]
   ++ (if Desktop.pyaedt_initialized m then [Desktop.EvDelInitialized] else [])
   ++ [Desktop.EvKill (Desktop.ProcessID h) 9]
   ++ (if Desktop.kill_ok m
       then [Desktop.EvDelDesktop; Desktop.EvCloseLogHandlers]
       else [Desktop.EvErrorMessage "something went wrong in Closing AEDT";
             Desktop.EvCloseLogHandlers]))%list.

(** Computations that never fail an assertion. *)
Definition no_assert {A} (c : M Desktop.main A) : Prop :=
  forall m msg, fst (c m) <> Raise (AssertionError msg).

(** A layout with a two-pin resistor, a single-pin capacitor, an IC, a
    single-pin resistor and an inductor, no cache yet, and a BOM file. *)
Definition sample_component (name ty : string) (pins : list string)
  : Components.ComponentSetupInfo :=
  {| Components.RefDes := name; Components.ComponentType := ty;
     Components.Pins := pins; Components.PartName := "part";
     Components.ResValue := "10k" |}.

Definition sample_state (bom : string) : Components.state :=
  {| Components.layout :=
       [sample_component "R1" "Resistor" ["1"; "2"];
        sample_component "C1" "Capacitor" ["1"];
        sample_component "U1" "IC" ["1"; "2"; "3"];
        sample_component "R2" "Resistor" ["1"];
        sample_component "L1" "Inductor" ["1"; "2"]];
     Components.layout_ok := true; Components.set_model_ok := true;
     Components.set_property_ok := true;
     Components.files := [("bom.csv", bom)];
     Components._cmp := []; Components._res := []; Components._cap := [];
     Components._ind := []; Components._ios := []; Components._ics := [];
     Components._others := []; Components.log := [] |}.

Definition newline : string := String "010" "".

(** A BOM whose reference-designator header is the first field, and the
    same rows with that field moved to the second place. *)
Definition bom_refdes_first : string :=
  "Pos / Place;Func des;Prod name" ++ newline
  ++ "R1;10 ohm;Resistor" ++ newline.

Definition bom_refdes_second : string :=
  "Func des;Pos / Place;Prod name" ++ newline
  ++ "10 ohm;R1;Resistor" ++ newline.

(** The sample layout after the cache was filled and [delete_component]
    took the single-pin resistor [R2] out of the layout: the cache still
    lists it. *)
Definition stale_state : Components.state :=
  snd (Components.delete_component "R2"
         (snd (Components.components (sample_state "")))).

(** [x.split(" ")[0]] as a value: a split always has a first field. *)
Definition first_word (x : string) : string := hd "" (PyStr.split_from " " x 0 "").

(** The state a data row of the BOM leaves: the value goes to the
    resistance, the capacitance or the inductance, by the first of the
    three words that the type field holds. *)
Definition row_assigned (new_refdes new_value new_type : string)
    (s : Components.state) : Components.state :=
  if PyStr.contains "resistor" (PyStr.lower new_type) then
    snd (Components.set_component_rlc new_refdes (Some new_value) None None false s)
  else if PyStr.contains "capacitor" (PyStr.lower new_type) then
    snd (Components.set_component_rlc new_refdes None None (Some new_value) false s)
  else if PyStr.contains "inductor" (PyStr.lower new_type) then
    snd (Components.set_component_rlc new_refdes None (Some new_value) None false s)
  else s.

(** The dictionary [refresh_components] builds from the components the
    layout lists. *)
Definition cache_of (l : list Components.ComponentSetupInfo)
  : Dict.dict Components.EDBComponent :=
  fold_left (fun d cmp =>
      Dict.set (Components.RefDes cmp)
        (Components.new_EDBComponent cmp (Components.RefDes cmp)) d) l [].

(** What reading [components] gives in state [s]: the cache when it holds
    something, otherwise what a refresh builds (nothing when the query
    fails). *)
Definition cached (s : Components.state) : Dict.dict Components.EDBComponent :=
  match Components._cmp s with
  | [] => if Components.layout_ok s then cache_of (Components.layout s) else []
  | c => c
  end.

(** The state a refresh leaves. *)
Definition refreshed (s : Components.state) : Components.state :=
  Components.set_cmp
    (if Components.layout_ok s then cache_of (Components.layout s) else [])
    (snd (Components.emit Components.EvGetFromLayout s)).

(** The state after reading [components]. *)
Definition after_read (s : Components.state) : Components.state :=
  match Components._cmp s with
  | [] => refreshed s
  | _ => s
  end.

(** The entries of type [ty]. *)
Definition has_type (ty : string) (entry : string * Components.EDBComponent) : bool :=
  String.eqb (Components.type (snd entry)) ty.

(** One round of the loop of a view, on the view's dictionary. *)
Definition view_step (ty : string) (d : Dict.dict Components.EDBComponent)
    (e : string * Components.EDBComponent) : Dict.dict Components.EDBComponent :=
  if String.eqb (Components.type (snd e)) ty then Dict.set (fst e) (snd e) d else d.

(** [n + 1] reads of [components] in a row, giving the last. *)
Fixpoint read_again (n : nat)
  : M Components.state (Dict.dict Components.EDBComponent) :=
  match n with
  | O => Components.components
  | S n' => bind Components.components (fun _ => read_again n')
  end.

(** The cache entries [delete_single_pin_rlc] acts on, given the layout
    [l] in which it looks the components up. *)
Definition doomed (l : list Components.ComponentSetupInfo)
    (entry : string * Components.EDBComponent) : bool :=
  (Components.numpins (snd entry) <? 2) && Components.is_rlc (snd entry)
  && Components.is_some (Components.find_by_name (fst entry) l).

(** A component the deletion is about, whether found or not. *)
Definition single_pin_rlc (entry : string * Components.EDBComponent) : bool :=
  (Components.numpins (snd entry) <? 2) && Components.is_rlc (snd entry).

(** The loop of [Desktop.version_keys] on the names [l], from the keys [ks]
    and the ids [ids]: it stops at the first name it cannot read. *)
Fixpoint scan_versions (l : list string) (ks : list string) (ids : Dict.dict string)
  : result unit * list string * Dict.dict string :=
  match l with
  | [] => (Ok tt, ks, ids)
  | n :: rest =>
      match Desktop.version_key_of n with
      | Ok k => scan_versions rest (ks ++ [k])%list (Dict.set k n ids)
      | Raise e => (Raise e, ks, ids)
      end
  end.

(** A machine on which nothing was launched yet: no desktop, no
    [COMUtil], the installed names and the [tasklist] answers as given. *)
Definition sample_machine (backend : Desktop.com_backend) (names : list string)
    (tasks : list (list string)) : Desktop.main :=
  {| Desktop.com := backend; Desktop.oDesktop := Desktop.Unset;
     Desktop.COMUtil := false; Desktop.pyaedt_initialized := false;
     Desktop.close_on_exit := false; Desktop.AEDTVersion := "";
     Desktop.installed := names;
     Desktop.version_keys_ := []; Desktop.version_ids_ := [];
     Desktop.release_ := true; Desktop.kill_ok := true;
     Desktop.tasklist := tasks; Desktop.launched := sample_handle;
     Desktop.rot_has := true; Desktop.trace := [] |}.

(** The calls that close projects, and the call that kills the process. *)
Definition is_project_call (e : Desktop.event) : bool :=
  match e with
  | Desktop.EvGetProjectList | Desktop.EvCloseProject _ => true
  | _ => false
  end.

Definition is_kill (e : Desktop.event) : bool :=
  match e with
  | Desktop.EvKill _ _ => true
  | _ => false
  end.

(** [c] records only calls that satisfy [q], whatever the state and
    whether it raises or not. *)
Definition records_only (q : Desktop.event -> bool) {A} (c : M Desktop.main A) : Prop :=
  forall m, exists es,
    Desktop.trace (snd (c m)) = (es ++ Desktop.trace m)%list /\ forallb q es = true.

(** AEDT 2021 R1 or later, read off the digits of the installed name. *)
Definition recent (n : digit * digit * digit) : bool :=
  (22 <=? VV n) || ((VV n =? 21) && (1 <=? RR n)).

(** The cache entries whose component has part name [p]. *)
Definition same_part (p : string) (entry : string * Components.EDBComponent) : bool :=
  String.eqb (Components.partname (snd entry)) p.

(** The dictionary the loop of [components_by_partname] builds from the
    entries [c]. *)
Definition parts_of (c : Dict.dict Components.EDBComponent)
  : Dict.dict (list Components.EDBComponent) :=
  fold_left (fun d e => Parts.by_part_round e d) c [].




(** [[i.strip() for i in line.split(delimiter)]] for a non-empty
    delimiter. *)
Definition fields (delimiter line : string) : list string :=
  map PyStr.strip (PyStr.split_from delimiter line 0 "").

(** What a data row does to the state when the header put the reference
    designators in column [i], the values in column [j] and the types in
    column [t]. *)
Definition bom_row (delimiter : string) (i j t : nat) (s : Components.state)
    (row : string) : Components.state :=
  row_assigned (first_word (nth i (fields delimiter row) ""))
    (first_word (nth j (fields delimiter row) ""))
    (nth t (fields delimiter row) "") s.

(** The locals of [update_rlc_from_bom] before the first line. *)
Definition bom_start : Components.bom_locals :=
  {| Components.found := false; Components.refdescolumn := None;
     Components.comptypecolumn := None; Components.valuecolumn := None |}.

(** A character that neither the rewrites of [resistor_value_parser] nor
    [float] know: no digit, point, exponent mark or white space, and none
    of [k], [m], [M]. *)
Definition unread (c : ascii) : bool :=
  negb (plain c || PyStr.is_exp_mark c || PyStr.is_space c
        || Ascii.eqb c "k" || Ascii.eqb c "m" || Ascii.eqb c "M").

(** The BOM of [bom_refdes_second] followed by an empty line. *)
Definition bom_blank_tail : string := bom_refdes_second ++ newline.

(* ===================================================================== *)
(** ** Facts about the string methods *)
(* ===================================================================== *)

Section StringFacts.

Import PyStr.

Lemma string_app_assoc (s t u : string) : ((s ++ t) ++ u = s ++ (t ++ u))%string.
Proof. induction s as [|c s IH]; simpl; [reflexivity|now rewrite IH]. Qed.

Lemma all_chars_app p s t :
  all_chars p (s ++ t) = all_chars p s && all_chars p t.
Proof.
  induction s as [|c s IH]; simpl; [reflexivity|].
  now rewrite IH, andb_assoc.
Qed.

Lemma all_chars_impl (p q : ascii -> bool) s :
  (forall c, p c = true -> q c = true) ->
  all_chars p s = true -> all_chars q s = true.
Proof.
  intros Hpq; induction s as [|c s IH]; simpl; [reflexivity|].
  intros H; apply andb_true_iff in H as [H1 H2].
  now rewrite (Hpq _ H1), IH.
Qed.

Lemma all_digits_all_chars s : all_digits s = all_chars is_digit s.
Proof. induction s as [|c s IH]; simpl; [reflexivity|now rewrite IH]. Qed.

(** A run of characters none of which starts [old] passes through
    [replace] untouched. *)
Lemma replace_from_passes a old' new s t :
  all_chars (fun c => negb (Ascii.eqb a c)) s = true ->
  replace_from (String a old') new (s ++ t) 0
  = s ++ replace_from (String a old') new t 0.
Proof.
  induction s as [|c s IH]; intros H; [reflexivity|].
  simpl in H. apply andb_true_iff in H as [Hc Hs].
  apply negb_true_iff in Hc.
  change ((String c s ++ t)%string) with (String c (s ++ t)).
  cbn [replace_from strip_prefix]. rewrite Hc.
  now rewrite (IH Hs).
Qed.

Lemma replace_passes a old' new s t :
  all_chars (fun c => negb (Ascii.eqb a c)) s = true ->
  replace (String a old') new (s ++ t) = s ++ replace (String a old') new t.
Proof. apply replace_from_passes. Qed.

Lemma plain_cases c :
  plain c = true ->
  Ascii.eqb " " c = false /\ Ascii.eqb "m" c = false /\ Ascii.eqb "O" c = false
  /\ Ascii.eqb "o" c = false /\ Ascii.eqb "k" c = false /\ Ascii.eqb "M" c = false
  /\ Ascii.eqb "-" c = false /\ Ascii.eqb "+" c = false
  /\ is_exp_mark c = false /\ is_space c = false.
Proof.
  destruct c as [[] [] [] [] [] [] [] []]; vm_compute; intros H;
    try discriminate H; repeat split.
Qed.

Lemma plain_avoids (a : ascii) s :
  (forall c, plain c = true -> Ascii.eqb a c = false) ->
  all_chars plain s = true ->
  all_chars (fun c => negb (Ascii.eqb a c)) s = true.
Proof.
  intros Ha. apply all_chars_impl. intros c Hc. now rewrite (Ha c Hc).
Qed.

(** [rev_string] is list reversal onto an accumulator. *)
Lemma rev_string_app acc s t :
  rev_string acc (s ++ t) = rev_string (rev_string acc s) t.
Proof.
  revert acc; induction s as [|c s IH]; intros acc; simpl; [reflexivity|].
  apply IH.
Qed.

Lemma rev_string_acc acc s : rev_string acc s = (rev_string "" s ++ acc)%string.
Proof.
  revert acc; induction s as [|c s IH]; intros acc; simpl; [reflexivity|].
  rewrite IH, (IH (String c "")).
  now rewrite string_app_assoc.
Qed.

Lemma rev_string_involutive s : rev_string "" (rev_string "" s) = s.
Proof.
  induction s as [|c s IH]; simpl; [reflexivity|].
  rewrite (rev_string_acc (String c "") s), rev_string_app, IH. reflexivity.
Qed.

Lemma all_chars_rev p acc s :
  all_chars p (rev_string acc s) = all_chars p s && all_chars p acc.
Proof.
  revert acc; induction s as [|c s IH]; intros acc; simpl; [reflexivity|].
  rewrite IH. simpl.
  now destruct (p c), (all_chars p s), (all_chars p acc).
Qed.

Lemma lstrip_no_space s :
  all_chars (fun c => negb (is_space c)) s = true -> lstrip s = s.
Proof.
  destruct s as [|c s]; simpl; [reflexivity|].
  intros H. apply andb_true_iff in H as [Hc _].
  apply negb_true_iff in Hc. now rewrite Hc.
Qed.

Lemma strip_no_space s :
  all_chars (fun c => negb (is_space c)) s = true -> strip s = s.
Proof.
  intros H. unfold strip. rewrite (lstrip_no_space s H).
  rewrite lstrip_no_space; [apply rev_string_involutive|].
  rewrite all_chars_rev, H. reflexivity.
Qed.

Lemma break_at_none p s a :
  break_at p s = (a, None) ->
  s = a /\ all_chars (fun c => negb (p c)) a = true.
Proof.
  revert a; induction s as [|c s IH]; intros a; simpl.
  - intros H; inversion H; subst. now split.
  - destruct (p c) eqn:Hp; [discriminate|].
    destruct (break_at p s) as [a' b'] eqn:Hb.
    intros H; inversion H; subst.
    destruct (IH a' eq_refl) as [-> Ha]. simpl. now rewrite Hp, Ha.
Qed.

Lemma break_at_some p s a b :
  break_at p s = (a, Some b) ->
  exists c, p c = true /\ s = (a ++ String c b)%string
            /\ all_chars (fun c => negb (p c)) a = true.
Proof.
  revert a; induction s as [|c s IH]; intros a; simpl; [discriminate|].
  destruct (p c) eqn:Hp.
  - intros H; inversion H; subst. exists c. now repeat split.
  - destruct (break_at p s) as [a' b'] eqn:Hb.
    intros H; inversion H; subst.
    destruct (IH a' eq_refl) as (c' & Hc' & -> & Ha).
    exists c'. simpl. now rewrite Hp, Ha.
Qed.

Lemma break_at_app p s c t :
  all_chars (fun c => negb (p c)) s = true -> p c = true ->
  break_at p (s ++ String c t) = (s, Some t).
Proof.
  intros Hs Hc; induction s as [|x s IH]; simpl.
  - now rewrite Hc.
  - simpl in Hs. apply andb_true_iff in Hs as [Hx Hs].
    apply negb_true_iff in Hx. rewrite Hx, (IH Hs). reflexivity.
Qed.

(** A decimal literal is a non-empty run of digits and points. *)
Lemma mantissa_plain n d :
  parse_mantissa n = Some d -> all_chars plain n = true /\ n <> ""%string.
Proof.
  unfold parse_mantissa.
  destruct (break_at is_dot n) as [ip [fp|]] eqn:Hb.
  - destruct (break_at_some _ _ _ _ Hb) as (c & Hc & -> & _).
    destruct (all_digits ip && all_digits fp &&
              negb ((String.length ip =? 0)%nat && (String.length fp =? 0)%nat))
      eqn:Hd; [|discriminate].
    intros _. apply andb_true_iff in Hd as [Hd _].
    apply andb_true_iff in Hd as [Hi Hf].
    rewrite all_digits_all_chars in Hi, Hf.
    split.
    + rewrite all_chars_app. simpl. unfold plain at 2. rewrite Hc, orb_true_r.
      rewrite (all_chars_impl is_digit plain ip), (all_chars_impl is_digit plain fp);
        auto; intros x Hx; unfold plain; now rewrite Hx.
    + destruct ip; discriminate.
  - destruct (break_at_none _ _ _ Hb) as [-> _].
    unfold parse_digits. destruct ip as [|c ip]; [discriminate|].
    destruct (all_digits (String c ip)) eqn:Hd; [|discriminate].
    intros _. split; [|discriminate].
    rewrite all_digits_all_chars in Hd.
    apply (all_chars_impl is_digit plain); auto.
    intros x Hx; unfold plain; now rewrite Hx.
Qed.

(** [float] reads a decimal literal followed by an exponent as the literal
    scaled by that power of ten. *)
Lemma float_with_exponent n d es k :
  parse_mantissa n = Some d ->
  all_chars (fun c => negb (is_space c)) es = true ->
  with_sign Z.opp parse_digits es = Some k ->
  float (n ++ String "e" es) = Ok (dec_scale k d).
Proof.
  intros Hn Hes Hk.
  destruct (mantissa_plain n d Hn) as [Hp Hne].
  unfold float.
  rewrite strip_no_space.
  2:{ rewrite all_chars_app. simpl. rewrite Hes.
      rewrite (all_chars_impl plain (fun c => negb (is_space c)) n); auto.
      intros c Hc. destruct (plain_cases c Hc) as (_&_&_&_&_&_&_&_&_&H). now rewrite H. }
  destruct n as [|c n]; [congruence|].
  simpl in Hp. apply andb_true_iff in Hp as [Hc Hn'].
  destruct (plain_cases c Hc) as (_&_&_&_&_&_&Hm&Hpl&_&_).
  assert (Hsign : with_sign dec_neg parse_float_body (String c n ++ String "e" es)
                  = parse_float_body (String c n ++ String "e" es)).
  { simpl. destruct c as [[] [] [] [] [] [] [] []]; try reflexivity; discriminate. }
  rewrite Hsign. unfold parse_float_body.
  rewrite break_at_app; [|simpl|reflexivity].
  - rewrite Hn, Hk. reflexivity.
  - destruct (plain_cases c Hc) as (_&_&_&_&_&_&_&_&He&_). rewrite He. simpl.
    apply (all_chars_impl plain); auto.
    intros x Hx. destruct (plain_cases x Hx) as (_&_&_&_&_&_&_&_&H&_). now rewrite H.
Qed.

Lemma float_literal n d :
  parse_mantissa n = Some d -> float n = Ok d.
Proof.
  intros Hn. destruct (mantissa_plain n d Hn) as [Hp Hne].
  unfold float. rewrite strip_no_space.
  2:{ apply (all_chars_impl plain); auto.
      intros c Hc. destruct (plain_cases c Hc) as (_&_&_&_&_&_&_&_&_&H). now rewrite H. }
  destruct n as [|c n]; [congruence|].
  assert (Hp' := Hp). simpl in Hp'. apply andb_true_iff in Hp' as [Hc _].
  assert (Hsign : with_sign dec_neg parse_float_body (String c n)
                  = parse_float_body (String c n)).
  { simpl. destruct c as [[] [] [] [] [] [] [] []]; try reflexivity; discriminate. }
  rewrite Hsign. unfold parse_float_body.
  destruct (break_at is_exp_mark (String c n)) as [m [e|]] eqn:Hb.
  - destruct (break_at_some _ _ _ _ Hb) as (x & Hx & Heq & _).
    exfalso. rewrite Heq, all_chars_app in Hp. simpl in Hp.
    apply andb_true_iff in Hp as [_ Hp]. apply andb_true_iff in Hp as [Hp _].
    destruct (plain_cases x Hp) as (_&_&_&_&_&_&_&_&H&_). congruence.
  - destruct (break_at_none _ _ _ Hb) as [<- _]. now rewrite Hn.
Qed.

(** Scaling the exponent multiplies the value by that power of ten. *)
Lemma dec_value_scale k d :
  dec_value (dec_scale k d) == dec_value d * Qpower (10 # 1) k.
Proof.
  unfold dec_value, dec_scale; simpl.
  rewrite Qpower_plus by (intros H; discriminate H). ring.
Qed.

End StringFacts.

(* ===================================================================== *)
(** ** [resistor_value_parser] *)
(* ===================================================================== *)

Section ResistorValues.

Import PyStr Components.

(** The rewrites leave a leading decimal literal alone. *)
Lemma resistor_rewrite_passes n t :
  all_chars plain n = true ->
  resistor_rewrite (n ++ t) = (n ++ resistor_rewrite t)%string.
Proof.
  intros Hn. unfold resistor_rewrite.
  repeat (rewrite replace_passes;
          [|apply plain_avoids; [intros c Hc; now apply plain_cases in Hc|exact Hn]]).
  reflexivity.
Qed.

Lemma parser_on_suffix n d suffix es k :
  parse_mantissa n = Some d ->
  resistor_rewrite suffix = String "e" es ->
  all_chars (fun c => negb (is_space c)) es = true ->
  with_sign Z.opp parse_digits es = Some k ->
  resistor_value_parser (RStr (n ++ suffix)) = Ok (dec_scale k d).
Proof.
  intros Hn Hs Hes Hk. simpl.
  rewrite resistor_rewrite_passes by apply (mantissa_plain n d Hn).
  rewrite Hs. now apply float_with_exponent.
Qed.

(** C6, counterexample: on ["1meohmg"] the order of the specification
    (units removed before [meg] is rewritten) reads one milliohm, while the
    source, which rewrites [meg] before it removes the units, is left with
    ["1e-3eg"] and raises. *)
Lemma resistor_order_counterexample :
  resistor_value_parser_spec_order (RStr "1meohmg") = Ok (Decimal 1 (-3))
  /\ resistor_value_parser (RStr "1meohmg") = Raise ValueError
  /\ resistor_value_parser (RStr "1meohmg")
     <> resistor_value_parser_spec_order (RStr "1meohmg").
Proof. repeat split; vm_compute; discriminate. Qed.

(** C6, amended: [resistor_value_parser] on a string removes the spaces,
    rewrites [meg] to [m], removes [Ohm] and [ohm], then rewrites [k] to
    [e3], [m] to [e-3] and [M] to [e6], and converts the outcome with
    [float].  For every decimal literal [n] of value [d], [n+"k"] is read as
    [d * 10^3], [n+"M"] as [d * 10^6], and [n+"m"] and [n+"meg"] both as
    [d * 10^-3]. *)
Theorem resistor_value_parser_suffixes (n : string) (d : decimal)
    (Hn : parse_mantissa n = Some d) :
  (forall s, resistor_value_parser (RStr s)
     = float (replace "M" "e6" (replace "m" "e-3" (replace "k" "e3"
         (replace "ohm" "" (replace "Ohm" "" (replace "meg" "m"
           (replace " " "" s))))))))
  /\ float n = Ok d
  /\ resistor_value_parser (RStr (n ++ "k")) = Ok (dec_scale 3 d)
  /\ resistor_value_parser (RStr (n ++ "M")) = Ok (dec_scale 6 d)
  /\ resistor_value_parser (RStr (n ++ "m")) = Ok (dec_scale (-3) d)
  /\ resistor_value_parser (RStr (n ++ "meg")) = Ok (dec_scale (-3) d)
  /\ dec_value (dec_scale 3 d) == dec_value d * 1000
  /\ dec_value (dec_scale 6 d) == dec_value d * 1000000
  /\ dec_value (dec_scale (-3) d) == dec_value d * (1 # 1000).
Proof.
  split; [reflexivity|].
  split; [now apply float_literal|].
  split; [now apply (parser_on_suffix n d "k" "3")|].
  split; [now apply (parser_on_suffix n d "M" "6")|].
  split; [now apply (parser_on_suffix n d "m" "-3")|].
  split; [now apply (parser_on_suffix n d "meg" "-3")|].
  repeat split; rewrite dec_value_scale; reflexivity.
Qed.

Lemma resistor_value_parser_suffixes_witness :
  resistor_value_parser (RStr "4.7k") = Ok (Decimal 47 2)
  /\ resistor_value_parser (RStr "4.7meg") = Ok (Decimal 47 (-4)).
Proof.
  pose proof (resistor_value_parser_suffixes "4.7" (Decimal 47 (-1)) eq_refl)
    as (_ & _ & Hk & _ & _ & Hmeg & _).
  split; [exact Hk|exact Hmeg].
Defined.

End ResistorValues.

(* ===================================================================== *)
(** ** Version keys *)
(* ===================================================================== *)

Section VersionKeys.

Import Desktop.

(** What the loop body of [version_keys] computes from a well-formed name. *)
Lemma version_key_of_env_var n : version_key_of (env_var n) = Ok (derived_key n).
Proof. destruct n as [[a b] r]; destruct a, b, r; vm_compute; reflexivity. Qed.

Lemma version_loop names m :
  for_each (map env_var names) (fun version_env_var =>
    bind (lift (version_key_of version_env_var)) (fun v_key =>
    modify (fun m => set_versions (version_keys_ m ++ [v_key])
                       (Dict.set v_key version_env_var (version_ids_ m)) m))) m
  = (Ok tt, set_versions (version_keys_ m ++ map derived_key names)
              (ids_after names (version_ids_ m)) m).
Proof.
  revert m; induction names as [|n names IH]; intros m.
  - simpl. unfold ret. rewrite app_nil_r. now destruct m.
  - cbn [map for_each]. unfold bind at 1. unfold bind at 1. unfold lift.
    rewrite version_key_of_env_var. unfold modify at 1.
    rewrite IH. cbn [version_keys_ version_ids_ set_versions ids_after fold_left].
    rewrite <- app_assoc. reflexivity.
Qed.

Lemma version_keys_run names m :
  installed m = map env_var names ->
  version_keys m
  = (Ok (map derived_key names),
     set_versions (map derived_key names) (ids_after names []) m).
Proof.
  intros Hi. unfold version_keys.
  unfold bind at 1. unfold modify at 1.
  unfold bind at 1. unfold get_state at 1.
  cbn [installed set_versions]. rewrite Hi.
  unfold bind at 1. rewrite version_loop.
  reflexivity.
Qed.

(** C1: for every name [ANSYSEM_ROOT<VV><R>] the loop of [version_keys]
    derives ["20VV.R"] when [VV >= 20], ["20(VV-1).R"] when [VV < 20] and
    [R < 3], and ["20VV.(R-2)"] when [VV < 20] and [R >= 3]; over an
    installed list of such names [version_keys] is the list of these keys
    and [current_version] the key of the first name. *)
Theorem version_keys_derive (m : main) (names : list (digit * digit * digit))
    (Hinstalled : installed m = map env_var names) :
  (forall n, version_key_of (env_var n) = Ok
     (if 20 <=? VV n then "20" ++ PyStr.str (VV n) ++ "." ++ PyStr.str (RR n)
      else if RR n <? 3 then "20" ++ PyStr.str (VV n - 1) ++ "." ++ PyStr.str (RR n)
      else "20" ++ PyStr.str (VV n) ++ "." ++ PyStr.str (RR n - 2)))
  /\ fst (version_keys m) = Ok (map derived_key names)
  /\ fst (current_version m)
     = match names with
       | n :: _ => Ok (derived_key n)
       | [] => Raise IndexError
       end.
Proof.
  split; [exact version_key_of_env_var|].
  split.
  - now rewrite (version_keys_run names m Hinstalled).
  - unfold current_version, bind.
    rewrite (version_keys_run names m Hinstalled).
    now destruct names.
Qed.

Lemma version_keys_derive_witness :
  fst (version_keys (sample_main pythonnet Unset)) = Ok ["2021.1"; "2019.2"]
  /\ fst (current_version (sample_main pythonnet Unset)) = Ok "2021.1".
Proof.
  pose proof (version_keys_derive (sample_main pythonnet Unset)
                [(D2, D1, D1); (D1, D9, D4)] eq_refl) as (_ & Hk & Hc).
  split; [exact Hk|exact Hc].
Defined.

(** Two names with one key: no function of the key gives back both. *)
Lemma version_key_collision :
  version_key_of "ANSYSEM_ROOT183" = Ok "2018.1"
  /\ version_key_of "ANSYSEM_ROOT191" = Ok "2018.1".
Proof. split; reflexivity. Qed.




End VersionKeys.

(* ===================================================================== *)
(** ** Releasing and closing the desktop *)
(* ===================================================================== *)

Section DesktopTraces.

Import Desktop.

Lemma recorded_nil m : recorded [] m = m.
Proof. now destruct m. Qed.

Lemma recorded_recorded es1 es2 m :
  recorded es2 (recorded es1 m) = recorded (es1 ++ es2) m.
Proof.
  unfold recorded; cbn [com oDesktop COMUtil pyaedt_initialized close_on_exit
    AEDTVersion installed version_keys_ version_ids_ release_ kill_ok tasklist
    launched rot_has trace].
  now rewrite rev_app_distr, app_assoc.
Qed.

Lemma calls_recorded es m : calls (recorded es m) = (calls m ++ es)%list.
Proof. unfold calls; simpl. now rewrite rev_app_distr, rev_involutive. Qed.

Lemma emit_run e m : emit e m = (Ok tt, recorded [e] m).
Proof. reflexivity. Qed.

Lemma close_projects_run l : forall m h,
  oDesktop m = Holds h ->
  for_each l CloseProject m
  = (Ok tt, set_oDesktop (Holds (projects_closed l h))
              (recorded (map EvCloseProject l) m)).
Proof.
  induction l as [|p l IH]; intros m h Hd.
  - simpl. unfold ret. destruct m, h; simpl in *; now subst.
  - cbn [for_each]. unfold bind at 1.
    assert (Hp : CloseProject p m
                 = (Ok tt, set_oDesktop (Holds (projects_closed [p] h))
                             (recorded [EvCloseProject p] m))).
    { unfold CloseProject, the_desktop, bind, get_state. rewrite Hd. reflexivity. }
    rewrite Hp. erewrite IH by reflexivity.
    f_equal. destruct m; simpl in *. unfold recorded, set_oDesktop; simpl.
    rewrite <- app_assoc. reflexivity.
Qed.

Lemma release_loop_step fuel arg scopeID i :
  release_loop (S fuel) arg scopeID i
  = if i <=? scopeID
    then bind (ReleaseCOMObjectScope (arg i))
              (fun _ => release_loop fuel arg scopeID (i + 1))
    else ret i.
Proof. reflexivity. Qed.

Lemma release_loop_run arg scopeID : forall n i m,
  COMUtil m = true ->
  n = Z.to_nat (scopeID + 1 - i) ->
  release_loop (S n) arg scopeID i m
  = (Ok (Z.max i (scopeID + 1)),
     recorded (map (fun j => EvReleaseCOMObjectScope (arg j)) (Zseq i n)) m).
Proof.
  induction n as [|n IH]; intros i m Hu Hn; rewrite release_loop_step.
  - destruct (Z.leb_spec i scopeID) as [Hle|Hgt]; [lia|].
    unfold ret. rewrite Z.max_l by lia. simpl. now rewrite recorded_nil.
  - destruct (Z.leb_spec i scopeID) as [Hle|Hgt]; [|lia].
    unfold bind at 1. unfold ReleaseCOMObjectScope, bind, get_state. rewrite Hu.
    rewrite emit_run.
    rewrite IH; [|exact Hu|lia].
    rewrite recorded_recorded. cbn [Zseq map app].
    f_equal. f_equal. lia.
Qed.

(** The fuel the callers give is enough: the loop ends on its guard, with
    [i] past [scopeID]. *)
Lemma release_loop_fuel arg scopeID i m :
  COMUtil m = true ->
  release_loop (loop_fuel scopeID i) arg scopeID i m
  = (Ok (Z.max i (scopeID + 1)),
     recorded (map (fun j => EvReleaseCOMObjectScope (arg j))
                 (Zseq i (Z.to_nat (scopeID + 1 - i)))) m).
Proof. intros Hu. now apply release_loop_run. Qed.

Lemma close_all_projects_run m h :
  oDesktop m = Holds h ->
  close_all_projects m
  = if GetProjectList_ok h
    then (Ok tt, set_oDesktop (Holds (projects_closed (ProjectList h) h))
                   (recorded (EvGetProjectList :: map EvCloseProject (ProjectList h)) m))
    else (Raise ComError, recorded [EvGetProjectList] m).
Proof.
  intros Hd. unfold close_all_projects, GetProjectList, the_desktop.
  unfold bind at 1. unfold bind at 1. unfold bind at 1.
  unfold get_state. rewrite Hd. unfold ret at 1.
  unfold bind at 1. rewrite emit_run.
  destruct (GetProjectList_ok h); [|reflexivity].
  unfold ret. rewrite (close_projects_run _ (recorded [EvGetProjectList] m) h Hd).
  rewrite recorded_recorded. reflexivity.
Qed.

Ltac run_tail :=
  unfold GetProcessID, the_desktop, os_kill, del_oDesktop, del_pyaedt_initialized,
    close_log_handlers, read_local, try_except, bind, get_state, emit, modify, ret, raise;
  cbn [com oDesktop COMUtil pyaedt_initialized close_on_exit AEDTVersion installed
       version_keys_ version_ids_ release_ kill_ok tasklist launched rot_has trace
       recorded set_oDesktop set_pyaedt_initialized projects_closed
       ScopeID ProcessID ProjectList GetProjectList_ok Version].

Ltac tidy_calls :=
  unfold calls;
  cbn [com oDesktop COMUtil pyaedt_initialized close_on_exit AEDTVersion installed
       version_keys_ version_ids_ release_ kill_ok tasklist launched rot_has trace
       recorded set_oDesktop set_pyaedt_initialized fst snd];
  repeat (progress (cbn [rev app map];
                    rewrite ?rev_app_distr, ?rev_involutive, <- ?app_assoc)).

Lemma release_v3_close m h :
  com m = pythonnet_v3 -> oDesktop m = Holds h -> COMUtil m = true ->
  GetProjectList_ok h = true ->
  exists m',
    release_desktop true true m = (Ok (Some (kill_ok m)), m')
    /\ calls m'
       = (calls m ++ EvGetProjectList :: map EvCloseProject (ProjectList h)
          ++ repeat (EvReleaseCOMObjectScope 0) 6
          ++ [EvGetProcessID; EvKill (ProcessID h) 9]
          ++ (if kill_ok m then [EvDelDesktop]
              else [EvErrorMessage "something went wrong in Closing AEDT"]))%list.
Proof.
  intros Hcom Hd Hu Hp.
  unfold release_desktop.
  unfold bind at 1. unfold get_state at 1. rewrite Hcom.
  unfold bind at 1. unfold read_oDesktop at 1. unfold bind at 1, get_state at 1.
  rewrite Hd. unfold ret at 1.
  unfold bind at 1. rewrite (close_all_projects_run m h Hd), Hp.
  unfold bind at 1. rewrite release_loop_fuel by exact Hu.
  run_tail.
  destruct (kill_ok m); eexists; (split; [reflexivity|]); tidy_calls; reflexivity.
Qed.
Lemma release_pythonnet m h close_desktop :
  com m = pythonnet -> oDesktop m = Holds h -> COMUtil m = true ->
  GetProjectList_ok h = true ->
  exists m',
    release_desktop true close_desktop m = (Ok None, m')
    /\ calls m'
       = (calls m ++ EvGetProjectList :: map EvCloseProject (ProjectList h)
          ++ map EvReleaseCOMObjectScope (Zseq 0 (Z.to_nat (ScopeID h + 1)))
          ++ [EvDelDesktop])%list.
Proof.
  intros Hcom Hd Hu Hp.
  unfold release_desktop.
  unfold bind at 1. unfold get_state at 1. rewrite Hcom.
  unfold bind at 1. unfold the_desktop at 1. unfold bind at 1, get_state at 1.
  rewrite Hd. unfold ret at 1.
  unfold bind at 1. rewrite (close_all_projects_run m h Hd), Hp.
  unfold bind at 1. rewrite release_loop_fuel by exact Hu.
  run_tail.
  eexists; (split; [reflexivity|]); tidy_calls.
  rewrite Z.sub_0_r. reflexivity.
Qed.

Lemma release_v3_keep m h :
  com m = pythonnet_v3 -> oDesktop m = Holds h -> COMUtil m = true ->
  GetProjectList_ok h = true ->
  exists m',
    release_desktop true false m = (Ok None, m')
    /\ calls m'
       = (calls m ++ EvGetProjectList :: map EvCloseProject (ProjectList h)
          ++ map EvReleaseCOMObjectScope (Zseq 0 6)
          ++ EvDelDesktop
          :: (if pyaedt_initialized m then [EvDelInitialized] else []))%list.
Proof.
  intros Hcom Hd Hu Hp.
  unfold release_desktop.
  unfold bind at 1. unfold get_state at 1. rewrite Hcom.
  unfold bind at 1. unfold read_oDesktop at 1. unfold bind at 1, get_state at 1.
  rewrite Hd. unfold ret at 1.
  unfold bind at 1. rewrite (close_all_projects_run m h Hd), Hp.
  unfold bind at 1. rewrite release_loop_fuel by exact Hu.
  run_tail.
  destruct (pyaedt_initialized m); eexists; (split; [reflexivity|]); tidy_calls;
    reflexivity.
Qed.
Lemma Zseq_In j : forall n i, In j (Zseq i n) <-> i <= j < i + Z.of_nat n.
Proof.
  induction n as [|n IH]; intros i; cbn [Zseq In].
  - lia.
  - rewrite IH. lia.
Qed.

Lemma Zseq_NoDup : forall n i, NoDup (Zseq i n).
Proof.
  induction n as [|n IH]; intros i; cbn [Zseq]; constructor.
  - rewrite Zseq_In. lia.
  - apply IH.
Qed.

Lemma force_close_release_scopes_raises m :
  force_close_release_scopes m = (Raise (UnboundLocalError "i"), m).
Proof. reflexivity. Qed.

Lemma force_close_run m h :
  oDesktop m = Holds h -> 0 < ProcessID h ->
  exists m',
    force_close_desktop m = (Ok (Some (kill_ok m)), m')
    /\ calls m' = (calls m ++ force_close_calls m h)%list.
Proof.
  intros Hd Hpid. unfold force_close_desktop, force_close_calls.
  unfold bind at 1. unfold GetProcessID at 1, the_desktop at 1.
  unfold bind at 1. unfold bind at 1. unfold get_state at 1. rewrite Hd.
  unfold ret at 1. unfold bind at 1. rewrite emit_run. unfold ret at 1.
  destruct (Z.gtb_spec (ProcessID h) 0) as [_|Hle]; [|lia].
  unfold bind at 1. unfold try_except at 1.
  rewrite (close_all_projects_run (recorded [EvGetProcessID] m) h Hd).
  destruct (GetProjectList_ok h); rewrite ?emit_run;
    unfold bind at 1; unfold try_except at 1;
    rewrite force_close_release_scopes_raises; rewrite emit_run;
    run_tail;
    destruct (pyaedt_initialized m); run_tail; destruct (kill_ok m); run_tail;
    rewrite ?Hd; run_tail;
    eexists; (split; [reflexivity|]); tidy_calls; reflexivity.
Qed.

Lemma force_close_no_release m i :
  In (EvReleaseCOMObjectScope i) (calls (snd (force_close_desktop m))) ->
  In (EvReleaseCOMObjectScope i) (calls m).
Proof.
  destruct (oDesktop m) as [| |h] eqn:Hd.
  - unfold force_close_desktop, GetProcessID, the_desktop, bind, get_state.
    now rewrite Hd.
  - unfold force_close_desktop, GetProcessID, the_desktop, bind, get_state.
    now rewrite Hd.
  - destruct (Z.gtb_spec (ProcessID h) 0) as [Hpid|Hle].
    + destruct (force_close_run m h Hd) as (m' & Hrun & Hcalls); [lia|].
      rewrite Hrun. cbn [snd]. rewrite Hcalls. unfold force_close_calls.
      intros Hin. apply in_app_or in Hin as [Hin|Hin]; [exact Hin|exfalso].
      repeat (apply in_app_or in Hin as [Hin|Hin]);
        repeat match goal with
        | H : In _ (if ?b then _ else _) |- _ => destruct b
        | H : In _ (map _ _) |- _ =>
            apply in_map_iff in H as (? & ? & _); discriminate
        | H : In _ (_ :: _) |- _ => destruct H as [H|H]; [discriminate|]
        | H : In _ [] |- _ => destruct H
        end.
    + unfold force_close_desktop, GetProcessID, the_desktop.
      unfold bind at 1. unfold bind at 1. unfold bind at 1.
      unfold get_state at 1. rewrite Hd.
      unfold ret at 1. unfold bind at 1. rewrite emit_run. unfold ret at 1.
      destruct (Z.gtb_spec (ProcessID h) 0) as [Hgt|_]; [lia|].
      unfold ret. cbn [snd]. rewrite calls_recorded.
      intros Hin. apply in_app_or in Hin as [Hin|[Hin|[]]];
        [exact Hin|discriminate].
Qed.
Lemma no_assert_bind {A B} (c : M main A) (k : A -> M main B) :
  no_assert c -> (forall a, no_assert (k a)) -> no_assert (bind c k).
Proof.
  intros Hc Hk m msg. unfold bind.
  specialize (Hc m msg). destruct (c m) as [[a|e] m'] eqn:Hcm; cbn [fst] in *.
  - apply Hk.
  - intros H. apply Hc. congruence.
Qed.

Lemma no_assert_ret {A} (a : A) : no_assert (ret a).
Proof. intros m msg; discriminate. Qed.

Lemma no_assert_modify f : no_assert (modify f).
Proof. intros m msg; discriminate. Qed.

Lemma no_assert_emit e : no_assert (emit e).
Proof. intros m msg; discriminate. Qed.

Lemma no_assert_get_state : no_assert get_state.
Proof. intros m msg; discriminate. Qed.

Lemma no_assert_item k (d : Dict.dict string) : no_assert (lift (Dict.item k d)).
Proof.
  intros m msg. unfold lift, Dict.item. cbn [fst].
  destruct (Dict.get k d); discriminate.
Qed.

Lemma no_assert_the_desktop : no_assert the_desktop.
Proof.
  intros m msg. unfold the_desktop, bind, get_state.
  destruct (oDesktop m); discriminate.
Qed.

Lemma no_assert_scan_tasklist : no_assert scan_tasklist.
Proof.
  intros m msg. unfold scan_tasklist, bind, emit, modify, get_state.
  cbn [tasklist]. destruct (tasklist m); discriminate.
Qed.

Ltac no_assert_step :=
  first
    [ apply no_assert_ret | apply no_assert_modify | apply no_assert_emit
    | apply no_assert_get_state | apply no_assert_item
    | apply no_assert_the_desktop | apply no_assert_scan_tasklist
    | apply no_assert_bind; [|intros ?]
    | match goal with
      | |- no_assert (match ?x with _ => _ end) => destruct x
      end ].

(** Whatever goes wrong while launching, it is not a failed assertion. *)
Lemma launch_not_assertion version_key NG AlwaysNew :
  no_assert (launch version_key NG AlwaysNew).
Proof. unfold launch. repeat no_assert_step. Qed.

Lemma select_version_run names v m :
  installed m = map env_var names -> v <> "" ->
  select_version (Some v) m
  = (if str_in v (map derived_key names) then Ok v
     else Raise (AssertionError (not_known v)),
     set_versions (map derived_key names) (ids_after names []) m).
Proof.
  intros Hi Hv. unfold select_version.
  destruct v as [|c v]; [congruence|]. cbn [truthy].
  unfold bind. rewrite (version_keys_run names m Hi).
  now destruct (str_in (String c v) (map derived_key names)).
Qed.

Lemma bind_run {S A B} (c : M S A) (k : A -> M S B) m r m' :
  c m = (r, m') ->
  bind c k m = match r with Ok a => k a m' | Raise e => (Raise e, m') end.
Proof. unfold bind. now intros ->. Qed.

(** With no desktop at hand [__init__] is the choice of a version, the
    launch, and the final flag. *)
Lemma init_without_desktop specified_version NG AlwaysNew roe m :
  (forall h, oDesktop m <> Holds h) ->
  init specified_version NG AlwaysNew roe m
  = bind (bind (select_version specified_version)
               (fun version_key => launch version_key NG AlwaysNew))
         (fun _ => modify (set_pyaedt_initialized true))
         (set_release roe (set_close_on_exit false m)).
Proof.
  intros Hno. unfold init.
  unfold bind at 1. unfold modify at 1.
  unfold bind at 1. unfold modify at 1.
  unfold bind at 1. unfold bind at 1. unfold get_state at 1.
  unfold bind at 3.
  cbn [oDesktop set_release set_close_on_exit].
  destruct (oDesktop m) as [| |h] eqn:Hd; [reflexivity|reflexivity|now destruct (Hno h)].
Qed.

(** [version_keys] as a scan of the installed names, readable or not. *)
Lemma version_loop_scan l : forall m,
  for_each l (fun version_env_var =>
    bind (lift (version_key_of version_env_var)) (fun v_key =>
    modify (fun m => set_versions (version_keys_ m ++ [v_key])
                       (Dict.set v_key version_env_var (version_ids_ m)) m))) m
  = let '(r, ks, ids) := scan_versions l (version_keys_ m) (version_ids_ m) in
    (r, set_versions ks ids m).
Proof.
  induction l as [|n l IH]; intros m.
  - simpl. unfold ret. now destruct m.
  - cbn [for_each scan_versions]. unfold bind at 1. unfold bind at 1. unfold lift.
    destruct (version_key_of n) as [k|e].
    + unfold modify at 1. rewrite IH.
      cbn [version_keys_ version_ids_ set_versions].
      now destruct (scan_versions l _ _) as [[r ks] ids].
    + now destruct m.
Qed.

Lemma version_keys_scan m :
  version_keys m
  = let '(r, ks, ids) := scan_versions (installed m) [] [] in
    (match r with Ok _ => Ok ks | Raise e => Raise e end, set_versions ks ids m).
Proof.
  unfold version_keys.
  unfold bind at 1. unfold modify at 1.
  unfold bind at 1. unfold get_state at 1.
  cbn [installed set_versions].
  unfold bind at 1. rewrite version_loop_scan.
  cbn [version_keys_ version_ids_ set_versions].
  destruct (scan_versions (installed m) [] []) as [[[[]|e] ks] ids]; reflexivity.
Qed.

(** The loop of [version_keys] fails with what [int] or an index raises. *)
Lemma version_key_of_raises x e :
  version_key_of x = Raise e -> e = ValueError \/ e = IndexError.
Proof.
  unfold version_key_of, rbind, PyStr.int, PyStr.item.
  destruct (PyStr.with_sign _ _ _) as [version|]; [|intros [= <-]; now left].
  destruct (String.get 2 _) as [c|]; [|intros [= <-]; now right].
  destruct (PyStr.with_sign _ _ _) as [release|]; [|intros [= <-]; now left].
  destruct (version <? 20); [destruct (release <? 3)|]; discriminate.
Qed.

Lemma scan_versions_raises l : forall ks ids e,
  fst (fst (scan_versions l ks ids)) = Raise e -> e = ValueError \/ e = IndexError.
Proof.
  induction l as [|n l IH]; intros ks ids e; cbn [scan_versions]; [discriminate|].
  destruct (version_key_of n) as [k|e'] eqn:Hn; [apply IH|].
  cbn [fst]. intros [= <-]. exact (version_key_of_raises n e' Hn).
Qed.

Lemma select_version_scan v m :
  v <> "" ->
  select_version (Some v) m
  = let '(r, ks, ids) := scan_versions (installed m) [] [] in
    (match r with
     | Ok _ => if str_in v ks then Ok v else Raise (AssertionError (not_known v))
     | Raise e => Raise e
     end, set_versions ks ids m).
Proof.
  intros Hv. unfold select_version.
  destruct v as [|c v]; [congruence|]. cbn [truthy].
  unfold bind. rewrite version_keys_scan.
  destruct (scan_versions (installed m) [] []) as [[[[]|e] ks] ids]; [|reflexivity].
  now destruct (str_in (String c v) ks).
Qed.

(** [__init__] with a version asked for and no desktop at hand, by the
    outcome of [version_keys]. *)
Lemma init_run v NG AlwaysNew roe m :
  (forall h, oDesktop m <> Holds h) -> v <> "" ->
  (fst (init (Some v) NG AlwaysNew roe m) = Raise (AssertionError (not_known v))
   <-> exists ks, fst (version_keys m) = Ok ks /\ str_in v ks = false)
  /\ ((exists ks, fst (version_keys m) = Ok ks /\ str_in v ks = false) ->
      calls (snd (init (Some v) NG AlwaysNew roe m)) = calls m)
  /\ (forall e, fst (version_keys m) = Raise e ->
        (e = ValueError \/ e = IndexError)
        /\ fst (init (Some v) NG AlwaysNew roe m) = Raise e
        /\ calls (snd (init (Some v) NG AlwaysNew roe m)) = calls m).
Proof.
  intros Hno Hv.
  set (st := set_release roe (set_close_on_exit false m)).
  pose proof (select_version_scan v st Hv) as Hsel.
  change (installed st) with (installed m) in Hsel.
  rewrite (init_without_desktop _ _ _ _ _ Hno). fold st.
  rewrite (version_keys_scan m).
  pose proof (scan_versions_raises (installed m) [] []) as Hraises.
  destruct (scan_versions (installed m) [] []) as [[[[]|e] ks] ids];
    cbn [fst] in *.
  - destruct (str_in v ks) eqn:Hin.
    + pose proof (launch_not_assertion v NG AlwaysNew (set_versions ks ids st)
                    (not_known v)) as Hl.
      split; [|split].
      * split.
        -- intros H; exfalso. unfold bind at 1 in H.
           rewrite (bind_run _ _ _ _ _ Hsel) in H.
           destruct (launch v NG AlwaysNew _) as [[[]|e] s1];
             cbn [fst] in *; [discriminate H|congruence].
        -- intros (ks' & Hks & Hnot). injection Hks as <-. congruence.
      * intros (ks' & Hks & Hnot). injection Hks as <-. congruence.
      * intros e He. discriminate He.
    + rewrite (bind_run _ _ _ _ _ (bind_run _ _ _ _ _ Hsel)).
      split; [|split].
      * split; [intros _; now exists ks|reflexivity].
      * reflexivity.
      * intros e He. discriminate He.
  - rewrite (bind_run _ _ _ _ _ (bind_run _ _ _ _ _ Hsel)). cbn [fst snd].
    split; [|split].
    + split.
      * intros H. injection H as ->.
        destruct (Hraises _ eq_refl); discriminate.
      * intros (ks' & Hks & _). discriminate Hks.
    + intros (ks' & Hks & _). discriminate Hks.
    + intros e' He. injection He as <-.
      split; [exact (Hraises _ eq_refl)|split; reflexivity].
Qed.
(** C3: with [close_projects=True] every project of the list is closed
    first; the [pythonnet] branch and the [pythonnet_v3] branch that keeps
    the desktop then release each scope index from 0 to the bound once, in
    order, and delete the handle; the [pythonnet_v3] branch that closes the
    desktop instead releases scope 0 six times and no other index, before
    it asks for the process id and kills the process. *)
Theorem release_desktop_scope_releases (m : main) (h : desktop_handle)
    (Hd : oDesktop m = Holds h) (Hu : COMUtil m = true)
    (Hp : GetProjectList_ok h = true) :
  (com m = pythonnet -> forall close_desktop, exists m',
     release_desktop true close_desktop m = (Ok None, m')
     /\ calls m'
        = (calls m ++ EvGetProjectList :: map EvCloseProject (ProjectList h)
           ++ map EvReleaseCOMObjectScope (Zseq 0 (Z.to_nat (ScopeID h + 1)))
           ++ [EvDelDesktop])%list)
  /\ (com m = pythonnet_v3 -> exists m',
     release_desktop true false m = (Ok None, m')
     /\ calls m'
        = (calls m ++ EvGetProjectList :: map EvCloseProject (ProjectList h)
           ++ map EvReleaseCOMObjectScope (Zseq 0 6)
           ++ EvDelDesktop
           :: (if pyaedt_initialized m then [EvDelInitialized] else []))%list)
  /\ (com m = pythonnet_v3 -> exists m',
     release_desktop true true m = (Ok (Some (kill_ok m)), m')
     /\ calls m'
        = (calls m ++ EvGetProjectList :: map EvCloseProject (ProjectList h)
           ++ repeat (EvReleaseCOMObjectScope 0) 6
           ++ [EvGetProcessID; EvKill (ProcessID h) 9]
           ++ (if kill_ok m then [EvDelDesktop]
               else [EvErrorMessage "something went wrong in Closing AEDT"]))%list)
  /\ (forall i n, NoDup (Zseq 0 n)
               /\ (In i (Zseq 0 n) <-> 0 <= i < Z.of_nat n)).
Proof.
  split; [intros Hcom cd; now apply release_pythonnet|].
  split; [intros Hcom; now apply release_v3_keep|].
  split; [intros Hcom; now apply release_v3_close|].
  intros i n. split; [apply Zseq_NoDup|].
  rewrite Zseq_In. lia.
Qed.

Lemma release_desktop_scope_releases_witness :
  exists m',
    release_desktop true true (sample_main pythonnet_v3 (Holds sample_handle))
    = (Ok (Some true), m')
    /\ calls m'
       = [EvGetProjectList; EvCloseProject "Project1"; EvCloseProject "Project2";
          EvReleaseCOMObjectScope 0; EvReleaseCOMObjectScope 0;
          EvReleaseCOMObjectScope 0; EvReleaseCOMObjectScope 0;
          EvReleaseCOMObjectScope 0; EvReleaseCOMObjectScope 0;
          EvGetProcessID; EvKill 4242 9; EvDelDesktop].
Proof.
  exact (proj1 (proj2 (proj2
    (release_desktop_scope_releases (sample_main pythonnet_v3 (Holds sample_handle))
       sample_handle eq_refl eq_refl eq_refl))) eq_refl).
Defined.

(** [True] comes back from exactly the runs that had a process to kill and
    killed it. *)
Lemma force_close_true_iff m :
  fst (force_close_desktop m) = Ok (Some true)
  <-> exists h, oDesktop m = Holds h /\ 0 < ProcessID h /\ kill_ok m = true.
Proof.
  destruct (oDesktop m) as [| |h] eqn:Hd.
  - unfold force_close_desktop, GetProcessID, the_desktop, bind, get_state.
    rewrite Hd. cbn [fst raise]. split; [discriminate|intros (h & Hh & _); discriminate].
  - unfold force_close_desktop, GetProcessID, the_desktop, bind, get_state.
    rewrite Hd. cbn [fst raise]. split; [discriminate|intros (h & Hh & _); discriminate].
  - destruct (Z.gtb_spec (ProcessID h) 0) as [Hpid|Hle].
    + destruct (force_close_run m h Hd) as (m' & Hrun & _); [lia|].
      rewrite Hrun. cbn [fst]. split.
      * intros H. exists h. repeat split; [lia|congruence].
      * intros (h' & _ & _ & Hk). now rewrite Hk.
    + unfold force_close_desktop, GetProcessID, the_desktop.
      unfold bind at 1. unfold bind at 1. unfold bind at 1.
      unfold get_state at 1. rewrite Hd.
      unfold ret at 1. unfold bind at 1. rewrite emit_run. unfold ret at 1.
      destruct (Z.gtb_spec (ProcessID h) 0) as [Hgt|_]; [lia|].
      unfold ret. cbn [fst]. split; [discriminate|].
      intros (h' & Hh & Hpos & _). inversion Hh; subst. lia.
Qed.

(** C10: the scope-release block of [force_close_desktop] raises on its
    unbound counter before any release, so no run of the function releases a
    scope; on a desktop with a positive process id the function closes the
    projects, logs the swallowed error, kills the process, and answers
    [True] exactly when the kill went through (the handle is then deleted);
    no other run answers [True]. *)
Theorem force_close_desktop_releases_nothing (m : main) (h : desktop_handle)
    (Hd : oDesktop m = Holds h) (Hpid : 0 < ProcessID h) :
  (forall m0, force_close_release_scopes m0 = (Raise (UnboundLocalError "i"), m0))
  /\ (forall m0 i,
        In (EvReleaseCOMObjectScope i) (calls (snd (force_close_desktop m0))) ->
        In (EvReleaseCOMObjectScope i) (calls m0))
  /\ (forall m0,
        fst (force_close_desktop m0) = Ok (Some true)
        <-> exists h0, oDesktop m0 = Holds h0 /\ 0 < ProcessID h0
                       /\ kill_ok m0 = true)
  /\ exists m',
       force_close_desktop m = (Ok (Some (kill_ok m)), m')
       /\ calls m'
          = (calls m
             ++ [EvGetProcessID; EvGetProjectList]
             ++ (if GetProjectList_ok h then map EvCloseProject (ProjectList h)
                 else [EvLogError "No Projects. Closing Desktop Connection"])
             ++ [EvLogError "No COM UTIL. Closing the Desktop...."]
             ++ (if pyaedt_initialized m then [EvDelInitialized] else [])
             ++ [EvKill (ProcessID h) 9]
             ++ (if kill_ok m then [EvDelDesktop; EvCloseLogHandlers]
                 else [EvErrorMessage "something went wrong in Closing AEDT";
                       EvCloseLogHandlers]))%list
       /\ (kill_ok m = true -> oDesktop m' = Unset).
Proof.
  split; [exact force_close_release_scopes_raises|].
  split; [exact force_close_no_release|].
  split; [exact force_close_true_iff|].
  destruct (force_close_run m h Hd Hpid) as (m' & Hrun & Hcalls).
  exists m'. split; [exact Hrun|]. split; [exact Hcalls|].
  intros Hk. revert Hrun.
  unfold force_close_desktop.
  unfold bind at 1. unfold GetProcessID at 1, the_desktop at 1.
  unfold bind at 1. unfold bind at 1. unfold get_state at 1. rewrite Hd.
  unfold ret at 1. unfold bind at 1. rewrite emit_run. unfold ret at 1.
  destruct (Z.gtb_spec (ProcessID h) 0) as [_|Hle]; [|lia].
  unfold bind at 1. unfold try_except at 1.
  rewrite (close_all_projects_run (recorded [EvGetProcessID] m) h Hd).
  destruct (GetProjectList_ok h); rewrite ?emit_run;
    unfold bind at 1; unfold try_except at 1;
    rewrite force_close_release_scopes_raises; rewrite emit_run;
    run_tail;
    destruct (pyaedt_initialized m); run_tail; rewrite Hk; run_tail;
    rewrite ?Hd; run_tail;
    intros Hrun; inversion Hrun; reflexivity.
Qed.

Lemma force_close_desktop_releases_nothing_witness :
  exists m',
    force_close_desktop (sample_main pythonnet_v3 (Holds sample_handle))
    = (Ok (Some true), m')
    /\ calls m'
       = [EvGetProcessID; EvGetProjectList; EvCloseProject "Project1";
          EvCloseProject "Project2";
          EvLogError "No COM UTIL. Closing the Desktop....";
          EvDelInitialized; EvKill 4242 9; EvDelDesktop; EvCloseLogHandlers]
    /\ (true = true -> oDesktop m' = Unset).
Proof.
  exact (proj2 (proj2 (proj2
    (force_close_desktop_releases_nothing
       (sample_main pythonnet_v3 (Holds sample_handle)) sample_handle
       eq_refl eq_refl)))).
Defined.

(** C9, counterexample: the empty string is not [None] and is no key, yet
    [__init__] takes the branch of the default version and launches. *)
Lemma init_empty_version_counterexample :
  fst (version_keys (sample_main pythonnet Unset)) = Ok ["2021.1"; "2019.2"]
  /\ str_in "" ["2021.1"; "2019.2"] = false
  /\ fst (init (Some "") false true true (sample_main pythonnet Unset)) = Ok tt
  /\ calls (snd (init (Some "") false true true (sample_main pythonnet Unset)))
     = [EvCreateObjectNew false; EvRestoreWindow]
  /\ ~ (fst (init (Some "") false true true (sample_main pythonnet Unset))
         = Raise (AssertionError (not_known ""))
       <-> str_in "" ["2021.1"; "2019.2"] = false).
Proof.
  repeat split; try reflexivity.
  intros [_ H]. specialize (H eq_refl). vm_compute in H. discriminate H.
Qed.

(** C9, amended: when no desktop handle is present, [__init__] called with
    a non-empty [specified_version] fails with the assertion error
    "Specified version ... not known." if and only if [version_keys]
    returns its list and that version is not among its keys; in that case
    it has made no call at all, so no launch and no attachment.  When
    [version_keys] raises instead, on an installed name it cannot read (a
    [ValueError] or an [IndexError]), [__init__] fails with that
    exception, again before any call.  On installed names of the form
    [ANSYSEM_ROOT<VV><R>] [version_keys] returns the keys derived from
    them. *)
Theorem init_unknown_version (m : main) (v : string)
    (NG AlwaysNew release_on_exit : bool)
    (Hno : forall h, oDesktop m <> Holds h)
    (Hv : v <> "") :
  (fst (init (Some v) NG AlwaysNew release_on_exit m)
     = Raise (AssertionError ("Specified version " ++ v ++ " not known."))
   <-> exists ks, fst (version_keys m) = Ok ks /\ str_in v ks = false)
  /\ ((exists ks, fst (version_keys m) = Ok ks /\ str_in v ks = false) ->
      calls (snd (init (Some v) NG AlwaysNew release_on_exit m)) = calls m)
  /\ (forall e, fst (version_keys m) = Raise e ->
        (e = ValueError \/ e = IndexError)
        /\ fst (init (Some v) NG AlwaysNew release_on_exit m) = Raise e
        /\ calls (snd (init (Some v) NG AlwaysNew release_on_exit m)) = calls m)
  /\ (forall names, installed m = map env_var names ->
        fst (version_keys m) = Ok (map derived_key names)).
Proof.
  destruct (init_run v NG AlwaysNew release_on_exit m Hno Hv) as (Hiff & Hcalls & Hraise).
  split; [exact Hiff|]. split; [exact Hcalls|]. split; [exact Hraise|].
  intros names Hinstalled. now rewrite (version_keys_run names m Hinstalled).
Qed.

Lemma init_unknown_version_witness :
  fst (init (Some "2021.2") false true true (sample_main pythonnet_v3 Unset))
  = Raise (AssertionError "Specified version 2021.2 not known.")
  /\ calls (snd (init (Some "2021.2") false true true
                   (sample_main pythonnet_v3 Unset))) = [].
Proof.
  pose proof (init_unknown_version (sample_main pythonnet_v3 Unset)
                "2021.2" false true true
                ltac:(discriminate) ltac:(discriminate)) as (Hiff & Hcalls & _).
  split.
  - apply (proj2 Hiff). exists ["2021.1"; "2019.2"]. split; reflexivity.
  - apply Hcalls. exists ["2021.1"; "2019.2"]. split; reflexivity.
Defined.

End DesktopTraces.

(* ===================================================================== *)
(** ** The component cache, its views, deletion and the BOM reader *)
(* ===================================================================== *)

Section DictFacts.

Context {V : Type}.
Implicit Types (d : Dict.dict V) (k : string) (v : V).

Lemma str_in_In k (l : list string) : str_in k l = true <-> In k l.
Proof.
  unfold str_in. rewrite existsb_exists. split.
  - intros (x & Hx & He). apply String.eqb_eq in He. now subst.
  - intros H. exists k. split; [exact H|apply String.eqb_refl].
Qed.

Lemma set_fresh k v d : ~ In k (Dict.keys d) -> Dict.set k v d = (d ++ [(k, v)])%list.
Proof.
  induction d as [|[k' v'] d IH]; simpl; intros H; [reflexivity|].
  destruct (String.eqb_spec k k') as [->|Hne]; [tauto|].
  rewrite IH; tauto.
Qed.

Lemma keys_set k v d :
  Dict.keys (Dict.set k v d)
  = if str_in k (Dict.keys d) then Dict.keys d else (Dict.keys d ++ [k])%list.
Proof.
  induction d as [|[k' v'] d IH]; simpl; [reflexivity|].
  destruct (String.eqb_spec k k') as [->|Hne]; simpl; [reflexivity|].
  unfold Dict.keys in *. rewrite IH. unfold str_in.
  now destruct (existsb (String.eqb k) (map fst d)).
Qed.

Lemma set_wf k v d : Dict.wf d -> Dict.wf (Dict.set k v d).
Proof.
  unfold Dict.wf. rewrite keys_set. intros H.
  destruct (str_in k (Dict.keys d)) eqn:Hin; [exact H|].
  apply NoDup_app; [exact H|repeat constructor; simpl; tauto|].
  intros x Hx [<-|[]]. apply str_in_In in Hx. congruence.
Qed.

Lemma get_of_key k d : In k (Dict.keys d) -> exists v, Dict.get k d = Some v.
Proof.
  induction d as [|[k' v'] d IH]; simpl; [tauto|].
  destruct (String.eqb_spec k k') as [->|Hne]; [now eexists|].
  intros [H|H]; [congruence|now apply IH].
Qed.

Lemma remove_filter k d :
  Dict.wf d -> Dict.remove k d = filter (fun e => negb (String.eqb (fst e) k)) d.
Proof.
  unfold Dict.wf. induction d as [|[k' v'] d IH]; simpl; [reflexivity|].
  intros H. inversion H as [|? ? Hnotin Hnd]; subst.
  rewrite (String.eqb_sym k' k).
  destruct (String.eqb_spec k k') as [->|Hne]; simpl.
  - symmetry. apply forallb_filter_id. apply forallb_forall.
    intros [k2 v2] Hin. simpl. apply negb_true_iff, String.eqb_neq.
    intros ->. apply Hnotin. now apply (in_map fst) in Hin.
  - now rewrite IH.
Qed.

End DictFacts.

Section CacheFacts.

Import Components.

Lemma refresh_loop l : forall s,
  for_each l (fun cmp =>
    modify (fun s => set_cmp
      (Dict.set (RefDes cmp) (new_EDBComponent cmp (RefDes cmp)) (_cmp s)) s)) s
  = (Ok tt,
     set_cmp (fold_left (fun d cmp =>
                Dict.set (RefDes cmp) (new_EDBComponent cmp (RefDes cmp)) d)
                l (_cmp s)) s).
Proof.
  induction l as [|cmp l IH]; intros s.
  - simpl. unfold ret. now destruct s.
  - cbn [for_each fold_left]. unfold bind, modify at 1. rewrite IH. reflexivity.
Qed.

Lemma refresh_components_run s : refresh_components s = (Ok tt, refreshed s).
Proof.
  unfold refresh_components, refreshed, get_component_list, aedt_exception_handler.
  unfold try_except, bind, get_state, emit, modify, ret, raise.
  cbn [layout_ok layout snd].
  destruct (layout_ok s); [|reflexivity].
  rewrite refresh_loop. reflexivity.
Qed.

Lemma components_run s : components s = (Ok (cached s), after_read s).
Proof.
  unfold components, cached, after_read, bind, get_state.
  destruct (_cmp s) as [|e c] eqn:Hc.
  - rewrite refresh_components_run. unfold ret, refreshed. cbn [_cmp set_cmp].
    reflexivity.
  - unfold ret. now rewrite Hc.
Qed.

Lemma cache_fold_wf l : forall d,
  Dict.wf d ->
  Dict.wf (fold_left (fun d cmp =>
             Dict.set (RefDes cmp) (new_EDBComponent cmp (RefDes cmp)) d) l d).
Proof.
  induction l as [|cmp l IH]; intros d Hd; simpl; [exact Hd|].
  apply IH. now apply set_wf.
Qed.

Lemma cache_of_wf l : Dict.wf (cache_of l).
Proof. apply cache_fold_wf. constructor. Qed.

Lemma cached_wf s : Dict.wf (_cmp s) -> Dict.wf (cached s).
Proof.
  intros H. unfold cached. destruct (_cmp s) as [|e c]; [|exact H].
  destruct (layout_ok s); [apply cache_of_wf|constructor].
Qed.

(** Entries of the built cache come from the layout, under their RefDes. *)
Lemma set_entries k v (d : Dict.dict EDBComponent) x :
  In x (Dict.set k v d) -> In x d \/ x = (k, v).
Proof.
  induction d as [|[k' v'] d IH]; simpl.
  - intros [<-|[]]; now right.
  - destruct (String.eqb_spec k k') as [->|Hne]; simpl.
    + intros [<-|H]; [now right|now left; right].
    + intros [<-|H]; [now left; left|].
      destruct (IH H) as [H'|H']; [now left; right|now right].
Qed.

Lemma cache_fold_entries l : forall d x,
  In x (fold_left (fun d cmp =>
          Dict.set (RefDes cmp) (new_EDBComponent cmp (RefDes cmp)) d) l d) ->
  In x d \/ exists cmp, In cmp l /\ x = (RefDes cmp, new_EDBComponent cmp (RefDes cmp)).
Proof.
  induction l as [|cmp l IH]; intros d x; simpl; [now left|].
  intros H. destruct (IH _ _ H) as [H'|(c & Hc & ->)].
  - destruct (set_entries _ _ _ _ H') as [H''| ->]; [now left|].
    right. exists cmp. now split; [left|].
  - right. exists c. now split; [right|].
Qed.

Lemma keys_set_incl k v (d : Dict.dict EDBComponent) x :
  In x (Dict.keys d) \/ x = k -> In x (Dict.keys (Dict.set k v d)).
Proof.
  rewrite keys_set. destruct (str_in k (Dict.keys d)) eqn:Hin.
  - intros [H| ->]; [exact H|now apply str_in_In].
  - rewrite in_app_iff. simpl. intuition.
Qed.

Lemma cache_fold_keys l : forall d x,
  In x (Dict.keys d) \/ In x (map RefDes l) ->
  In x (Dict.keys (fold_left (fun d cmp =>
          Dict.set (RefDes cmp) (new_EDBComponent cmp (RefDes cmp)) d) l d)).
Proof.
  induction l as [|cmp l IH]; intros d x; simpl; [tauto|].
  intros H. apply IH.
  destruct H as [H|[H|H]]; [left|left|now right];
    apply keys_set_incl; [now left|now right].
Qed.

Lemma components_cached s :
  _cmp s <> [] -> components s = (Ok (_cmp s), s).
Proof.
  intros H. rewrite components_run. unfold cached, after_read.
  now destruct (_cmp s).
Qed.

Lemma read_again_cached n s :
  _cmp s <> [] -> read_again n s = (Ok (_cmp s), s).
Proof.
  intros H. induction n as [|n IH]; cbn [read_again].
  - now apply components_cached.
  - unfold bind. now rewrite (components_cached s H).
Qed.

End CacheFacts.

(** The laws that tie a view's field to the rest of the state hold by
    computation. *)
Ltac lens :=
  intros; try reflexivity;
  match goal with s : Components.state |- _ => now destruct s end.

Section Views.

Import Components.

Variable ty : string.
Variable rd : state -> Dict.dict EDBComponent.
Variable wr : Dict.dict EDBComponent -> state -> state.
Hypothesis rd_wr : forall v s, rd (wr v s) = v.
Hypothesis wr_rd : forall s, wr (rd s) s = s.
Hypothesis wr_wr : forall v v' s, wr v (wr v' s) = wr v s.
Hypothesis cmp_wr : forall v s, _cmp (wr v s) = _cmp s.
Hypothesis layout_wr : forall v s, layout (wr v s) = layout s.
Hypothesis layout_ok_wr : forall v s, layout_ok (wr v s) = layout_ok s.
Hypothesis refreshed_wr : forall v s, refreshed (wr v s) = wr v (refreshed s).

Lemma collect_loop c : forall s,
  for_each c (fun '(el, val) =>
    if String.eqb (type val) ty
    then modify (fun s => wr (Dict.set el val (rd s)) s)
    else ret tt) s
  = (Ok tt, wr (fold_left (view_step ty) c (rd s)) s).
Proof.
  induction c as [|[el val] c IH]; intros s.
  - simpl. unfold ret. now rewrite wr_rd.
  - cbn [for_each fold_left]. unfold bind. unfold view_step at 2. cbn [fst snd].
    destruct (String.eqb (type val) ty).
    + unfold modify at 1. rewrite IH, rd_wr, wr_wr. reflexivity.
    + unfold ret at 1. apply IH.
Qed.

Lemma view_fold_filter c : forall acc,
  NoDup (Dict.keys c) ->
  (forall k, In k (Dict.keys c) -> ~ In k (Dict.keys acc)) ->
  fold_left (view_step ty) c acc = (acc ++ filter (has_type ty) c)%list.
Proof.
  induction c as [|[el val] c IH]; intros acc Hnd Hfresh.
  - simpl. now rewrite app_nil_r.
  - cbn [fold_left filter]. unfold view_step at 2.
    change (has_type ty (el, val)) with (String.eqb (type val) ty). cbn [fst snd].
    simpl in Hnd. inversion Hnd as [|? ? Hnotin Hnd']; subst.
    destruct (String.eqb (type val) ty).
    + rewrite set_fresh by (apply Hfresh; now left).
      rewrite IH; [now rewrite <- app_assoc|exact Hnd'|].
      intros k Hk. unfold Dict.keys. rewrite map_app, in_app_iff. simpl.
      intros [H|[<-|[]]]; [|exact (Hnotin Hk)].
      apply (Hfresh k); [now right|exact H].
    + apply IH; [exact Hnd'|]. intros k Hk. apply Hfresh. now right.
Qed.

Lemma cached_wr v s : cached (wr v s) = cached s.
Proof. unfold cached. now rewrite cmp_wr, layout_wr, layout_ok_wr. Qed.

Lemma after_read_wr v s : after_read (wr v s) = wr v (after_read s).
Proof.
  unfold after_read. rewrite cmp_wr. destruct (_cmp s); [apply refreshed_wr|reflexivity].
Qed.

Lemma collect_run s :
  Dict.wf (_cmp s) ->
  collect ty rd wr s
  = (Ok (filter (has_type ty) (cached s)),
     wr (filter (has_type ty) (cached s)) (after_read s)).
Proof.
  intros Hwf. unfold collect.
  unfold bind at 1. unfold modify at 1.
  unfold bind at 1. rewrite components_run.
  unfold bind at 1. rewrite collect_loop.
  unfold bind, get_state, ret.
  rewrite cached_wr, after_read_wr, !rd_wr, wr_wr.
  rewrite view_fold_filter; [reflexivity|now apply cached_wf|intros k _ []].
Qed.

End Views.

Section ViewFacts.
Import Components.

Lemma cmp_after_read s : _cmp (after_read s) = cached s.
Proof.
  unfold after_read, cached. destruct (_cmp s) eqn:Hc; [reflexivity|exact Hc].
Qed.

Lemma cached_after_read s : cached (after_read s) = cached s.
Proof.
  unfold cached, after_read. destruct (_cmp s) as [|e c] eqn:Hs.
  - unfold refreshed. cbn [_cmp layout_ok layout set_cmp emit modify snd].
    destruct (layout_ok s); [|reflexivity].
    now destruct (cache_of (layout s)).
  - now rewrite Hs.
Qed.

Lemma view_twice ty rd wr s :
  (forall v s, rd (wr v s) = v) -> (forall s, wr (rd s) s = s) ->
  (forall v v' s, wr v (wr v' s) = wr v s) ->
  (forall v s, _cmp (wr v s) = _cmp s) ->
  (forall v s, layout (wr v s) = layout s) ->
  (forall v s, layout_ok (wr v s) = layout_ok s) ->
  (forall v s, refreshed (wr v s) = wr v (refreshed s)) ->
  Dict.wf (_cmp s) ->
  fst (collect ty rd wr s) = Ok (filter (has_type ty) (cached s))
  /\ fst (collect ty rd wr (snd (collect ty rd wr s))) = fst (collect ty rd wr s).
Proof.
  intros H1 H2 H3 H4 H5 H6 H7 Hwf.
  rewrite (collect_run ty rd wr H1 H2 H3 H4 H5 H6 H7 s Hwf). cbn [fst snd].
  split; [reflexivity|].
  rewrite (collect_run ty rd wr H1 H2 H3 H4 H5 H6 H7).
  - cbn [fst]. now rewrite (cached_wr wr H4 H5 H6), cached_after_read.
  - rewrite H4, cmp_after_read. now apply cached_wf.
Qed.

Lemma resistors_run s :
  Dict.wf (_cmp s) ->
  fst (resistors s) = Ok (filter (has_type "Resistor") (cached s))
  /\ fst (resistors (snd (resistors s))) = fst (resistors s).
Proof. apply view_twice; lens. Qed.

Lemma capacitors_run s :
  Dict.wf (_cmp s) ->
  fst (capacitors s) = Ok (filter (has_type "Capacitor") (cached s))
  /\ fst (capacitors (snd (capacitors s))) = fst (capacitors s).
Proof. apply view_twice; lens. Qed.

Lemma inductors_run s :
  Dict.wf (_cmp s) ->
  fst (inductors s) = Ok (filter (has_type "Inductor") (cached s))
  /\ fst (inductors (snd (inductors s))) = fst (inductors s).
Proof. apply view_twice; lens. Qed.

Lemma ICs_run s :
  Dict.wf (_cmp s) ->
  fst (ICs s) = Ok (filter (has_type "IC") (cached s))
  /\ fst (ICs (snd (ICs s))) = fst (ICs s).
Proof. apply view_twice; lens. Qed.

Lemma IOs_run s :
  Dict.wf (_cmp s) ->
  fst (IOs s) = Ok (filter (has_type "IO") (cached s))
  /\ fst (IOs (snd (IOs s))) = fst (IOs s).
Proof. apply view_twice; lens. Qed.

Lemma Others_run s :
  Dict.wf (_cmp s) ->
  fst (Others s) = Ok (filter (has_type "Other") (cached s))
  /\ fst (Others (snd (Others s))) = fst (Others s).
Proof. apply view_twice; lens. Qed.
End ViewFacts.

Section Deletion.
Import Components.

Lemma find_remove_other k k' l :
  k' <> k -> find_by_name k' (remove_first k l) = find_by_name k' l.
Proof.
  intros Hne. unfold find_by_name.
  induction l as [|c l IH]; simpl; [reflexivity|].
  destruct (String.eqb_spec (RefDes c) k) as [Hk|Hk].
  - destruct (String.eqb_spec (RefDes c) k'); [congruence|reflexivity].
  - simpl. now rewrite IH.
Qed.

Lemma doomed_remove_other k l (c : Dict.dict EDBComponent) :
  ~ In k (Dict.keys c) ->
  filter (doomed (remove_first k l)) c = filter (doomed l) c.
Proof.
  intros Hk. apply filter_ext_in. intros [k' v'] Hin.
  unfold doomed. cbn [fst snd]. rewrite find_remove_other; [reflexivity|].
  intros ->. apply Hk. now apply (in_map fst) in Hin.
Qed.

Lemma scan_loop c : forall s acc,
  NoDup (Dict.keys c) ->
  exists s',
    for_acc c acc delete_round s
    = (Ok (acc ++ Dict.keys (filter (doomed (layout s)) c))%list, s')
    /\ _cmp s' = _cmp s
    /\ layout s'
       = fold_left (fun l k => remove_first k l)
           (Dict.keys (filter (doomed (layout s)) c)) (layout s).
Proof.
  induction c as [|[k v] c IH]; intros s acc Hnd.
  - exists s. simpl. unfold ret. now rewrite app_nil_r.
  - simpl in Hnd. inversion Hnd as [|? ? Hnotin Hnd']; subst.
    cbn [for_acc filter]. unfold bind at 1. unfold delete_round at 1.
    assert (Hd : doomed (layout s) (k, v)
                 = (numpins v <? 2) && is_rlc v
                   && is_some (find_by_name k (layout s))) by reflexivity.
    rewrite Hd. clear Hd.
    destruct ((numpins v <? 2) && is_rlc v); cbn [andb].
    + unfold bind at 1. unfold get_component_by_name at 1.
      unfold bind at 1. unfold emit at 1, modify at 1.
      unfold bind at 1. unfold get_state at 1. unfold ret at 1. cbn [layout].
      destruct (find_by_name k (layout s)) eqn:Hf; cbn [is_some].
      * unfold bind at 1. unfold Delete at 1. unfold bind at 1.
        unfold emit at 1, modify at 1. unfold modify at 1.
        unfold bind at 1. unfold emit at 1, modify at 1. unfold ret at 1.
        match goal with
        | |- context [for_acc c _ delete_round ?st] =>
            set (s1 := st);
            destruct (IH s1 (acc ++ [k])%list Hnd') as (s' & Hrun & Hc & Hl)
        end.
        change (layout s1) with (remove_first k (layout s)) in Hrun, Hl.
        change (_cmp s1) with (_cmp s) in Hc.
        rewrite (doomed_remove_other k (layout s) c Hnotin) in Hrun, Hl.
        exists s'. rewrite Hrun. cbn [Dict.keys map fst fold_left].
        rewrite <- app_assoc. split; [reflexivity|]. split; [exact Hc|exact Hl].
      * unfold ret at 1.
        match goal with
        | |- context [for_acc c _ delete_round ?st] =>
            set (s1 := st);
            destruct (IH s1 acc Hnd') as (s' & Hrun & Hc & Hl)
        end.
        change (layout s1) with (layout s) in Hrun, Hl.
        change (_cmp s1) with (_cmp s) in Hc.
        exists s'. rewrite Hrun. split; [reflexivity|]. split; [exact Hc|exact Hl].
    + unfold ret at 1. apply IH. exact Hnd'.
Qed.

Lemma keys_filter_In {V} (p : string * V -> bool) (d : Dict.dict V) k :
  In k (Dict.keys (filter p d)) -> In k (Dict.keys d).
Proof.
  unfold Dict.keys. rewrite !in_map_iff.
  intros (e & He & Hin). apply filter_In in Hin as [Hin _]. now exists e.
Qed.

Lemma filter_wf {V} (p : string * V -> bool) (d : Dict.dict V) :
  Dict.wf d -> Dict.wf (filter p d).
Proof.
  unfold Dict.wf. induction d as [|[k v] d IH]; simpl; [trivial|].
  intros H. inversion H as [|? ? Hnotin Hnd]; subst.
  destruct (p (k, v)); [|now apply IH].
  simpl. constructor; [|now apply IH].
  intros Hin. apply Hnotin. now apply keys_filter_In in Hin.
Qed.

Lemma key_in_filter {V} (p : string * V -> bool) (d : Dict.dict V) e :
  Dict.wf d -> In e d -> str_in (fst e) (Dict.keys (filter p d)) = p e.
Proof.
  unfold Dict.wf. induction d as [|[k v] d IH]; simpl; [tauto|].
  intros H Hin. inversion H as [|? ? Hnotin Hnd]; subst.
  destruct Hin as [<-|Hin].
  - cbn [fst]. destruct (p (k, v)) eqn:Hp.
    + simpl. now rewrite String.eqb_refl.
    + apply not_true_is_false. rewrite str_in_In.
      intros Hk. apply Hnotin. now apply keys_filter_In in Hk.
  - assert (Hne : fst e <> k).
    { intros <-. apply Hnotin. now apply (in_map fst) in Hin. }
    destruct (p (k, v)); [|now apply IH].
    simpl. apply String.eqb_neq in Hne. rewrite Hne. now apply IH.
Qed.

Lemma filter_filter {A} (p q : A -> bool) (l : list A) :
  filter p (filter q l) = filter (fun x => q x && p x) l.
Proof.
  induction l as [|x l IH]; simpl; [reflexivity|].
  destruct (q x); simpl; [|exact IH].
  destruct (p x); now rewrite IH.
Qed.

Lemma purge_loop ds : forall s,
  NoDup ds -> Dict.wf (_cmp s) ->
  (forall k, In k ds -> In k (Dict.keys (_cmp s))) ->
  exists s',
    for_each ds (fun el =>
      bind components (fun c =>
      bind (lift (Dict.del el c)) (fun c' =>
      modify (set_cmp c')))) s
    = (Ok tt, s')
    /\ _cmp s' = filter (fun e => negb (str_in (fst e) ds)) (_cmp s)
    /\ layout s' = layout s.
Proof.
  induction ds as [|el ds IH]; intros s Hnd Hwf Hin.
  - exists s. simpl. unfold ret. split; [reflexivity|]. split; [|reflexivity].
    symmetry. apply forallb_filter_id. now apply forallb_forall.
  - inversion Hnd as [|? ? Hnotin Hnd']; subst.
    assert (Hel : In el (Dict.keys (_cmp s))) by (apply Hin; now left).
    assert (Hne : _cmp s <> []) by (destruct (_cmp s); [destruct Hel|discriminate]).
    destruct (get_of_key el (_cmp s) Hel) as (v & Hget).
    cbn [for_each].
    match goal with |- context [for_each ds ?b] => set (body := b) in * end.
    unfold bind at 1. unfold body at 1. unfold bind at 1.
    rewrite (components_cached s Hne).
    unfold bind at 1. unfold lift at 1. unfold Dict.del at 1. rewrite Hget.
    unfold modify at 1.
    set (s1 := set_cmp (Dict.remove el (_cmp s)) s).
    destruct (IH s1 Hnd') as (s' & Hrun & Hc & Hl).
    + change (_cmp s1) with (Dict.remove el (_cmp s)).
      rewrite remove_filter by exact Hwf. now apply filter_wf.
    + intros k Hk. change (_cmp s1) with (Dict.remove el (_cmp s)).
      rewrite remove_filter by exact Hwf.
      assert (Hk' : In k (Dict.keys (_cmp s))) by (apply Hin; now right).
      unfold Dict.keys in *. apply in_map_iff in Hk' as (e & <- & He).
      apply in_map. apply filter_In. split; [exact He|].
      apply negb_true_iff, String.eqb_neq. intros Heq. apply Hnotin. now rewrite <- Heq.
    + exists s'. subst body s1. rewrite Hrun. split; [reflexivity|]. split; [|exact Hl].
      rewrite Hc. cbn [_cmp set_cmp].
      rewrite remove_filter by exact Hwf. rewrite filter_filter.
      apply filter_ext. intros e. cbn [str_in existsb].
      rewrite negb_orb. now rewrite (String.eqb_sym (fst e) el).
Qed.

Lemma delete_single_pin_rlc_run s :
  Dict.wf (_cmp s) ->
  exists s',
    delete_single_pin_rlc s
    = (Ok (Dict.keys (filter (doomed (layout s)) (cached s))), s')
    /\ _cmp s' = filter (fun e => negb (doomed (layout s) e)) (cached s)
    /\ layout s'
       = fold_left (fun l k => remove_first k l)
           (Dict.keys (filter (doomed (layout s)) (cached s))) (layout s).
Proof.
  intros Hwf. pose proof (cached_wf s Hwf) as Hcw.
  unfold delete_single_pin_rlc.
  unfold bind at 1. rewrite components_run.
  assert (Hlay : layout (after_read s) = layout s).
  { unfold after_read. now destruct (_cmp s). }
  destruct (scan_loop (cached s) (after_read s) [] Hcw) as (s1 & Hrun & Hc1 & Hl1).
  rewrite Hlay in Hrun, Hl1. rewrite cmp_after_read in Hc1.
  unfold bind at 1. rewrite Hrun. cbn [app].
  destruct (purge_loop (Dict.keys (filter (doomed (layout s)) (cached s))) s1)
    as (s2 & Hrun2 & Hc2 & Hl2).
  - now apply filter_wf.
  - now rewrite Hc1.
  - intros k Hk. rewrite Hc1. now apply keys_filter_In in Hk.
  - unfold bind at 1. rewrite Hrun2. unfold ret.
    exists s2. split; [reflexivity|]. split; [|now rewrite Hl2].
    rewrite Hc2, Hc1. apply filter_ext_in. intros e He.
    now rewrite key_in_filter.
Qed.
End Deletion.

Section Bom.
Import Components.

Lemma split_nonempty delimiter line :
  delimiter <> "" ->
  PyStr.split delimiter line = Ok (PyStr.split_from delimiter line 0 "").
Proof. destruct delimiter; [congruence|reflexivity]. Qed.

Lemma bom_line_quiet delimiter valuefield comptype refdes line loc s :
  delimiter <> "" ->
  column_truthy (refdescolumn loc) = false ->
  column_truthy (index_of refdes
     (map PyStr.strip (PyStr.split_from delimiter line 0 ""))) = false ->
  exists loc',
    bom_line delimiter valuefield comptype refdes line loc s = (Ok loc', s)
    /\ found loc' = found loc
    /\ column_truthy (refdescolumn loc') = false.
Proof.
  intros Hd Hloc Hline. unfold bom_line.
  unfold bind at 1. unfold lift at 1. rewrite (split_nonempty _ _ Hd).
  destruct (str_in refdes _) eqn:Hin.
  - eexists. split; [reflexivity|]. split; [reflexivity|exact Hline].
  - rewrite Hloc. eexists. split; [reflexivity|]. split; [reflexivity|exact Hloc].
Qed.

Lemma bom_loop_quiet delimiter valuefield comptype refdes lines : forall loc s,
  delimiter <> "" ->
  column_truthy (refdescolumn loc) = false ->
  (forall line, In line lines ->
     column_truthy (index_of refdes
       (map PyStr.strip (PyStr.split_from delimiter line 0 ""))) = false) ->
  exists loc',
    for_acc lines loc (bom_line delimiter valuefield comptype refdes) s = (Ok loc', s)
    /\ found loc' = found loc.
Proof.
  induction lines as [|line lines IH]; intros loc s Hd Hloc Hlines.
  - exists loc. now split.
  - cbn [for_acc]. unfold bind.
    destruct (bom_line_quiet delimiter valuefield comptype refdes line loc s Hd Hloc)
      as (loc1 & Hrun & Hf & Hc); [apply Hlines; now left|].
    rewrite Hrun.
    destruct (IH loc1 s Hd Hc) as (loc' & Hrun' & Hf');
      [intros l Hl; apply Hlines; now right|].
    exists loc'. split; [exact Hrun'|congruence].
Qed.

Lemma update_rlc_quiet s bom_file contents delimiter valuefield comptype refdes :
  Dict.get bom_file (files s) = Some contents ->
  delimiter <> "" ->
  (forall line, In line (readlines contents) ->
     column_truthy (index_of refdes
       (map PyStr.strip (PyStr.split_from delimiter line 0 ""))) = false) ->
  update_rlc_from_bom bom_file delimiter valuefield comptype refdes s
  = (Ok false, snd (emit (EvOpen bom_file) s)).
Proof.
  intros Hfile Hd Hlines.
  unfold update_rlc_from_bom, aedt_exception_handler, try_except,
    update_rlc_from_bom_body.
  unfold bind at 1. unfold open_read at 1.
  unfold bind at 1. unfold emit at 1, modify at 1.
  unfold bind at 1. unfold get_state at 1. cbn [files]. rewrite Hfile.
  unfold ret at 1. unfold bind at 1.
  match goal with
  | |- context [for_acc _ ?loc0 _ ?st] =>
      destruct (bom_loop_quiet delimiter valuefield comptype refdes
                  (readlines contents) loc0 st Hd eq_refl Hlines)
        as (loc' & Hrun & Hf)
  end.
  rewrite Hrun. unfold ret. cbn [found] in Hf. rewrite Hf. reflexivity.
Qed.
Lemma split_from_cons sep s : forall skip cur,
  exists t rest, PyStr.split_from sep s skip cur = t :: rest.
Proof.
  induction s as [|c s IH]; intros skip cur; simpl.
  - now eexists; eexists.
  - destruct skip as [|n]; [|apply IH].
    destruct (PyStr.strip_prefix sep (String c s)); [now eexists; eexists|apply IH].
Qed.

Lemma first_token_word x : first_token x = Ok (first_word x).
Proof.
  unfold first_token, first_word, PyStr.split, rbind.
  destruct (split_from_cons " " x 0 "") as (t & rest & ->). reflexivity.
Qed.

Lemma set_component_rlc_returns name r l c p s :
  exists b, fst (set_component_rlc name r l c p s) = Ok b.
Proof.
  unfold set_component_rlc, aedt_exception_handler, try_except.
  destruct (set_component_rlc_body name r l c p s) as [[b|e] s'];
    eexists; reflexivity.
Qed.

(** A data row below a header whose reference designator is past the
    first column: the row counts as found, and its value is assigned by the
    type of the component. *)
Lemma bom_line_row delimiter valuefield comptype refdes line loc s i j t r v ty :
  delimiter <> "" ->
  refdescolumn loc = Some (S i) -> valuecolumn loc = Some j ->
  comptypecolumn loc = Some t ->
  let content_line := map PyStr.strip (PyStr.split_from delimiter line 0 "") in
  str_in valuefield content_line = false ->
  str_in comptype content_line = false ->
  str_in refdes content_line = false ->
  nth_error content_line (S i) = Some r ->
  nth_error content_line j = Some v ->
  nth_error content_line t = Some ty ->
  bom_line delimiter valuefield comptype refdes line loc s
  = (Ok {| found := true; refdescolumn := Some (S i);
           comptypecolumn := Some t; valuecolumn := Some j |},
     row_assigned (first_word r) (first_word v) ty s).
Proof.
  intros Hd Hr Hv Ht content_line Hvf Hct Hrd Hnr Hnv Hnt.
  unfold bom_line. unfold bind at 1. unfold lift at 1.
  rewrite (split_nonempty _ _ Hd). fold content_line.
  rewrite Hvf, Hct, Hrd, Hr, Hv, Ht. cbn [column_truthy].
  unfold bind at 1. unfold lift at 1, list_item at 1. rewrite Hnr.
  unfold bind at 1. unfold lift at 1. rewrite first_token_word.
  unfold bind at 1. unfold lift at 1, list_item at 1. rewrite Hnv.
  unfold bind at 1. unfold lift at 1. rewrite first_token_word.
  unfold bind at 1. unfold lift at 1, list_item at 1. rewrite Hnt.
  unfold row_assigned.
  destruct (PyStr.contains "resistor" (PyStr.lower ty)).
  { unfold bind.
    destruct (set_component_rlc_returns (first_word r) (Some (first_word v)) None None false s)
      as (b & Hb).
    destruct (set_component_rlc _ _ _ _ _ s) as [res s']; cbn [fst snd] in *.
    rewrite Hb. reflexivity. }
  destruct (PyStr.contains "capacitor" (PyStr.lower ty)).
  { unfold bind.
    destruct (set_component_rlc_returns (first_word r) None None (Some (first_word v)) false s)
      as (b & Hb).
    destruct (set_component_rlc _ _ _ _ _ s) as [res s']; cbn [fst snd] in *.
    rewrite Hb. reflexivity. }
  destruct (PyStr.contains "inductor" (PyStr.lower ty)).
  { unfold bind.
    destruct (set_component_rlc_returns (first_word r) None (Some (first_word v)) None false s)
      as (b & Hb).
    destruct (set_component_rlc _ _ _ _ _ s) as [res s']; cbn [fst snd] in *.
    rewrite Hb. reflexivity. }
  reflexivity.
Qed.
End Bom.

Section ComponentTheorems.

Import Components.

(** C4: while the cache holds something, any number of reads of
    [components] gives that cache and leaves the state, its log of calls
    included, as it was; on an empty cache a read asks the layout once and
    gives the dictionary built from its answer, which has one entry per
    RefDes, each component filed under its own RefDes. *)
Theorem components_cache_on_demand (s : state) :
  (_cmp s <> [] -> forall n, read_again n s = (Ok (_cmp s), s))
  /\ (_cmp s = [] ->
      fst (components s) = Ok (if layout_ok s then cache_of (layout s) else [])
      /\ _cmp (snd (components s))
         = (if layout_ok s then cache_of (layout s) else [])
      /\ calls (snd (components s)) = (calls s ++ [EvGetFromLayout])%list)
  /\ Dict.wf (cache_of (layout s))
  /\ (forall k v, In (k, v) (cache_of (layout s)) ->
        refdes v = k
        /\ exists cmp, In cmp (layout s) /\ RefDes cmp = k
                       /\ v = new_EDBComponent cmp k)
  /\ (forall cmp, In cmp (layout s) ->
        In (RefDes cmp) (Dict.keys (cache_of (layout s)))).
Proof.
  split; [intros Hne n; now apply read_again_cached|].
  split.
  { intros He. rewrite components_run. unfold cached, after_read. rewrite He.
    cbn [fst snd]. unfold refreshed, calls.
    cbn [_cmp set_cmp emit modify snd log]. repeat split. }
  split; [apply cache_of_wf|].
  split.
  - intros k v Hin. unfold cache_of in Hin.
    apply cache_fold_entries in Hin as [[]|(cmp & Hc & Heq)].
    inversion Heq; subst. split; [reflexivity|]. now exists cmp.
  - intros cmp Hin. apply cache_fold_keys. right. now apply in_map.
Qed.

Lemma components_cache_on_demand_witness :
  read_again 2 (snd (components (sample_state "")))
  = (Ok (_cmp (snd (components (sample_state "")))),
     snd (components (sample_state ""))).
Proof.
  exact (proj1 (components_cache_on_demand (snd (components (sample_state ""))))
           ltac:(discriminate) 2%nat).
Defined.

(** C8: each of [resistors], [capacitors], [inductors], [ICs], [IOs] and
    [Others] gives the entries of [components] whose type is the view's, in
    the order and under the keys of the cache, and gives the same again when
    it is computed once more. *)
Theorem views_are_type_filters (s : state) (Hwf : Dict.wf (_cmp s)) :
  fst (components s) = Ok (cached s)
  /\ (fst (resistors s) = Ok (filter (has_type "Resistor") (cached s))
      /\ fst (resistors (snd (resistors s))) = fst (resistors s))
  /\ (fst (capacitors s) = Ok (filter (has_type "Capacitor") (cached s))
      /\ fst (capacitors (snd (capacitors s))) = fst (capacitors s))
  /\ (fst (inductors s) = Ok (filter (has_type "Inductor") (cached s))
      /\ fst (inductors (snd (inductors s))) = fst (inductors s))
  /\ (fst (ICs s) = Ok (filter (has_type "IC") (cached s))
      /\ fst (ICs (snd (ICs s))) = fst (ICs s))
  /\ (fst (IOs s) = Ok (filter (has_type "IO") (cached s))
      /\ fst (IOs (snd (IOs s))) = fst (IOs s))
  /\ (fst (Others s) = Ok (filter (has_type "Other") (cached s))
      /\ fst (Others (snd (Others s))) = fst (Others s)).
Proof.
  split; [now rewrite components_run|].
  split; [now apply resistors_run|].
  split; [now apply capacitors_run|].
  split; [now apply inductors_run|].
  split; [now apply ICs_run|].
  split; [now apply IOs_run|].
  now apply Others_run.
Qed.

Lemma views_are_type_filters_witness :
  fst (resistors (sample_state ""))
  = Ok [("R1", new_EDBComponent (sample_component "R1" "Resistor" ["1"; "2"]) "R1");
        ("R2", new_EDBComponent (sample_component "R2" "Resistor" ["1"]) "R2")].
Proof.
  exact (proj1 (proj1 (proj2
    (views_are_type_filters (sample_state "") (NoDup_nil string))))).
Defined.

(** C7, counterexample: the cache lists the single-pin capacitor [C1] and
    the single-pin resistor [R2]; [R2] is no longer in the layout, so only
    [C1] is deleted and returned, and [R2] stays in the cache. *)
Lemma delete_single_pin_rlc_counterexample :
  Dict.keys (filter single_pin_rlc (_cmp stale_state)) = ["C1"; "R2"]
  /\ fst (delete_single_pin_rlc stale_state) = Ok ["C1"]
  /\ Dict.keys (_cmp (snd (delete_single_pin_rlc stale_state)))
     = ["R1"; "U1"; "R2"; "L1"]
  /\ fst (delete_single_pin_rlc stale_state)
     <> Ok (Dict.keys (filter single_pin_rlc (_cmp stale_state))).
Proof. repeat split; vm_compute; discriminate. Qed.

(** C7, amended: [delete_single_pin_rlc] deletes exactly the cached
    components of type Resistor, Capacitor or Inductor with fewer than two
    pins that [get_component_by_name] finds in the layout, returns their
    reference designators in cache order, and removes exactly their entries
    from the cache, the other entries staying as they are; when all the
    single-pin RLC entries are found these are all of them. *)
Theorem delete_single_pin_rlc_found (s : state) (Hwf : Dict.wf (_cmp s)) :
  (forall e, doomed (layout s) e
             = single_pin_rlc e && is_some (find_by_name (fst e) (layout s)))
  /\ fst (components s) = Ok (cached s)
  /\ (exists s',
        delete_single_pin_rlc s
        = (Ok (Dict.keys (filter (doomed (layout s)) (cached s))), s')
        /\ _cmp s' = filter (fun e => negb (doomed (layout s) e)) (cached s)
        /\ layout s'
           = fold_left (fun l k => remove_first k l)
               (Dict.keys (filter (doomed (layout s)) (cached s))) (layout s))
  /\ ((forall e, In e (cached s) -> single_pin_rlc e = true ->
          is_some (find_by_name (fst e) (layout s)) = true) ->
      filter (doomed (layout s)) (cached s) = filter single_pin_rlc (cached s)
      /\ filter (fun e => negb (doomed (layout s) e)) (cached s)
         = filter (fun e => negb (single_pin_rlc e)) (cached s)).
Proof.
  split; [reflexivity|].
  split; [now rewrite components_run|].
  split; [now apply delete_single_pin_rlc_run|].
  intros Hfound.
  split; apply filter_ext_in; intros e He; unfold doomed;
    fold (single_pin_rlc e);
    destruct (single_pin_rlc e) eqn:Hs; try reflexivity;
    now rewrite (Hfound e He Hs).
Qed.

Lemma delete_single_pin_rlc_found_witness :
  exists s',
    delete_single_pin_rlc (sample_state "") = (Ok ["C1"; "R2"], s')
    /\ _cmp s'
       = [("R1", new_EDBComponent (sample_component "R1" "Resistor" ["1"; "2"]) "R1");
          ("U1", new_EDBComponent (sample_component "U1" "IC" ["1"; "2"; "3"]) "U1");
          ("L1", new_EDBComponent (sample_component "L1" "Inductor" ["1"; "2"]) "L1")]
    /\ layout s'
       = [sample_component "R1" "Resistor" ["1"; "2"];
          sample_component "U1" "IC" ["1"; "2"; "3"];
          sample_component "L1" "Inductor" ["1"; "2"]].
Proof.
  exact (proj1 (proj2 (proj2
    (delete_single_pin_rlc_found (sample_state "") (NoDup_nil string))))).
Defined.

(** The same rows with the reference designator in the second column are
    read: the answer is [True] and the resistance of [R1] is set. *)
Lemma update_rlc_from_bom_second_column :
  fst (update_rlc_from_bom "bom.csv" default_delimiter default_valuefield
         default_comptype default_refdes (sample_state bom_refdes_second))
  = Ok true
  /\ calls (snd (update_rlc_from_bom "bom.csv" default_delimiter default_valuefield
         default_comptype default_refdes (sample_state bom_refdes_second)))
     = [EvOpen "bom.csv"; EvFindByName "R1"; EvFindByName "R1";
        EvSetComponentProperty "R1" "1" "2"
          {| IsParallel := false; R := Some "10"; L := None; C := None |};
        EvWarning "RLC Properties for Component R1 has been assigned"].
Proof. split; reflexivity. Qed.

(** C5: a BOM in which the reference-designator header is never found
    past the first column is read without effect: whatever rows follow the
    header, [update_rlc_from_bom] answers [False] and sets no value,
    because [elif refdescolumn:] takes column 0 for "no column yet". *)
Theorem update_rlc_from_bom_first_column (s : state)
    (bom_file contents delimiter valuefield comptype refdes : string)
    (Hfile : Dict.get bom_file (files s) = Some contents)
    (Hdelimiter : delimiter <> "")
    (Hcolumn : forall line, In line (readlines contents) ->
       column_truthy (index_of refdes
         (map PyStr.strip (PyStr.split_from delimiter line 0 ""))) = false) :
  fst (update_rlc_from_bom bom_file delimiter valuefield comptype refdes s) = Ok false
  /\ calls (snd (update_rlc_from_bom bom_file delimiter valuefield comptype refdes s))
     = (calls s ++ [EvOpen bom_file])%list.
Proof.
  rewrite (update_rlc_quiet s bom_file contents delimiter valuefield comptype refdes
             Hfile Hdelimiter Hcolumn).
  split; reflexivity.
Qed.

Lemma update_rlc_from_bom_first_column_witness :
  fst (update_rlc_from_bom "bom.csv" default_delimiter default_valuefield
         default_comptype default_refdes (sample_state bom_refdes_first))
  = Ok false
  /\ calls (snd (update_rlc_from_bom "bom.csv" default_delimiter default_valuefield
         default_comptype default_refdes (sample_state bom_refdes_first)))
     = [EvOpen "bom.csv"].
Proof.
  apply (update_rlc_from_bom_first_column (sample_state bom_refdes_first)
           "bom.csv" bom_refdes_first); [reflexivity|discriminate|].
  intros line [<-|[<-|[]]]; reflexivity.
Defined.

End ComponentTheorems.

(* ===================================================================== *)
(** ** More on the version identifiers *)
(* ===================================================================== *)

Section VersionIds.
Import Desktop.

(** X1: [get_version_key] and [get_version_env_variable] read a version id
    the same way: where one raises, the other raises the same exception;
    where they return, the key is the year's last digits followed by the
    release, and the variable is [ANSYSEM_ROOT] followed by the key, with
    the year moved up by one (release below 3) or the release by two
    (otherwise) for years before 20. *)
Theorem version_key_and_env_variable_agree (version_id : string) :
  match get_version_key version_id with
  | Raise e => get_version_env_variable version_id = Raise e
  | Ok key =>
      exists version release,
        key = PyStr.str version ++ PyStr.str release
        /\ get_version_env_variable version_id
           = Ok ("ANSYSEM_ROOT" ++
                 (if version <? 20 then
                    if release <? 3 then PyStr.str (version + 1) ++ PyStr.str release
                    else PyStr.str version ++ PyStr.str (release + 2)
                  else key))
  end.
Proof.
  unfold get_version_key, get_version_env_variable, rbind.
  destruct (PyStr.split "." version_id) as [values|e]; [|reflexivity].
  destruct (nth_error values 0) as [v0|]; [|reflexivity].
  destruct (PyStr.int (PyStr.drop 2 v0)) as [version|e]; [|reflexivity].
  destruct (nth_error values 1) as [v1|]; [|reflexivity].
  destruct (PyStr.int v1) as [release|e]; [|reflexivity].
  exists version, release. split; [reflexivity|].
  destruct (version <? 20); [destruct (release <? 3)|]; reflexivity.
Qed.

Lemma split_from_no_sep c s : forall cur,
  all_chars (fun x => negb (Ascii.eqb c x)) s = true ->
  PyStr.split_from (String c "") s 0 cur = [PyStr.rev_string s cur].
Proof.
  induction s as [|x s IH]; intros cur H; [reflexivity|].
  simpl in H. apply andb_true_iff in H as [Hx Hs]. apply negb_true_iff in Hx.
  cbn [PyStr.split_from PyStr.strip_prefix]. rewrite Hx. rewrite (IH _ Hs).
  reflexivity.
Qed.

(** X2: a version id without a dot has a single field, so both functions
    raise: the [ValueError] of [int] when what follows the first two
    characters is no number, and otherwise the [IndexError] of
    [values[1]]. *)
Theorem version_id_without_dot (version_id : string)
    (Hdot : all_chars (fun c => negb (PyStr.is_dot c)) version_id = true) :
  let outcome :=
    match PyStr.int (PyStr.drop 2 version_id) with
    | Ok _ => IndexError
    | Raise e => e
    end in
  get_version_env_variable version_id = Raise outcome
  /\ get_version_key version_id = Raise outcome.
Proof.
  assert (Hsplit : PyStr.split "." version_id = Ok [version_id]).
  { unfold PyStr.split. rewrite split_from_no_sep; [reflexivity|].
    revert Hdot. apply all_chars_impl. intros c Hc. unfold PyStr.is_dot in Hc.
    now rewrite Ascii.eqb_sym. }
  unfold get_version_env_variable, get_version_key, rbind. rewrite Hsplit.
  cbn [nth_error].
  destruct (PyStr.int (PyStr.drop 2 version_id)); split; reflexivity.
Qed.

Lemma version_id_without_dot_witness :
  get_version_env_variable "2021" = Raise IndexError
  /\ get_version_key "2021" = Raise IndexError.
Proof. exact (version_id_without_dot "2021" eq_refl). Defined.
End VersionIds.

(** Filling a dictionary key by key. *)
Section DictLookup.
Context {V : Type}.

Lemma get_set (k k' : string) (v : V) (d : Dict.dict V) :
  Dict.get k (Dict.set k' v d) = if String.eqb k k' then Some v else Dict.get k d.
Proof.
  induction d as [|[k0 v0] d IH]; simpl.
  - reflexivity.
  - destruct (String.eqb_spec k' k0) as [->|Hne]; simpl.
    + now destruct (String.eqb k k0).
    + rewrite IH. destruct (String.eqb_spec k k0) as [->|Hne'].
      * destruct (String.eqb_spec k0 k'); [congruence|reflexivity].
      * reflexivity.
Qed.

Lemma find_app {X} (p : X -> bool) (l1 l2 : list X) :
  find p (l1 ++ l2) = match find p l1 with Some x => Some x | None => find p l2 end.
Proof.
  induction l1 as [|x l1 IH]; simpl; [reflexivity|].
  now destruct (p x).
Qed.

(** Filling a dictionary from a list: a key holds what the last element
    filed under it brought. *)
Lemma get_fold_set {X} (f : X -> string) (g : X -> V) (l : list X) :
  forall (d : Dict.dict V) (k : string),
  Dict.get k (fold_left (fun d x => Dict.set (f x) (g x) d) l d)
  = match find (fun x => String.eqb (f x) k) (rev l) with
    | Some x => Some (g x)
    | None => Dict.get k d
    end.
Proof.
  induction l as [|a l IH]; intros d k; cbn [fold_left rev]; [reflexivity|].
  rewrite IH, find_app. destruct (find _ (rev l)); [reflexivity|].
  cbn [find]. rewrite get_set, (String.eqb_sym k (f a)).
  now destruct (String.eqb (f a) k).
Qed.
End DictLookup.

Section VersionScan.
Import Desktop.

(** X3: [version_keys] rebuilds its two attributes at each read: a
    second read gives the same outcome and leaves the same state as the
    first, so the list of keys never grows from read to read. *)
Theorem version_keys_read_twice (m : main) :
  version_keys (snd (version_keys m)) = version_keys m.
Proof.
  rewrite (version_keys_scan m).
  destruct (scan_versions (installed m) [] []) as [[r ks] ids] eqn:Hs.
  cbn [snd]. rewrite version_keys_scan. cbn [installed set_versions]. rewrite Hs.
  reflexivity.
Qed.

Lemma scan_versions_bad good bad rest e : forall ks ids,
  version_key_of bad = Raise e ->
  scan_versions (map env_var good ++ bad :: rest) ks ids
  = (Raise e, (ks ++ map derived_key good)%list, ids_after good ids).
Proof.
  induction good as [|n good IH]; intros ks ids Hbad.
  - simpl. rewrite Hbad. now rewrite app_nil_r.
  - cbn [map app scan_versions]. rewrite version_key_of_env_var.
    rewrite IH by exact Hbad. cbn [ids_after fold_left map].
    now rewrite <- app_assoc.
Qed.

(** X4: an installed name the loop cannot read stops [version_keys] with
    the exception of [int] or of the index; the keys of the names before
    it stay in [_version_keys], and [__init__] on a machine without a
    desktop fails with the same exception before any call is made. *)
Theorem malformed_installed_name (m : main) (good : list (digit * digit * digit))
    (bad : string) (rest : list string) (e : exn)
    (specified_version : option string) (NG AlwaysNew release_on_exit : bool)
    (Hinstalled : installed m = (map env_var good ++ bad :: rest)%list)
    (Hbad : version_key_of bad = Raise e)
    (Hno : forall h, oDesktop m <> Holds h) :
  fst (version_keys m) = Raise e
  /\ version_keys_ (snd (version_keys m)) = map derived_key good
  /\ fst (init specified_version NG AlwaysNew release_on_exit m) = Raise e
  /\ calls (snd (init specified_version NG AlwaysNew release_on_exit m)) = calls m.
Proof.
  assert (Hk : forall m0, installed m0 = installed m ->
            version_keys m0
            = (Raise e, set_versions (map derived_key good) (ids_after good []) m0)).
  { intros m0 H0. rewrite version_keys_scan, H0, Hinstalled.
    now rewrite (scan_versions_bad good bad rest e [] [] Hbad). }
  split; [now rewrite (Hk m eq_refl)|].
  split; [now rewrite (Hk m eq_refl)|].
  rewrite (init_without_desktop _ _ _ _ _ Hno).
  set (st := set_release release_on_exit (set_close_on_exit false m)).
  assert (Hsel : select_version specified_version st
                 = (Raise e, set_versions (map derived_key good)
                               (ids_after good []) st)).
  { unfold select_version, current_version.
    destruct (truthy specified_version); unfold bind; now rewrite (Hk st eq_refl). }
  rewrite (bind_run _ _ _ _ _ (bind_run _ _ _ _ _ Hsel)).
  split; reflexivity.
Qed.

Lemma malformed_installed_name_witness :
  fst (version_keys (sample_machine pythonnet ["ANSYSEM_ROOT211"; "ANSYSEM_ROOT21"] []))
  = Raise IndexError
  /\ version_keys_ (snd (version_keys
       (sample_machine pythonnet ["ANSYSEM_ROOT211"; "ANSYSEM_ROOT21"] []))) = ["2021.1"]
  /\ fst (init None false true true
            (sample_machine pythonnet ["ANSYSEM_ROOT211"; "ANSYSEM_ROOT21"] []))
     = Raise IndexError
  /\ calls (snd (init None false true true
            (sample_machine pythonnet ["ANSYSEM_ROOT211"; "ANSYSEM_ROOT21"] []))) = [].
Proof.
  exact (malformed_installed_name
           (sample_machine pythonnet ["ANSYSEM_ROOT211"; "ANSYSEM_ROOT21"] [])
           [(D2, D1, D1)] "ANSYSEM_ROOT21" [] IndexError None false true true
           eq_refl eq_refl ltac:(discriminate)).
Defined.

Lemma ids_after_has names k :
  str_in k (map derived_key names) = true ->
  exists n, In n names /\ derived_key n = k
            /\ Dict.get k (ids_after names []) = Some (env_var n).
Proof.
  intros Hin. unfold ids_after. rewrite get_fold_set. cbn [Dict.get].
  destruct (find (fun n0 => String.eqb (derived_key n0) k) (rev names)) as [n'|] eqn:Hf.
  - apply find_some in Hf as [Hin' He]. apply String.eqb_eq in He.
    exists n'. split; [now apply in_rev|]. now split.
  - exfalso.
    apply str_in_In in Hin. apply in_map_iff in Hin as (n & Hn & Hnin).
    apply in_rev in Hnin. pose proof (find_none _ _ Hf n Hnin) as Hne.
    cbv beta in Hne. rewrite Hn, String.eqb_refl in Hne. discriminate.
Qed.

(** X5: when two installed names give the same key, [_version_ids] holds
    the later one: a key maps to the last name of the list that derives
    it, and every key of [version_keys] has an entry. *)
Theorem version_ids_last_wins (m : main) (names : list (digit * digit * digit))
    (Hinstalled : installed m = map env_var names) (k : string) :
  Dict.get k (version_ids_ (snd (version_keys m)))
  = option_map env_var (find (fun n => String.eqb (derived_key n) k) (rev names))
  /\ (str_in k (map derived_key names) = true ->
      exists n, In n names /\ derived_key n = k
                /\ Dict.item k (version_ids_ (snd (version_keys m))) = Ok (env_var n)).
Proof.
  rewrite (version_keys_run names m Hinstalled). cbn [snd version_ids_ set_versions].
  split.
  - unfold ids_after. rewrite get_fold_set. cbn [Dict.get].
    now destruct (find _ (rev names)).
  - intros Hin. destruct (ids_after_has names k Hin) as (n & Hn & Hk & Hget).
    exists n. split; [exact Hn|]. split; [exact Hk|].
    unfold Dict.item. now rewrite Hget.
Qed.

Lemma version_ids_last_wins_witness :
  Dict.get "2018.1" (version_ids_ (snd (version_keys
     (sample_machine pythonnet
       ["ANSYSEM_ROOT183"; "ANSYSEM_ROOT211"; "ANSYSEM_ROOT191"] []))))
  = Some "ANSYSEM_ROOT191".
Proof.
  exact (proj1 (version_ids_last_wins
    (sample_machine pythonnet
       ["ANSYSEM_ROOT183"; "ANSYSEM_ROOT211"; "ANSYSEM_ROOT191"] [])
    [(D1, D8, D3); (D2, D1, D1); (D1, D9, D1)] eq_refl "2018.1")).
Defined.
End VersionScan.

(* ===================================================================== *)
(** ** Sessions: [__init__] followed by [__exit__] *)
(* ===================================================================== *)

(** Running the straight-line tails of the desktop functions, and putting
    the recorded calls in order. *)
Ltac run_main :=
  unfold Desktop.GetProcessID, Desktop.the_desktop, Desktop.read_oDesktop,
    Desktop.os_kill, Desktop.del_oDesktop,
    Desktop.del_pyaedt_initialized, Desktop.close_log_handlers, Desktop.read_local,
    try_except, bind, lift, get_state, Desktop.emit, modify, ret, raise;
  cbn [Desktop.com Desktop.oDesktop Desktop.COMUtil Desktop.pyaedt_initialized
       Desktop.close_on_exit Desktop.AEDTVersion Desktop.installed
       Desktop.version_keys_ Desktop.version_ids_ Desktop.release_ Desktop.kill_ok
       Desktop.tasklist Desktop.launched Desktop.rot_has Desktop.trace
       recorded Desktop.set_oDesktop Desktop.set_pyaedt_initialized
       Desktop.set_COMUtil Desktop.set_close_on_exit Desktop.set_AEDTVersion
       Desktop.set_versions Desktop.set_release Desktop.set_tasklist
       projects_closed Desktop.ScopeID Desktop.ProcessID Desktop.ProjectList
       Desktop.GetProjectList_ok Desktop.Version fst snd].

Ltac tidy_trace :=
  unfold Desktop.calls;
  cbn [Desktop.com Desktop.oDesktop Desktop.COMUtil Desktop.pyaedt_initialized
       Desktop.close_on_exit Desktop.AEDTVersion Desktop.installed
       Desktop.version_keys_ Desktop.version_ids_ Desktop.release_ Desktop.kill_ok
       Desktop.tasklist Desktop.launched Desktop.rot_has Desktop.trace
       recorded Desktop.set_oDesktop Desktop.set_pyaedt_initialized
       Desktop.set_COMUtil Desktop.set_close_on_exit Desktop.set_AEDTVersion
       Desktop.set_versions Desktop.set_release Desktop.set_tasklist fst snd];
  repeat (progress (cbn [rev app map];
                    rewrite ?rev_app_distr, ?rev_involutive, <- ?app_assoc)).

Section Sessions.
Import Desktop Session.

(** X6: when [__main__] already holds a desktop, [__init__] attaches to
    it whatever version is asked for: it launches nothing (the one call
    recorded is [RestoreWindow]), takes the version from the desktop,
    and switches [release] off, so that leaving the [with] block does
    nothing at all. *)
Theorem init_on_present_desktop (m : main) (h : desktop_handle)
    (specified_version : option string) (NG AlwaysNew release_on_exit : bool)
    (Hd : oDesktop m = Holds h) :
  exists m',
    init specified_version NG AlwaysNew release_on_exit m = (Ok tt, m')
    /\ calls m' = (calls m ++ [EvRestoreWindow])%list
    /\ oDesktop m' = Holds h
    /\ release_ m' = false
    /\ close_on_exit m' = false
    /\ pyaedt_initialized m' = true
    /\ AEDTVersion m' = PyStr.slice 0 6 (Version h)
    /\ exit_without_exception m' = (Ok tt, m').
Proof.
  unfold init. run_main. rewrite Hd. run_main.
  eexists. split; [reflexivity|].
  split; [tidy_trace; reflexivity|].
  repeat (split; [first [exact Hd|reflexivity]|]).
  unfold exit_without_exception. run_main. reflexivity.
Qed.

Lemma init_on_present_desktop_witness :
  exists m',
    init (Some "2019.2") false true true (sample_main pythonnet (Holds sample_handle))
    = (Ok tt, m')
    /\ calls m' = [EvRestoreWindow]
    /\ oDesktop m' = Holds sample_handle
    /\ release_ m' = false
    /\ close_on_exit m' = false
    /\ pyaedt_initialized m' = true
    /\ AEDTVersion m' = "2021.1"
    /\ exit_without_exception m' = (Ok tt, m').
Proof.
  exact (init_on_present_desktop (sample_main pythonnet (Holds sample_handle))
           sample_handle (Some "2019.2") false true true eq_refl).
Defined.

Lemma derived_key_not_empty n : derived_key n <> "".
Proof.
  unfold derived_key. destruct (20 <=? VV n); [|destruct (RR n <? 3)]; discriminate.
Qed.

Lemma launch_pythonnet version_key env NG AlwaysNew m :
  com m = pythonnet -> (forall h, oDesktop m <> Holds h) ->
  Dict.get version_key (version_ids_ m) = Some env ->
  exists m',
    launch version_key NG AlwaysNew m = (Ok tt, m')
    /\ calls m'
       = (calls m
          ++ [if NG || AlwaysNew then EvCreateObjectNew NG
              else EvCreateObject ("Ansoft.ElectronicsDesktop." ++ version_key);
              EvRestoreWindow])%list
    /\ oDesktop m' = Holds (launched m) /\ COMUtil m' = true
    /\ com m' = pythonnet /\ release_ m' = release_ m
    /\ close_on_exit m' = close_on_exit m.
Proof.
  intros Hcom Hno Hget. unfold launch, Dict.item. run_main.
  rewrite Hget, Hcom. run_main.
  destruct (oDesktop m) as [| |h] eqn:Hd; [| |now destruct (Hno h)];
    destruct (NG || AlwaysNew); run_main;
    (eexists; split; [reflexivity|]; split; [tidy_trace; reflexivity|]);
    repeat split; assumption.
Qed.

Lemma exit_pythonnet m h :
  com m = pythonnet -> oDesktop m = Holds h -> COMUtil m = true ->
  close_on_exit m = false ->
  exists m2,
    exit_without_exception m = (Ok tt, m2)
    /\ calls m2
       = (calls m
          ++ (if release_ m
              then map EvReleaseCOMObjectScope (Zseq 0 (Z.to_nat (ScopeID h + 1)))
                   ++ [EvDelDesktop]
              else []))%list
    /\ oDesktop m2 = (if release_ m then Unset else Holds h).
Proof.
  intros Hcom Hd Hu Hclose. unfold exit_without_exception.
  unfold bind at 1. unfold get_state at 1. rewrite Hclose.
  destruct (release_ m).
  - unfold bind at 1. unfold release_desktop.
    unfold bind at 1. unfold get_state at 1. rewrite Hcom.
    unfold bind at 1. unfold the_desktop at 1. unfold bind at 1, get_state at 1.
    rewrite Hd. unfold ret at 1.
    unfold bind at 1. unfold ret at 1.
    unfold bind at 1. rewrite release_loop_fuel by exact Hu.
    run_main. rewrite Hd. run_main.
    eexists. split; [reflexivity|]. split; [|reflexivity].
    tidy_trace. now rewrite Z.sub_0_r.
  - exists m. unfold ret. split; [reflexivity|]. split; [|exact Hd].
    now rewrite app_nil_r.
Qed.

(** X7: a [with] block on [pythonnet]: [__init__] launches the desktop of
    a known version and leaves [close_on_exit] off, so [__exit__] closes
    no project and kills nothing: with [release_on_exit] it releases the
    scopes 0 to [ScopeID] in order and deletes the handle, without it
    it leaves the machine as it is. *)
Theorem with_block_pythonnet (m : main) (names : list (digit * digit * digit))
    (v : string) (NG AlwaysNew release_on_exit : bool)
    (Hcom : com m = pythonnet)
    (Hno : forall h, oDesktop m <> Holds h)
    (Hinstalled : installed m = map env_var names)
    (Hv : str_in v (map derived_key names) = true) :
  exists m1 m2,
    init (Some v) NG AlwaysNew release_on_exit m = (Ok tt, m1)
    /\ oDesktop m1 = Holds (launched m)
    /\ close_on_exit m1 = false
    /\ exit_without_exception m1 = (Ok tt, m2)
    /\ calls m2
       = (calls m1
          ++ (if release_on_exit
              then map EvReleaseCOMObjectScope
                     (Zseq 0 (Z.to_nat (ScopeID (launched m) + 1)))
                   ++ [EvDelDesktop]
              else []))%list
    /\ oDesktop m2 = (if release_on_exit then Unset else Holds (launched m)).
Proof.
  assert (Hne : v <> "").
  { apply str_in_In in Hv. apply in_map_iff in Hv as (n & <- & _).
    apply derived_key_not_empty. }
  rewrite (init_without_desktop _ _ _ _ _ Hno).
  set (st := set_release release_on_exit (set_close_on_exit false m)).
  pose proof (select_version_run names v st Hinstalled Hne) as Hsel.
  rewrite Hv in Hsel.
  set (st1 := set_versions (map derived_key names) (ids_after names []) st) in *.
  destruct (ids_after_has names v Hv) as (n & _ & _ & Hg).
  destruct (launch_pythonnet v (env_var n) NG AlwaysNew st1 Hcom Hno Hg)
    as (m1 & Hrun & Hcalls & Hd1 & Hu1 & Hcom1 & Hrel1 & Hclose1).
  unfold bind at 1. rewrite (bind_run _ _ _ _ _ Hsel), Hrun.
  unfold modify.
  destruct (exit_pythonnet (set_pyaedt_initialized true m1) (launched m)
              Hcom1 Hd1 Hu1 Hclose1) as (m2 & Hexit & Hcalls2 & Hd2).
  change (release_ (set_pyaedt_initialized true m1)) with (release_ m1) in *.
  rewrite Hrel1 in Hcalls2, Hd2.
  change (release_ st1) with release_on_exit in *.
  exists (set_pyaedt_initialized true m1), m2.
  split; [reflexivity|]. split; [exact Hd1|]. split; [exact Hclose1|].
  split; [exact Hexit|]. split; [exact Hcalls2|exact Hd2].
Qed.

Lemma with_block_pythonnet_witness :
  exists m1 m2,
    init (Some "2021.1") false true true
      (sample_machine pythonnet ["ANSYSEM_ROOT211"; "ANSYSEM_ROOT194"] [])
    = (Ok tt, m1)
    /\ oDesktop m1 = Holds sample_handle
    /\ close_on_exit m1 = false
    /\ exit_without_exception m1 = (Ok tt, m2)
    /\ calls m2
       = (calls m1
          ++ [EvReleaseCOMObjectScope 0; EvReleaseCOMObjectScope 1;
              EvReleaseCOMObjectScope 2; EvDelDesktop])%list
    /\ oDesktop m2 = Unset.
Proof.
  exact (with_block_pythonnet
           (sample_machine pythonnet ["ANSYSEM_ROOT211"; "ANSYSEM_ROOT194"] [])
           [(D2, D1, D1); (D1, D9, D4)] "2021.1" false true true
           eq_refl ltac:(discriminate) eq_refl eq_refl).
Defined.
End Sessions.

(* ===================================================================== *)
(** ** What [release_desktop] never does *)
(* ===================================================================== *)

(** [records_only q] goes through the combinators. *)
Section Restraint.
Import Desktop.
Variable q : event -> bool.

Lemma records_ret {A} (a : A) : records_only q (ret a).
Proof. intros m. now exists []. Qed.

Lemma records_raise {A} e : records_only q (@raise main A e).
Proof. intros m. now exists []. Qed.

Lemma records_get_state : records_only q get_state.
Proof. intros m. now exists []. Qed.

Lemma records_modify f :
  (forall m, trace (f m) = trace m) -> records_only q (modify f).
Proof. intros H m. exists []. now rewrite <- (H m). Qed.

Lemma records_emit e : q e = true -> records_only q (emit e).
Proof. intros H m. exists [e]. simpl. now rewrite H. Qed.

Lemma records_bind {A B} (c : M main A) (k : A -> M main B) :
  records_only q c -> (forall a, records_only q (k a)) -> records_only q (bind c k).
Proof.
  intros Hc Hk m. unfold bind.
  destruct (Hc m) as (es & He & Hq). destruct (c m) as [[a|e] m1]; cbn [snd] in *.
  - destruct (Hk a m1) as (es' & He' & Hq'). exists (es' ++ es)%list.
    rewrite He', He, app_assoc, forallb_app, Hq, Hq'. now split.
  - now exists es.
Qed.

Lemma records_try {A} (c h : M main A) :
  records_only q c -> records_only q h -> records_only q (try_except c h).
Proof.
  intros Hc Hh m. unfold try_except.
  destruct (Hc m) as (es & He & Hq). destruct (c m) as [[a|e] m1]; cbn [snd] in *.
  - now exists es.
  - destruct (Hh m1) as (es' & He' & Hq'). exists (es' ++ es)%list.
    rewrite He', He, app_assoc, forallb_app, Hq, Hq'. now split.
Qed.

Lemma records_for_each {A} (l : list A) (body : A -> M main unit) :
  (forall a, records_only q (body a)) -> records_only q (for_each l body).
Proof.
  intros Hb. induction l as [|a l IH]; cbn [for_each].
  - apply records_ret.
  - apply records_bind; [apply Hb|intros _; exact IH].
Qed.

Lemma records_release : (forall i, q (EvReleaseCOMObjectScope i) = true) ->
  forall i, records_only q (ReleaseCOMObjectScope i).
Proof.
  intros Hq i. unfold ReleaseCOMObjectScope.
  apply records_bind; [apply records_get_state|]. intros m.
  destruct (COMUtil m); [now apply records_emit|apply records_raise].
Qed.

Lemma records_release_loop : (forall i, q (EvReleaseCOMObjectScope i) = true) ->
  forall fuel arg scopeID i, records_only q (release_loop fuel arg scopeID i).
Proof.
  intros Hq fuel arg scopeID. induction fuel as [|fuel IH]; intros i; cbn [release_loop].
  - apply records_ret.
  - destruct (i <=? scopeID); [|apply records_ret].
    apply records_bind; [now apply records_release|intros _; apply IH].
Qed.

Lemma records_del_oDesktop : q EvDelDesktop = true -> records_only q del_oDesktop.
Proof.
  intros Hq. unfold del_oDesktop.
  apply records_bind; [apply records_get_state|]. intros m.
  destruct (oDesktop m); [apply records_raise| |];
    (apply records_bind; [now apply records_emit|intros _; now apply records_modify]).
Qed.

Lemma records_del_initialized :
  q EvDelInitialized = true -> records_only q del_pyaedt_initialized.
Proof.
  intros Hq. unfold del_pyaedt_initialized.
  apply records_bind; [apply records_get_state|]. intros m.
  destruct (pyaedt_initialized m); [|apply records_raise].
  apply records_bind; [now apply records_emit|intros _; now apply records_modify].
Qed.

Lemma records_the_desktop : records_only q the_desktop.
Proof.
  unfold the_desktop. apply records_bind; [apply records_get_state|]. intros m.
  destruct (oDesktop m); first [apply records_raise|apply records_ret].
Qed.

Lemma records_read_oDesktop : records_only q read_oDesktop.
Proof.
  unfold read_oDesktop. apply records_bind; [apply records_get_state|]. intros m.
  destruct (oDesktop m); first [apply records_raise|apply records_ret].
Qed.

Lemma records_GetProcessID : q EvGetProcessID = true -> records_only q GetProcessID.
Proof.
  intros Hq. unfold GetProcessID.
  apply records_bind; [apply records_the_desktop|]. intros h.
  apply records_bind; [now apply records_emit|intros _; apply records_ret].
Qed.

Lemma records_close_all_projects :
  q EvGetProjectList = true -> (forall p, q (EvCloseProject p) = true) ->
  records_only q close_all_projects.
Proof.
  intros Hg Hc. unfold close_all_projects, GetProjectList.
  apply records_bind.
  - apply records_bind; [apply records_the_desktop|]. intros h.
    apply records_bind; [now apply records_emit|intros _].
    destruct (GetProjectList_ok h); [apply records_ret|apply records_raise].
  - intros l. apply records_for_each. intros p. unfold CloseProject.
    apply records_bind; [apply records_the_desktop|]. intros h.
    apply records_bind; [now apply records_emit|intros _; now apply records_modify].
Qed.

Lemma records_os_kill pid sig : q (EvKill pid sig) = true -> records_only q (os_kill pid sig).
Proof.
  intros Hq. unfold os_kill.
  apply records_bind; [now apply records_emit|intros _].
  apply records_bind; [apply records_get_state|]. intros m.
  destruct (kill_ok m); [apply records_ret|apply records_raise].
Qed.

End Restraint.

Section Restraint2.
Import Desktop.

Lemma records_calls q {A} (c : M main A) m :
  records_only q c ->
  exists es, calls (snd (c m)) = (calls m ++ es)%list /\ forallb q es = true.
Proof.
  intros H. destruct (H m) as (es & He & Hq). exists (rev es). unfold calls.
  rewrite He, rev_app_distr. split; [reflexivity|].
  rewrite forallb_forall in *. intros x Hx. apply Hq. now apply in_rev.
Qed.

(** X8: what [release_desktop] never does, whatever the state and
    whether it raises or not: with [close_projects=False] it asks for no
    project list and closes no project; it kills a process only on
    [pythonnet_v3] with [close_desktop=True]; on [pywin32] it does nothing
    and returns [None]. *)
Theorem release_desktop_restraint (close_projects close_desktop : bool) (m : main) :
  (close_projects = false ->
   exists es, calls (snd (release_desktop close_projects close_desktop m))
              = (calls m ++ es)%list
              /\ forallb (fun e => negb (is_project_call e)) es = true)
  /\ ((com m = pythonnet_v3 -> close_desktop = false) ->
      exists es, calls (snd (release_desktop close_projects close_desktop m))
                 = (calls m ++ es)%list
                 /\ forallb (fun e => negb (is_kill e)) es = true)
  /\ (com m = pywin32 ->
      release_desktop close_projects close_desktop m = (Ok None, m)).
Proof.
  split; [|split].
  - intros ->. unfold release_desktop. unfold bind at 1. unfold get_state at 1.
    destruct (com m); [| |exists []; split; [symmetry; apply app_nil_r|reflexivity]].
    + apply records_calls.
      apply records_bind; [apply records_the_desktop|intros h].
      apply records_bind; [apply records_ret|intros _].
      apply records_bind; [now apply records_release_loop|intros _].
      apply records_bind; [|intros _; apply records_ret].
      apply records_try; [now apply records_del_oDesktop|now apply records_emit].
    + apply records_calls.
      apply records_bind; [apply records_read_oDesktop|intros h].
      apply records_bind; [apply records_ret|intros _].
      destruct close_desktop.
      * apply records_bind; [now apply records_release_loop|intros _].
        apply records_bind; [now apply records_GetProcessID|intros pid].
        apply records_try.
        -- apply records_bind; [now apply records_os_kill|intros _].
           apply records_bind; [now apply records_del_oDesktop|intros _; apply records_ret].
        -- apply records_bind; [now apply records_emit|intros _; apply records_ret].
      * apply records_bind; [now apply records_release_loop|intros _].
        apply records_bind;
          [apply records_try; [now apply records_del_oDesktop|now apply records_emit]|intros _].
        apply records_bind; [|intros _; apply records_ret].
        apply records_try; [now apply records_del_initialized|apply records_ret].
  - intros Hcd. unfold release_desktop. unfold bind at 1. unfold get_state at 1.
    destruct (com m); [| |exists []; split; [symmetry; apply app_nil_r|reflexivity]].
    + apply records_calls.
      apply records_bind; [apply records_the_desktop|intros h].
      apply records_bind;
        [destruct close_projects; [now apply records_close_all_projects|apply records_ret]
        |intros _].
      apply records_bind; [now apply records_release_loop|intros _].
      apply records_bind; [|intros _; apply records_ret].
      apply records_try; [now apply records_del_oDesktop|now apply records_emit].
    + rewrite (Hcd eq_refl). apply records_calls.
      apply records_bind; [apply records_read_oDesktop|intros h].
      apply records_bind;
        [destruct close_projects; [now apply records_close_all_projects|apply records_ret]
        |intros _].
      apply records_bind; [now apply records_release_loop|intros _].
      apply records_bind;
        [apply records_try; [now apply records_del_oDesktop|now apply records_emit]|intros _].
      apply records_bind; [|intros _; apply records_ret].
      apply records_try; [now apply records_del_initialized|apply records_ret].
  - intros Hcom. unfold release_desktop, bind, get_state. now rewrite Hcom.
Qed.

End Restraint2.

Section ReleaseAndLaunch.
Import Desktop Session.

(** X9: on [pythonnet] with a desktop but no [COMUtil] on [__main__] (a
    desktop that [__init__] found there and did not launch),
    [release_desktop] closes the projects when asked to and then raises
    [AttributeError] at the first scope release: nothing is released and
    the handle stays. *)
Theorem release_desktop_without_COMUtil (m : main) (h : desktop_handle)
    (close_projects close_desktop : bool)
    (Hcom : com m = pythonnet) (Hd : oDesktop m = Holds h)
    (Hu : COMUtil m = false) (Hscope : 0 <= ScopeID h)
    (Hp : GetProjectList_ok h = true) :
  exists m',
    release_desktop close_projects close_desktop m = (Raise AttributeError, m')
    /\ calls m'
       = (calls m ++ (if close_projects
                      then EvGetProjectList :: map EvCloseProject (ProjectList h)
                      else []))%list
    /\ oDesktop m'
       = Holds (if close_projects then projects_closed (ProjectList h) h else h).
Proof.
  unfold release_desktop.
  unfold bind at 1. unfold get_state at 1. rewrite Hcom.
  unfold bind at 1. unfold the_desktop at 1. unfold bind at 1, get_state at 1.
  rewrite Hd. unfold ret at 1.
  assert (Hloop : forall m0, COMUtil m0 = false ->
            release_loop (loop_fuel (ScopeID h) 0) (fun i => i) (ScopeID h) 0 m0
            = (Raise AttributeError, m0)).
  { intros m0 H0. unfold loop_fuel. rewrite release_loop_step.
    destruct (Z.leb_spec 0 (ScopeID h)) as [_|Hlt]; [|lia].
    unfold bind at 1. unfold ReleaseCOMObjectScope, bind, get_state.
    rewrite H0. reflexivity. }
  destruct close_projects.
  - unfold bind at 1. rewrite (close_all_projects_run m h Hd), Hp.
    unfold bind at 1. rewrite Hloop by exact Hu.
    eexists. split; [reflexivity|]. split; [|reflexivity].
    tidy_trace. reflexivity.
  - unfold bind at 1. unfold ret at 1.
    unfold bind at 1. rewrite Hloop by exact Hu.
    exists m. split; [reflexivity|]. split; [now rewrite app_nil_r|exact Hd].
Qed.

Lemma release_desktop_without_COMUtil_witness :
  exists m',
    release_desktop true true
      (set_oDesktop (Holds sample_handle) (sample_machine pythonnet [] []))
    = (Raise AttributeError, m')
    /\ calls m'
       = [EvGetProjectList; EvCloseProject "Project1"; EvCloseProject "Project2"]
    /\ oDesktop m' = Holds (projects_closed ["Project1"; "Project2"] sample_handle).
Proof.
  exact (release_desktop_without_COMUtil
           (set_oDesktop (Holds sample_handle) (sample_machine pythonnet [] []))
           sample_handle true true eq_refl eq_refl eq_refl ltac:(vm_compute; discriminate)
           eq_refl).
Defined.

Lemma scan_tasklist_run m :
  scan_tasklist m
  = (Ok (hd [] (tasklist m)), set_tasklist (tl (tasklist m)) (recorded [EvTasklist] m)).
Proof.
  unfold scan_tasklist, bind, emit, modify, get_state, ret.
  destruct m as [? ? ? ? ? ? ? ? ? ? ? tl0 ? ? ?]. cbn [tasklist].
  destruct tl0; reflexivity.
Qed.

Lemma launch_v3_new_process version_key env NG AlwaysNew m before after rest p0 ps :
  com m = pythonnet_v3 -> (forall h, oDesktop m <> Holds h) ->
  Dict.get version_key (version_ids_ m) = Some env ->
  tasklist m = before :: after :: rest ->
  filter (fun i => negb (str_in i before)) after = p0 :: ps ->
  let create :=
    if NG || AlwaysNew || match before with [] => true | _ => false end
    then EvCreateObjectNew NG
    else EvCreateObject ("Ansoft.ElectronicsDesktop." ++ version_key) in
  exists m',
    launch version_key NG AlwaysNew m
    = (if String.leb "2021.1" version_key
       then if rot_has m then Ok tt else Raise AttributeError
       else Ok tt, m')
    /\ close_on_exit m' = (close_on_exit m || String.leb "2021.1" version_key)
    /\ calls m'
       = (calls m ++ [EvTasklist; create; EvTasklist]
          ++ (if String.leb "2021.1" version_key
              then if rot_has m then [EvGetRunningObject p0; EvRestoreWindow] else []
              else [EvDispatch ("Ansoft.ElectronicsDesktop." ++ version_key);
                    EvRestoreWindow]))%list
    /\ release_ m' = release_ m /\ com m' = pythonnet_v3
    /\ COMUtil m' = true /\ pyaedt_initialized m' = pyaedt_initialized m
    /\ kill_ok m' = kill_ok m
    /\ oDesktop m'
       = (if String.leb "2021.1" version_key && negb (rot_has m) then Unset
          else Holds (launched m)).
Proof.
  intros Hcom Hno Hget Htask Hnew create. subst create.
  destruct m as [com0 od cu pi coe av ins vk vi rel ko tl0 la rh tr].
  cbn [com oDesktop tasklist version_ids_ rot_has close_on_exit release_
       pyaedt_initialized launched kill_ok] in *.
  subst com0 tl0.
  unfold launch, Dict.item, scan_tasklist, calls.
  cbv beta iota delta [bind lift get_state version_ids_]. rewrite Hget.
  assert (Hod : od = Unset \/ od = IsNone).
  { destruct od as [| |h]; [now left|now right|now destruct (Hno h)]. }
  clear Hno.
  destruct Hod as [-> | ->];
  cbv beta iota delta [bind modify ret raise lift emit get_state the_desktop
    set_oDesktop set_COMUtil set_AEDTVersion set_tasklist set_close_on_exit
    com oDesktop COMUtil pyaedt_initialized close_on_exit AEDTVersion installed
    version_keys_ version_ids_ release_ kill_ok tasklist launched rot_has trace];
  destruct (NG || AlwaysNew || match before with [] => true | _ => false end);
  cbv beta iota delta [bind modify ret raise lift emit get_state the_desktop
    set_oDesktop set_COMUtil set_AEDTVersion set_tasklist set_close_on_exit
    com oDesktop COMUtil pyaedt_initialized close_on_exit AEDTVersion installed
    version_keys_ version_ids_ release_ kill_ok tasklist launched rot_has trace];
  rewrite Hnew;
  destruct (String.leb "2021.1" version_key);
  try destruct rh;
  cbv beta iota delta [bind modify ret raise lift emit get_state the_desktop
    set_oDesktop set_COMUtil set_AEDTVersion set_tasklist set_close_on_exit
    com oDesktop COMUtil pyaedt_initialized close_on_exit AEDTVersion installed
    version_keys_ version_ids_ release_ kill_ok tasklist launched rot_has trace];
  (eexists; split; [reflexivity|]; 
   cbv beta iota delta [com oDesktop COMUtil pyaedt_initialized close_on_exit AEDTVersion installed
    version_keys_ version_ids_ release_ kill_ok tasklist launched rot_has trace];
   split;
     [rewrite ?orb_true_r, ?orb_false_r; reflexivity|];
     split; [cbn [rev app]; rewrite <- ?app_assoc; reflexivity|];
     repeat split; reflexivity).
Qed.
End ReleaseAndLaunch.

(* ===================================================================== *)
(** ** Launches on [pythonnet_v3] *)
(* ===================================================================== *)

Section Launches.
Import Desktop Session.

(** On the keys of four-digit years the comparison of strings that
    [__init__] makes agrees with the order of the releases. *)
Lemma leb_derived_key n :
  (11 <=? VV n) = true -> String.leb "2021.1" (derived_key n) = recent n.
Proof.
  destruct n as [[a b] r]. destruct a, b, r; intros H; try discriminate H; vm_compute; reflexivity.
Qed.

Lemma init_v3_run names n NG AlwaysNew release_on_exit before after rest p0 ps m :
  com m = pythonnet_v3 -> (forall h, oDesktop m <> Holds h) ->
  installed m = map env_var names -> In n names -> 11 <= VV n ->
  tasklist m = before :: after :: rest ->
  filter (fun i => negb (str_in i before)) after = p0 :: ps ->
  exists m',
    init (Some (derived_key n)) NG AlwaysNew release_on_exit m
    = (if recent n && negb (rot_has m) then Raise AttributeError else Ok tt, m')
    /\ close_on_exit m' = recent n
    /\ release_ m' = release_on_exit
    /\ oDesktop m' = (if recent n && negb (rot_has m) then Unset else Holds (launched m))
    /\ pyaedt_initialized m'
       = (if recent n && negb (rot_has m) then pyaedt_initialized m else true)
    /\ com m' = pythonnet_v3 /\ COMUtil m' = true /\ kill_ok m' = kill_ok m
    /\ calls m'
       = (calls m
          ++ [EvTasklist;
              if NG || AlwaysNew || match before with [] => true | _ => false end
              then EvCreateObjectNew NG
              else EvCreateObject ("Ansoft.ElectronicsDesktop." ++ derived_key n);
              EvTasklist]
          ++ (if recent n
              then if rot_has m then [EvGetRunningObject p0; EvRestoreWindow] else []
              else [EvDispatch ("Ansoft.ElectronicsDesktop." ++ derived_key n);
                    EvRestoreWindow]))%list.
Proof.
  intros Hcom Hno Hinstalled Hn Hvv Htask Hnew.
  set (v := derived_key n).
  assert (Hv : str_in v (map derived_key names) = true).
  { apply str_in_In. now apply in_map. }
  assert (Hne : v <> "") by apply derived_key_not_empty.
  rewrite (init_without_desktop _ _ _ _ _ Hno).
  set (st := set_release release_on_exit (set_close_on_exit false m)).
  pose proof (select_version_run names v st Hinstalled Hne) as Hsel.
  rewrite Hv in Hsel.
  set (st1 := set_versions (map derived_key names) (ids_after names []) st) in *.
  destruct (ids_after_has names v Hv) as (n' & _ & _ & Hg).
  destruct (launch_v3_new_process v (env_var n') NG AlwaysNew st1 before after rest
              p0 ps Hcom Hno Hg Htask Hnew)
    as (m1 & Hrun & Hclose & Hcalls & Hrel & Hcom1 & Hu1 & Hpi & Hk & Hd1).
  unfold v in Hrun, Hclose, Hd1, Hcalls.
  rewrite leb_derived_key in Hrun, Hclose, Hd1, Hcalls by (apply Z.leb_le; exact Hvv).
  change (rot_has st1) with (rot_has m) in *.
  change (close_on_exit st1) with false in Hclose.
  change (release_ st1) with release_on_exit in Hrel.
  change (pyaedt_initialized st1) with (pyaedt_initialized m) in Hpi.
  change (launched st1) with (launched m) in Hd1.
  change (kill_ok st1) with (kill_ok m) in Hk.
  change (calls st1) with (calls m) in Hcalls.
  unfold bind at 1. rewrite (bind_run _ _ _ _ _ Hsel). fold v. unfold v. rewrite Hrun.
  destruct (recent n); [destruct (rot_has m)|]; cbn [andb negb] in *; unfold modify;
    eexists; (split; [reflexivity|]);
    change (calls (set_pyaedt_initialized true m1)) with (calls m1);
    cbn [close_on_exit release_ oDesktop pyaedt_initialized set_pyaedt_initialized
         com COMUtil kill_ok];
    repeat split; assumption.
Qed.

(** Leaving the [with] block on [pythonnet_v3]: [close_on_exit] decides
    between closing the projects and killing the process, and releasing
    the handle only. *)
Lemma exit_v3 m h :
  com m = pythonnet_v3 -> oDesktop m = Holds h -> COMUtil m = true ->
  release_ m = true -> GetProjectList_ok h = true ->
  exists m',
    exit_without_exception m = (Ok tt, m')
    /\ calls m'
       = (calls m
          ++ (if close_on_exit m
              then EvGetProjectList :: map EvCloseProject (ProjectList h)
                   ++ repeat (EvReleaseCOMObjectScope 0) 6
                   ++ [EvGetProcessID; EvKill (ProcessID h) 9]
                   ++ (if kill_ok m then [EvDelDesktop]
                       else [EvErrorMessage "something went wrong in Closing AEDT"])
              else map EvReleaseCOMObjectScope (Zseq 0 6)
                   ++ EvDelDesktop
                   :: (if pyaedt_initialized m then [EvDelInitialized] else [])))%list.
Proof.
  intros Hcom Hd Hu Hrel Hp. unfold exit_without_exception.
  unfold bind at 1. unfold get_state at 1. rewrite Hrel.
  destruct (close_on_exit m) eqn:Hc.
  - destruct (release_v3_close m h Hcom Hd Hu Hp) as (m' & Hrun & Hcalls).
    unfold bind. rewrite Hrun. exists m'. split; [reflexivity|exact Hcalls].
  - unfold bind at 1. unfold release_desktop.
    unfold bind at 1. unfold get_state at 1. rewrite Hcom.
    unfold bind at 1. unfold read_oDesktop at 1. unfold bind at 1, get_state at 1.
    rewrite Hd. unfold ret at 1.
    unfold bind at 1. unfold ret at 1.
    unfold bind at 1. rewrite release_loop_fuel by exact Hu.
    run_main. rewrite Hd. run_main.
    destruct (pyaedt_initialized m); run_main;
      (eexists; split; [reflexivity|]); tidy_trace; reflexivity.
Qed.

(** X10: [__init__] on [pythonnet_v3] when the second [tasklist] scan shows
    a process the first did not: for installed names of year 11 and later
    the comparison of strings [version_key >= "2021.1"] is the order of the
    releases; from 2021 R1 on [close_on_exit] is set and the desktop is
    looked up in the running-object table, and [__init__] raises
    [AttributeError] at [RestoreWindow] when no entry matches; for older
    versions [close_on_exit] stays off and the desktop is dispatched. *)
Theorem init_v3_new_process (m : main) (names : list (digit * digit * digit))
    (n : digit * digit * digit) (NG AlwaysNew release_on_exit : bool)
    (before after : list string) (rest : list (list string)) (p0 : string)
    (ps : list string)
    (Hcom : com m = pythonnet_v3)
    (Hno : forall h, oDesktop m <> Holds h)
    (Hinstalled : installed m = map env_var names)
    (Hn : In n names) (Hvv : 11 <= VV n)
    (Htask : tasklist m = before :: after :: rest)
    (Hnew : filter (fun i => negb (str_in i before)) after = p0 :: ps) :
  String.leb "2021.1" (derived_key n) = recent n
  /\ exists m',
       init (Some (derived_key n)) NG AlwaysNew release_on_exit m
       = (if recent n && negb (rot_has m) then Raise AttributeError else Ok tt, m')
       /\ close_on_exit m' = recent n
       /\ oDesktop m'
          = (if recent n && negb (rot_has m) then Unset else Holds (launched m))
       /\ pyaedt_initialized m'
          = (if recent n && negb (rot_has m) then pyaedt_initialized m else true)
       /\ calls m'
          = (calls m
             ++ [EvTasklist;
                 if NG || AlwaysNew || match before with [] => true | _ => false end
                 then EvCreateObjectNew NG
                 else EvCreateObject ("Ansoft.ElectronicsDesktop." ++ derived_key n);
                 EvTasklist]
             ++ (if recent n
                 then if rot_has m then [EvGetRunningObject p0; EvRestoreWindow] else []
                 else [EvDispatch ("Ansoft.ElectronicsDesktop." ++ derived_key n);
                       EvRestoreWindow]))%list.
Proof.
  split; [apply leb_derived_key, Z.leb_le, Hvv|].
  destruct (init_v3_run names n NG AlwaysNew release_on_exit before after rest p0 ps m
              Hcom Hno Hinstalled Hn Hvv Htask Hnew)
    as (m' & Hrun & Hc & _ & Hd & Hpi & _ & _ & _ & Hcalls).
  exists m'. repeat split; assumption.
Qed.

Lemma init_v3_new_process_witness :
  String.leb "2021.1" "2021.1" = true
  /\ exists m',
       init (Some "2021.1") false true true
         (sample_machine pythonnet_v3 ["ANSYSEM_ROOT211"; "ANSYSEM_ROOT194"]
            [["4242"]; ["4242"; "5151"]])
       = (Ok tt, m')
       /\ close_on_exit m' = true
       /\ oDesktop m' = Holds sample_handle
       /\ pyaedt_initialized m' = true
       /\ calls m'
          = [EvTasklist; EvCreateObjectNew false; EvTasklist;
             EvGetRunningObject "5151"; EvRestoreWindow].
Proof.
  exact (init_v3_new_process
           (sample_machine pythonnet_v3 ["ANSYSEM_ROOT211"; "ANSYSEM_ROOT194"]
              [["4242"]; ["4242"; "5151"]])
           [(D2, D1, D1); (D1, D9, D4)] (D2, D1, D1) false true true
           ["4242"] ["4242"; "5151"] [] "5151" []
           eq_refl ltac:(discriminate) eq_refl (or_introl eq_refl)
           ltac:(vm_compute; discriminate) eq_refl eq_refl).
Defined.

(** X11: a [with] block on [pythonnet_v3] around a freshly launched
    2021 R1 or later: [__exit__] hands [close_on_exit=True] to both
    arguments of [release_desktop], so it closes every project, releases
    scope 0 six times, asks for the process id and kills the process; a
    kill that fails is reported on the messenger and [__exit__] still
    returns normally. *)
Theorem with_block_v3_recent (m : main) (names : list (digit * digit * digit))
    (n : digit * digit * digit) (NG AlwaysNew : bool)
    (before after : list string) (rest : list (list string)) (p0 : string)
    (ps : list string)
    (Hcom : com m = pythonnet_v3)
    (Hno : forall h, oDesktop m <> Holds h)
    (Hinstalled : installed m = map env_var names)
    (Hn : In n names) (Hvv : 11 <= VV n) (Hrecent : recent n = true)
    (Htask : tasklist m = before :: after :: rest)
    (Hnew : filter (fun i => negb (str_in i before)) after = p0 :: ps)
    (Hrot : rot_has m = true)
    (Hp : GetProjectList_ok (launched m) = true) :
  exists m1 m2,
    init (Some (derived_key n)) NG AlwaysNew true m = (Ok tt, m1)
    /\ close_on_exit m1 = true
    /\ exit_without_exception m1 = (Ok tt, m2)
    /\ calls m2
       = (calls m1
          ++ [EvGetProjectList]
          ++ map EvCloseProject (ProjectList (launched m))
          ++ repeat (EvReleaseCOMObjectScope 0) 6
          ++ [EvGetProcessID; EvKill (ProcessID (launched m)) 9]
          ++ (if kill_ok m then [EvDelDesktop]
              else [EvErrorMessage "something went wrong in Closing AEDT"]))%list.
Proof.
  destruct (init_v3_run names n NG AlwaysNew true before after rest p0 ps m
              Hcom Hno Hinstalled Hn Hvv Htask Hnew)
    as (m1 & Hrun & Hc & Hrel & Hd & _ & Hcom1 & Hu1 & Hk & Hcalls).
  rewrite Hrecent, Hrot in *. cbn [andb negb] in *.
  destruct (exit_v3 m1 (launched m) Hcom1 Hd Hu1 Hrel Hp) as (m2 & Hexit & Hcalls2).
  exists m1, m2. split; [exact Hrun|]. split; [exact Hc|]. split; [exact Hexit|].
  rewrite Hcalls2, Hc, Hk. reflexivity.
Qed.

Lemma with_block_v3_recent_witness :
  exists m1 m2,
    init (Some "2021.1") false true true
      (sample_machine pythonnet_v3 ["ANSYSEM_ROOT211"; "ANSYSEM_ROOT194"]
         [["4242"]; ["4242"; "5151"]])
    = (Ok tt, m1)
    /\ close_on_exit m1 = true
    /\ exit_without_exception m1 = (Ok tt, m2)
    /\ calls m2
       = (calls m1
          ++ [EvGetProjectList; EvCloseProject "Project1"; EvCloseProject "Project2";
              EvReleaseCOMObjectScope 0; EvReleaseCOMObjectScope 0;
              EvReleaseCOMObjectScope 0; EvReleaseCOMObjectScope 0;
              EvReleaseCOMObjectScope 0; EvReleaseCOMObjectScope 0;
              EvGetProcessID; EvKill 4242 9; EvDelDesktop])%list.
Proof.
  exact (with_block_v3_recent
           (sample_machine pythonnet_v3 ["ANSYSEM_ROOT211"; "ANSYSEM_ROOT194"]
              [["4242"]; ["4242"; "5151"]])
           [(D2, D1, D1); (D1, D9, D4)] (D2, D1, D1) false true
           ["4242"] ["4242"; "5151"] [] "5151" []
           eq_refl ltac:(discriminate) eq_refl (or_introl eq_refl)
           ltac:(vm_compute; discriminate) eq_refl eq_refl eq_refl eq_refl eq_refl).
Defined.

End Launches.

(* ===================================================================== *)
(** ** Components by part name *)
(* ===================================================================== *)

Section PartFacts.
Import Components Parts.

Lemma for_acc_pure {S A B} (f : A -> B -> B) (l : list A) : forall (acc : B) (s : S),
  for_acc l acc (fun x a => ret (f x a)) s
  = (Ok (fold_left (fun a x => f x a) l acc), s).
Proof.
  induction l as [|x l IH]; intros acc s; [reflexivity|].
  cbn [for_acc fold_left]. unfold bind at 1. unfold ret at 1. apply IH.
Qed.

Lemma get_absent {V} k (d : Dict.dict V) :
  str_in k (Dict.keys d) = false -> Dict.get k d = None.
Proof.
  induction d as [|[k' v] d IH]; [reflexivity|].
  cbn [Dict.keys map str_in existsb fst Dict.get]. intros H.
  apply orb_false_iff in H as [Hk Hd]. rewrite Hk. now apply IH.
Qed.

Lemma by_part_round_get p el val d :
  Dict.get p (by_part_round (el, val) d)
  = if String.eqb (partname val) p
    then Some (match Dict.get p d with Some l => l ++ [val] | None => [val] end)%list
    else Dict.get p d.
Proof.
  unfold by_part_round.
  destruct (str_in (partname val) (Dict.keys d)) eqn:Hin.
  - destruct (get_of_key (partname val) d) as [l Hl]; [now apply str_in_In|].
    rewrite Hl, get_set, (String.eqb_sym p).
    destruct (String.eqb_spec (partname val) p) as [<-|_]; [now rewrite Hl|reflexivity].
  - rewrite get_set, (String.eqb_sym p).
    destruct (String.eqb_spec (partname val) p) as [<-|_]; [|reflexivity].
    now rewrite (get_absent _ _ Hin).
Qed.

Lemma by_part_round_wf e d : Dict.wf d -> Dict.wf (by_part_round e d).
Proof.
  destruct e as [el val]. unfold by_part_round. intros Hwf.
  destruct (str_in _ _); [destruct (Dict.get _ _)|]; try apply set_wf; assumption.
Qed.

Lemma parts_fold_get p c : forall d,
  Dict.get p (fold_left (fun d e => by_part_round e d) c d)
  = match Dict.get p d, map snd (filter (same_part p) c) with
    | None, [] => None
    | None, l => Some l
    | Some l0, l => Some (l0 ++ l)%list
    end.
Proof.
  induction c as [|[el val] c IH]; intros d; cbn [fold_left filter map].
  - destruct (Dict.get p d); [now rewrite app_nil_r|reflexivity].
  - rewrite IH, by_part_round_get.
    change (same_part p (el, val)) with (String.eqb (partname val) p).
    destruct (String.eqb (partname val) p); cbn [map snd]; [|reflexivity].
    destruct (Dict.get p d) as [l0|]; [now rewrite <- app_assoc|].
    now destruct (map snd (filter (same_part p) c)).
Qed.

Lemma parts_fold_wf c : forall d,
  Dict.wf d -> Dict.wf (fold_left (fun d e => by_part_round e d) c d).
Proof.
  induction c as [|e c IH]; intros d Hwf; [exact Hwf|].
  cbn [fold_left]. apply IH. now apply by_part_round_wf.
Qed.

(** X12: [components_by_partname] reads [components] (refreshing an empty
    cache) and groups what it gets: a part name is a key exactly when
    some cached component has it, and its list holds those components in
    the order of the cache; no key is repeated. *)
Theorem components_by_partname_groups (s : state) :
  Parts.components_by_partname s = (Ok (parts_of (cached s)), after_read s)
  /\ Dict.wf (parts_of (cached s))
  /\ forall p,
       Dict.get p (parts_of (cached s))
       = match map snd (filter (same_part p) (cached s)) with
         | [] => None
         | l => Some l
         end.
Proof.
  split; [|split].
  - unfold components_by_partname, bind. rewrite components_run.
    now rewrite (for_acc_pure (fun e d => by_part_round e d)).
  - apply parts_fold_wf. constructor.
  - intros p. unfold parts_of. now rewrite parts_fold_get.
Qed.

End PartFacts.

(* ===================================================================== *)
(** ** Refreshing, deleting and assigning *)
(* ===================================================================== *)

Section Edits.
Import Components.

(** X13: [refresh_components] never raises and replaces the cache,
    whatever it held, by what one query of the layout gives (nothing when
    the query fails); the layout is not touched.  When the layout lists a
    RefDes twice, the cache keeps the later component under it. *)
Theorem refresh_components_rebuilds (s : state) :
  exists s',
    refresh_components s = (Ok tt, s')
    /\ _cmp s' = (if layout_ok s then cache_of (layout s) else [])
    /\ layout s' = layout s
    /\ calls s' = (calls s ++ [EvGetFromLayout])%list
    /\ forall k,
         Dict.get k (cache_of (layout s))
         = option_map (fun cmp => new_EDBComponent cmp k)
             (find (fun cmp => String.eqb (RefDes cmp) k) (rev (layout s))).
Proof.
  exists (refreshed s). split; [apply refresh_components_run|].
  split; [reflexivity|]. split; [reflexivity|].
  split.
  - unfold calls, refreshed. cbn. reflexivity.
  - intros k. unfold cache_of.
    rewrite (get_fold_set RefDes (fun cmp => new_EDBComponent cmp (RefDes cmp))).
    cbn [Dict.get].
    destruct (find _ (rev (layout s))) as [cmp|] eqn:Hf; [|reflexivity].
    apply find_some in Hf as [_ He]. apply String.eqb_eq in He. now subst k.
Qed.

Lemma get_component_by_name_run name s :
  get_component_by_name name s
  = (Ok (find_by_name name (layout s)), snd (emit (EvFindByName name) s)).
Proof. reflexivity. Qed.

(** X14: [delete_component] answers whether the component was found and
    deletes the first component of that name from the layout, but never
    removes anything from the cache: a cache that held entries keeps them
    all, the deleted one included, and an empty one is refilled from the
    layout after the deletion. *)
Theorem delete_component_keeps_cache (s : state) (component_name : string) :
  let found := is_some (find_by_name component_name (layout s)) in
  exists s',
    delete_component component_name s = (Ok found, s')
    /\ layout s'
       = (if found then remove_first component_name (layout s) else layout s)
    /\ (_cmp s <> [] ->
        _cmp s' = _cmp s
        /\ calls s'
           = (calls s ++ EvFindByName component_name
              :: (if found then [EvDelete component_name] else []))%list)
    /\ (_cmp s = [] -> found = true ->
        _cmp s'
        = (if layout_ok s then cache_of (remove_first component_name (layout s))
           else [])).
Proof.
  intros found. subst found. unfold delete_component.
  unfold bind at 1. rewrite get_component_by_name_run.
  destruct (find_by_name component_name (layout s)) as [cmp|] eqn:Hf; cbn [is_some].
  - unfold bind at 1.
    set (s0 := snd (emit (EvFindByName component_name) s)).
    assert (Hdel : Delete component_name s0
                   = (Ok tt, set_layout (remove_first component_name (layout s))
                                (snd (emit (EvDelete component_name) s0))))
      by reflexivity.
    rewrite Hdel. clear Hdel.
    set (s1 := set_layout _ _).
    unfold bind. rewrite components_run. unfold ret.
    exists (after_read s1). split; [reflexivity|].
    assert (H1 : _cmp s1 = _cmp s) by reflexivity.
    assert (H2 : layout s1 = remove_first component_name (layout s)) by reflexivity.
    assert (H3 : layout_ok s1 = layout_ok s) by reflexivity.
    assert (H4 : calls s1
                 = (calls s ++ [EvFindByName component_name;
                                EvDelete component_name])%list).
    { unfold calls. cbn. now rewrite <- app_assoc. }
    unfold after_read. rewrite H1.
    destruct (_cmp s) as [|e c] eqn:Hc.
    + split; [exact H2|]. split; [congruence|].
      intros _ _. unfold refreshed. cbn [_cmp set_cmp]. now rewrite H3, H2.
    + split; [exact H2|]. split; [|discriminate].
      intros _. split; [now rewrite H1|exact H4].
  - unfold ret. eexists. split; [reflexivity|]. split; [reflexivity|].
    split; [intros _; split; reflexivity|discriminate].
Qed.




End Edits.

(* ===================================================================== *)
(** ** Reading a BOM row by row *)
(* ===================================================================== *)

Section BomRows.
Import Components.

Lemma for_acc_app {S A B} (body : A -> B -> M S B) (l1 l2 : list A) : forall acc s,
  for_acc (l1 ++ l2) acc body s
  = bind (for_acc l1 acc body) (fun acc' => for_acc l2 acc' body) s.
Proof.
  induction l1 as [|x l1 IH]; intros acc s; [reflexivity|].
  cbn [app for_acc]. unfold bind.
  destruct (body x acc s) as [[a|e] s1]; [|reflexivity].
  rewrite IH. reflexivity.
Qed.

Lemma index_of_str_in x l k : index_of x l = Some k -> str_in x l = true.
Proof.
  revert k. induction l as [|y l IH]; intros k; [discriminate|].
  cbn [index_of str_in existsb]. destruct (String.eqb x y); [reflexivity|].
  destruct (index_of x l) as [k'|]; [|discriminate].
  intros _. exact (IH k' eq_refl).
Qed.

Lemma open_read_run path s :
  open_read path s
  = (match Dict.get path (files s) with
     | Some contents => Ok contents
     | None => Raise OSError
     end, snd (emit (EvOpen path) s)).
Proof.
  unfold open_read, bind, emit, modify, get_state. cbn [files snd].
  now destruct (Dict.get path (files s)).
Qed.

(** The call as a run of the loop on the lines of the file. *)
Lemma update_rlc_from_bom_run s bom_file contents delimiter valuefield comptype refdes :
  Dict.get bom_file (files s) = Some contents ->
  update_rlc_from_bom bom_file delimiter valuefield comptype refdes s
  = match for_acc (readlines contents) bom_start
            (bom_line delimiter valuefield comptype refdes)
            (snd (emit (EvOpen bom_file) s)) with
    | (Ok loc, s') => (Ok (found loc), s')
    | (Raise _, s') => (Ok false, s')
    end.
Proof.
  intros Hfile.
  unfold update_rlc_from_bom, aedt_exception_handler, try_except,
    update_rlc_from_bom_body.
  unfold bind at 1. rewrite open_read_run, Hfile.
  unfold bind. fold bom_start.
  destruct (for_acc _ _ _ _) as [[loc|e] s']; reflexivity.
Qed.

(** X16: a BOM file that cannot be opened, or an empty delimiter, makes
    [update_rlc_from_bom] answer [False]: the exception is swallowed by
    the decorator and nothing but the attempt to open the file has
    happened. *)
Theorem update_rlc_from_bom_unreadable (s : state)
    (bom_file delimiter valuefield comptype refdes : string)
    (Hbad : Dict.get bom_file (files s) = None \/ delimiter = "") :
  fst (update_rlc_from_bom bom_file delimiter valuefield comptype refdes s) = Ok false
  /\ calls (snd (update_rlc_from_bom bom_file delimiter valuefield comptype refdes s))
     = (calls s ++ [EvOpen bom_file])%list.
Proof.
  assert (Hrun : update_rlc_from_bom bom_file delimiter valuefield comptype refdes s
                 = (Ok false, snd (emit (EvOpen bom_file) s))).
  { destruct (Dict.get bom_file (files s)) as [contents|] eqn:Hfile.
    - destruct Hbad as [Hbad| ->]; [discriminate|].
      rewrite (update_rlc_from_bom_run _ _ _ _ _ _ _ Hfile).
      destruct (readlines contents) as [|line lines]; [reflexivity|].
      cbn [for_acc]. unfold bind, bom_line. unfold bind at 1. unfold lift at 1.
      reflexivity.
    - unfold update_rlc_from_bom, aedt_exception_handler, try_except,
        update_rlc_from_bom_body.
      unfold bind at 1. rewrite open_read_run, Hfile. reflexivity. }
  rewrite Hrun. split; reflexivity.
Qed.

Lemma update_rlc_from_bom_unreadable_witness :
  fst (update_rlc_from_bom "missing.csv" default_delimiter default_valuefield
         default_comptype default_refdes (sample_state bom_refdes_second))
  = Ok false
  /\ calls (snd (update_rlc_from_bom "missing.csv" default_delimiter default_valuefield
         default_comptype default_refdes (sample_state bom_refdes_second)))
     = [EvOpen "missing.csv"].
Proof.
  exact (update_rlc_from_bom_unreadable (sample_state bom_refdes_second)
           "missing.csv" default_delimiter default_valuefield default_comptype
           default_refdes (or_introl eq_refl)).
Defined.

Lemma bom_line_short delimiter valuefield comptype refdes line loc s i :
  delimiter <> "" ->
  refdescolumn loc = Some (S i) ->
  str_in refdes (fields delimiter line) = false ->
  (List.length (fields delimiter line) <= S i)%nat ->
  bom_line delimiter valuefield comptype refdes line loc s = (Raise IndexError, s).
Proof.
  intros Hd Hr Hrd Hlen. unfold bom_line. unfold bind at 1. unfold lift at 1.
  rewrite (split_nonempty _ _ Hd). fold (fields delimiter line).
  rewrite Hrd, Hr. cbn [column_truthy].
  unfold bind at 1. unfold lift at 1, list_item at 1.
  apply nth_error_None in Hlen. now rewrite Hlen.
Qed.

(** X17: once the header put the reference designators in a column past
    the first, a line without the header that has no field in that column
    (an empty line at the end of the file, say) ends the call with
    [False]: the rows before it have been assigned, the lines after it
    are not read. *)
Theorem update_rlc_from_bom_short_row (s s1 : state)
    (bom_file contents delimiter valuefield comptype refdes : string)
    (pre post : list string) (line : string) (loc : bom_locals) (i : nat)
    (Hfile : Dict.get bom_file (files s) = Some contents)
    (Hdelimiter : delimiter <> "")
    (Hlines : readlines contents = (pre ++ line :: post)%list)
    (Hpre : for_acc pre bom_start (bom_line delimiter valuefield comptype refdes)
              (snd (emit (EvOpen bom_file) s)) = (Ok loc, s1))
    (Hcolumn : refdescolumn loc = Some (S i))
    (Hheader : str_in refdes (fields delimiter line) = false)
    (Hshort : (List.length (fields delimiter line) <= S i)%nat) :
  update_rlc_from_bom bom_file delimiter valuefield comptype refdes s = (Ok false, s1).
Proof.
  rewrite (update_rlc_from_bom_run _ _ _ _ _ _ _ Hfile), Hlines.
  rewrite for_acc_app. unfold bind at 1. rewrite Hpre.
  cbn [for_acc]. unfold bind at 1.
  now rewrite (bom_line_short _ _ _ _ _ _ _ i Hdelimiter Hcolumn Hheader Hshort).
Qed.

Lemma update_rlc_from_bom_short_row_witness :
  fst (update_rlc_from_bom "bom.csv" default_delimiter default_valuefield
         default_comptype default_refdes (sample_state bom_blank_tail))
  = Ok false
  /\ calls (snd (update_rlc_from_bom "bom.csv" default_delimiter default_valuefield
         default_comptype default_refdes (sample_state bom_blank_tail)))
     = [EvOpen "bom.csv"; EvFindByName "R1"; EvFindByName "R1";
        EvSetComponentProperty "R1" "1" "2"
          {| IsParallel := false; R := Some "10"; L := None; C := None |};
        EvWarning "RLC Properties for Component R1 has been assigned"].
Proof.
  rewrite (update_rlc_from_bom_short_row (sample_state bom_blank_tail)
             (snd (for_acc
                     ["Func des;Pos / Place;Prod name" ++ newline;
                      "10 ohm;R1;Resistor" ++ newline]
                     bom_start
                     (bom_line default_delimiter default_valuefield default_comptype
                        default_refdes)
                     (snd (emit (EvOpen "bom.csv") (sample_state bom_blank_tail)))))
             "bom.csv" bom_blank_tail default_delimiter default_valuefield
             default_comptype default_refdes
             ["Func des;Pos / Place;Prod name" ++ newline;
              "10 ohm;R1;Resistor" ++ newline]
             [] newline
             {| found := true; refdescolumn := Some 1%nat;
                comptypecolumn := Some 2%nat; valuecolumn := Some 0%nat |} 0%nat
             eq_refl ltac:(discriminate) eq_refl eq_refl eq_refl eq_refl
             ltac:(vm_compute; lia)).
  split; reflexivity.
Defined.

Lemma bom_line_header delimiter valuefield comptype refdes line loc s i j t :
  delimiter <> "" ->
  index_of refdes (fields delimiter line) = Some i ->
  index_of valuefield (fields delimiter line) = Some j ->
  index_of comptype (fields delimiter line) = Some t ->
  bom_line delimiter valuefield comptype refdes line loc s
  = (Ok {| found := found loc; refdescolumn := Some i;
           comptypecolumn := Some t; valuecolumn := Some j |}, s).
Proof.
  intros Hd Hr Hv Ht. unfold bom_line. unfold bind at 1. unfold lift at 1.
  rewrite (split_nonempty _ _ Hd). fold (fields delimiter line).
  rewrite (index_of_str_in _ _ _ Hr), (index_of_str_in _ _ _ Hv),
    (index_of_str_in _ _ _ Ht), Hr, Hv, Ht.
  reflexivity.
Qed.

Lemma bom_rows_loop delimiter valuefield comptype refdes i j t rows : forall loc s,
  delimiter <> "" ->
  refdescolumn loc = Some (S i) -> valuecolumn loc = Some j ->
  comptypecolumn loc = Some t ->
  (forall row, In row rows ->
     str_in valuefield (fields delimiter row) = false
     /\ str_in comptype (fields delimiter row) = false
     /\ str_in refdes (fields delimiter row) = false
     /\ (S i < List.length (fields delimiter row))%nat
     /\ (j < List.length (fields delimiter row))%nat
     /\ (t < List.length (fields delimiter row))%nat) ->
  exists loc',
    for_acc rows loc (bom_line delimiter valuefield comptype refdes) s
    = (Ok loc', fold_left (bom_row delimiter (S i) j t) rows s)
    /\ found loc' = (found loc || match rows with [] => false | _ => true end).
Proof.
  induction rows as [|row rows IH]; intros loc s Hd Hr Hv Ht Hrows.
  - exists loc. split; [reflexivity|now rewrite orb_false_r].
  - destruct (Hrows row (or_introl eq_refl)) as (Hvf & Hct & Hrd & Hi & Hj & Htl).
    cbn [for_acc fold_left]. unfold bind at 1.
    rewrite (bom_line_row delimiter valuefield comptype refdes row loc s i j t
               (nth (S i) (fields delimiter row) "")
               (nth j (fields delimiter row) "")
               (nth t (fields delimiter row) "") Hd Hr Hv Ht Hvf Hct Hrd
               (nth_error_nth' _ _ Hi) (nth_error_nth' _ _ Hj) (nth_error_nth' _ _ Htl)).
    fold (bom_row delimiter (S i) j t s row).
    match goal with
    | |- context [for_acc rows ?l _ ?st] =>
        destruct (IH l st Hd eq_refl eq_refl eq_refl) as (loc' & Hrun & Hf);
          [intros r Hin; apply Hrows; now right|]
    end.
    exists loc'. split; [exact Hrun|]. rewrite Hf. cbn [found].
    now rewrite orb_true_r.
Qed.

(** X18: a BOM whose first line is a header naming the three columns, the
    reference designators past the first column, and whose other lines
    are rows with a field in each of the three columns: every row is
    assigned in turn, by the first word of its designator and of its
    value and by its type, and the answer is [True] exactly when there is
    at least one row. *)
Theorem update_rlc_from_bom_rows (s : state)
    (bom_file contents delimiter valuefield comptype refdes : string)
    (header : string) (rows : list string) (i j t : nat)
    (Hfile : Dict.get bom_file (files s) = Some contents)
    (Hdelimiter : delimiter <> "")
    (Hlines : readlines contents = header :: rows)
    (Hrefdes : index_of refdes (fields delimiter header) = Some (S i))
    (Hvalue : index_of valuefield (fields delimiter header) = Some j)
    (Htype : index_of comptype (fields delimiter header) = Some t)
    (Hrows : forall row, In row rows ->
       str_in valuefield (fields delimiter row) = false
       /\ str_in comptype (fields delimiter row) = false
       /\ str_in refdes (fields delimiter row) = false
       /\ (S i < List.length (fields delimiter row))%nat
       /\ (j < List.length (fields delimiter row))%nat
       /\ (t < List.length (fields delimiter row))%nat) :
  update_rlc_from_bom bom_file delimiter valuefield comptype refdes s
  = (Ok (match rows with [] => false | _ => true end),
     fold_left (bom_row delimiter (S i) j t) rows (snd (emit (EvOpen bom_file) s))).
Proof.
  rewrite (update_rlc_from_bom_run _ _ _ _ _ _ _ Hfile), Hlines.
  cbn [for_acc]. unfold bind at 1.
  rewrite (bom_line_header _ _ _ _ _ _ _ _ _ _ Hdelimiter Hrefdes Hvalue Htype).
  match goal with
  | |- context [for_acc rows ?l _ ?st] =>
      destruct (bom_rows_loop delimiter valuefield comptype refdes i j t rows l st
                  Hdelimiter eq_refl eq_refl eq_refl Hrows) as (loc' & Hrun & Hf)
  end.
  rewrite Hrun, Hf. reflexivity.
Qed.

Lemma update_rlc_from_bom_rows_witness :
  update_rlc_from_bom "bom.csv" default_delimiter default_valuefield
    default_comptype default_refdes (sample_state bom_refdes_second)
  = (Ok true,
     snd (set_component_rlc "R1" (Some "10") None None false
            (snd (emit (EvOpen "bom.csv") (sample_state bom_refdes_second))))).
Proof.
  exact (update_rlc_from_bom_rows (sample_state bom_refdes_second)
           "bom.csv" bom_refdes_second default_delimiter default_valuefield
           default_comptype default_refdes
           ("Func des;Pos / Place;Prod name" ++ newline)
           ["10 ohm;R1;Resistor" ++ newline] 0%nat 0%nat 2%nat
           eq_refl ltac:(discriminate) eq_refl eq_refl eq_refl eq_refl
           ltac:(intros row [<-|[]]; vm_compute; repeat split; lia)).
Defined.

End BomRows.

(* ===================================================================== *)
(** ** Units and unknown letters in resistor values *)
(* ===================================================================== *)

Section Units.
Import PyStr Components.

Lemma append_empty (s : string) : (s ++ "")%string = s.
Proof. induction s as [|c s IH]; simpl; [reflexivity|now rewrite IH]. Qed.

Lemma plain_no_space n :
  all_chars plain n = true -> all_chars (fun c => negb (is_space c)) n = true.
Proof.
  apply all_chars_impl. intros c Hc.
  destruct (plain_cases c Hc) as (_&_&_&_&_&_&_&_&_&H). now rewrite H.
Qed.

Lemma plain_no_exp n :
  all_chars plain n = true -> all_chars (fun c => negb (is_exp_mark c)) n = true.
Proof.
  apply all_chars_impl. intros c Hc.
  destruct (plain_cases c Hc) as (_&_&_&_&_&_&_&_&H&_). now rewrite H.
Qed.

(** A literal followed by a character [float] does not know is no
    number. *)
Lemma float_letter n c :
  all_chars plain n = true -> n <> "" ->
  plain c = false -> is_exp_mark c = false -> is_space c = false ->
  float (n ++ String c "") = Raise ValueError.
Proof.
  intros Hp Hne Hc He Hs. unfold float.
  rewrite strip_no_space
    by (rewrite all_chars_app, (plain_no_space n Hp); simpl; now rewrite Hs).
  destruct n as [|c0 n]; [congruence|].
  assert (Hp' := Hp). simpl in Hp'. apply andb_true_iff in Hp' as [Hc0 _].
  assert (Hsign : with_sign dec_neg parse_float_body (String c0 n ++ String c "")
                  = parse_float_body (String c0 n ++ String c "")).
  { simpl. destruct c0 as [[] [] [] [] [] [] [] []]; try reflexivity; discriminate. }
  rewrite Hsign. unfold parse_float_body.
  destruct (break_at is_exp_mark (String c0 n ++ String c "")) as [m [e|]] eqn:Hb.
  - exfalso. destruct (break_at_some _ _ _ _ Hb) as (x & Hx & Heq & _).
    assert (Hall : all_chars (fun c => negb (is_exp_mark c))
                     (String c0 n ++ String c "") = true).
    { rewrite all_chars_app, (plain_no_exp _ Hp). simpl. now rewrite He. }
    rewrite Heq, all_chars_app in Hall. simpl in Hall.
    rewrite Hx in Hall. simpl in Hall. now rewrite andb_false_r in Hall.
  - destruct (break_at_none _ _ _ Hb) as [<- _].
    destruct (parse_mantissa (String c0 n ++ String c "")) as [d|] eqn:Hm;
      [|reflexivity].
    exfalso. destruct (mantissa_plain _ _ Hm) as [Hall _].
    rewrite all_chars_app in Hall. simpl in Hall.
    rewrite Hc in Hall. simpl in Hall. now rewrite andb_false_r in Hall.
Qed.

Lemma unread_rewrite c : unread c = true -> resistor_rewrite (String c "") = String c "".
Proof.
  destruct c as [[] [] [] [] [] [] [] []]; intros H; try discriminate H; reflexivity.
Qed.

Lemma unread_cases c :
  unread c = true -> plain c = false /\ is_exp_mark c = false /\ is_space c = false.
Proof.
  unfold unread. intros H. apply negb_true_iff in H.
  apply orb_false_iff in H as [H _]. apply orb_false_iff in H as [H _].
  apply orb_false_iff in H as [H _]. apply orb_false_iff in H as [H H3].
  apply orb_false_iff in H as [H1 H2]. now repeat split.
Qed.

(** X20: after a decimal literal, [resistor_value_parser] drops the unit
    [Ohm] or [ohm] and the spaces before it, also behind a prefix ([kOhm],
    [Mohm], [mOhm], [megohm]); a character it does not know (an upper-case
    [K], say) raises [ValueError]. *)
Theorem resistor_value_parser_units (n : string) (d : decimal)
    (Hn : parse_mantissa n = Some d) :
  resistor_value_parser (RStr (n ++ " Ohm")) = Ok d
  /\ resistor_value_parser (RStr (n ++ "ohm")) = Ok d
  /\ resistor_value_parser (RStr (n ++ " kOhm")) = Ok (dec_scale 3 d)
  /\ resistor_value_parser (RStr (n ++ "Mohm")) = Ok (dec_scale 6 d)
  /\ resistor_value_parser (RStr (n ++ "mOhm")) = Ok (dec_scale (-3) d)
  /\ resistor_value_parser (RStr (n ++ "megohm")) = Ok (dec_scale (-3) d)
  /\ forall c, unread c = true ->
       resistor_value_parser (RStr (n ++ String c "")) = Raise ValueError.
Proof.
  destruct (mantissa_plain n d Hn) as [Hp Hne].
  assert (Hunit : forall u, resistor_rewrite u = "" ->
                    resistor_value_parser (RStr (n ++ u)) = Ok d).
  { intros u Hu. cbn [resistor_value_parser].
    rewrite (resistor_rewrite_passes n u Hp), Hu, append_empty.
    now apply float_literal. }
  split; [now apply Hunit|]. split; [now apply Hunit|].
  split; [now apply (parser_on_suffix n d " kOhm" "3")|].
  split; [now apply (parser_on_suffix n d "Mohm" "6")|].
  split; [now apply (parser_on_suffix n d "mOhm" "-3")|].
  split; [now apply (parser_on_suffix n d "megohm" "-3")|].
  intros c Hc. cbn [resistor_value_parser].
  rewrite (resistor_rewrite_passes n _ Hp), (unread_rewrite c Hc).
  destruct (unread_cases c Hc) as (H1 & H2 & H3).
  now apply float_letter.
Qed.

Lemma resistor_value_parser_units_witness :
  resistor_value_parser (RStr "4.7 kOhm") = Ok (Decimal 47 2)
  /\ resistor_value_parser (RStr "4.7K") = Raise ValueError.
Proof.
  pose proof (resistor_value_parser_units "4.7" (Decimal 47 (-1)) eq_refl)
    as (_ & _ & Hk & _ & _ & _ & Hbad).
  split; [exact Hk|exact (Hbad "K"%char eq_refl)].
Defined.

End Units.

(* ===================================================================== *)
(** ** Deleting the single-pin components a second time *)
(* ===================================================================== *)

Section DeleteTwice.
Import Components.

Lemma find_remove_sub k k' l :
  is_some (find_by_name k (remove_first k' l)) = true ->
  is_some (find_by_name k l) = true.
Proof.
  unfold find_by_name. induction l as [|a l IH]; [discriminate|].
  cbn [remove_first find].
  destruct (String.eqb (RefDes a) k'); destruct (String.eqb (RefDes a) k) eqn:Hk;
    cbn [find]; rewrite ?Hk; auto.
Qed.

Lemma find_purged_sub k ks : forall l,
  is_some (find_by_name k (fold_left (fun l k' => remove_first k' l) ks l)) = true ->
  is_some (find_by_name k l) = true.
Proof.
  induction ks as [|k' ks IH]; intros l H; [exact H|].
  cbn [fold_left] in H. apply IH in H. now apply find_remove_sub in H.
Qed.

Lemma filter_none {A} (p : A -> bool) (l : list A) :
  (forall x, In x l -> p x = false) -> filter p l = [].
Proof.
  induction l as [|x l IH]; intros H; [reflexivity|].
  cbn [filter]. rewrite (H x (or_introl eq_refl)). apply IH.
  intros y Hy. apply H. now right.
Qed.

(** X21: when some component is left in the cache, a second
    [delete_single_pin_rlc] right after the first finds nothing to
    delete: it returns the empty list and leaves cache and layout as the
    first call left them. *)
Theorem delete_single_pin_rlc_twice (s : state) (Hwf : Dict.wf (_cmp s))
    (Hleft : filter (fun e => negb (doomed (layout s) e)) (cached s) <> []) :
  exists s1 s2,
    delete_single_pin_rlc s
    = (Ok (Dict.keys (filter (doomed (layout s)) (cached s))), s1)
    /\ delete_single_pin_rlc s1 = (Ok [], s2)
    /\ _cmp s2 = _cmp s1 /\ layout s2 = layout s1.
Proof.
  destruct (delete_single_pin_rlc_run s Hwf) as (s1 & Hrun & Hc1 & Hl1).
  assert (Hwf1 : Dict.wf (_cmp s1)).
  { rewrite Hc1. apply filter_wf. now apply cached_wf. }
  destruct (delete_single_pin_rlc_run s1 Hwf1) as (s2 & Hrun2 & Hc2 & Hl2).
  assert (Hcached : cached s1 = _cmp s1).
  { unfold cached. destruct (_cmp s1); [now rewrite Hc1 in Hleft|reflexivity]. }
  assert (Hnone : filter (doomed (layout s1)) (cached s1) = []).
  { apply filter_none. intros e He. rewrite Hcached, Hc1 in He.
    apply filter_In in He as [_ He]. apply negb_true_iff in He.
    destruct (doomed (layout s1) e) eqn:Hd; [|reflexivity].
    unfold doomed in *. apply andb_true_iff in Hd as [Hsp Hfound].
    rewrite Hl1 in Hfound. apply find_purged_sub in Hfound.
    now rewrite Hsp, Hfound in He. }
  exists s1, s2. split; [exact Hrun|].
  rewrite Hnone in Hrun2, Hl2. split; [exact Hrun2|]. split; [|exact Hl2].
  rewrite Hc2, Hcached. apply forallb_filter_id.
  apply forallb_forall. intros e He.
  assert (Hin : In e (cached s1)) by now rewrite Hcached.
  destruct (doomed (layout s1) e) eqn:Hd; [|reflexivity].
  assert (In e (filter (doomed (layout s1)) (cached s1)))
    by (apply filter_In; now split).
  now rewrite Hnone in H.
Qed.

Lemma delete_single_pin_rlc_twice_witness :
  exists s1 s2,
    delete_single_pin_rlc (sample_state "") = (Ok ["C1"; "R2"], s1)
    /\ delete_single_pin_rlc s1 = (Ok [], s2)
    /\ _cmp s2 = _cmp s1 /\ layout s2 = layout s1.
Proof.
  exact (delete_single_pin_rlc_twice (sample_state "") ltac:(constructor)
           ltac:(vm_compute; discriminate)).
Defined.

End DeleteTwice.
